(** * The interactive agent of mini-swe-agent: modes, prompts, snapshots, rollback

    A shallow embedding of [src/minisweagent/agents/interactive.py].
    The agent object, the environment, the keyboard and the console are
    threaded through a state-and-exception monad; Python exceptions are
    values of type [Exc]; recursion through [_prompt_and_handle_special]
    is bounded by a fuel argument, and every prompt consumes one keyboard
    event, so fuel above the number of pending events is always enough.
    Texts are UTF-8 byte strings, and [strip], [split] and [int] work on
    their characters.  What [re] does with a pattern that has
    metacharacters, what rich's markup parser rejects and [repr] are
    parameters of the development, the class [Libraries]. *)

From Stdlib Require Import ZArith List String Ascii Bool Lia DecimalString.
From Stdlib Require DecimalPos.
Import ListNotations.

Local Open Scope string_scope.
Local Open Scope Z_scope.

(* ================================================================== *)
(** ** Python string operations used by the agent *)

Module PyStr.

(** A [string] holds a Python [str] in UTF-8, one [ascii] for each byte;
    equality, prefixes and concatenation of such byte strings are those
    of the texts.  White space and decimal digits are properties of
    characters, which [chars] recovers from the bytes. *)

Definition byte (c : ascii) : Z := Z.of_N (N_of_ascii c).

(** The bytes [10xxxxxx] that continue a character. *)
Definition is_continuation (c : ascii) : bool :=
  (128 <=? byte c) && (byte c <? 192).

(** The characters of a text, each as the bytes that encode it: a byte
    that is not a continuation byte starts a character. *)
Fixpoint chars (s : string) : list string :=
  match s with
  | EmptyString => []
  | String c s' =>
      match chars s' with
      | String d g :: gs =>
          if is_continuation d then String c (String d g) :: gs
          else String c EmptyString :: String d g :: gs
      | gs => String c EmptyString :: gs
      end
  end.

(** [''.join(gs)] *)
Fixpoint join (gs : list string) : string :=
  match gs with
  | [] => EmptyString
  | g :: gs' => g ++ join gs'
  end.

(** [ord(g)] for the encoding [g] of one character; [None] when the bytes
    are not the UTF-8 encoding of a character. *)
Definition code_point (g : string) : option Z :=
  match g with
  | String b0 EmptyString =>
      if byte b0 <? 128 then Some (byte b0) else None
  | String b0 (String b1 EmptyString) =>
      if (194 <=? byte b0) && (byte b0 <? 224) && is_continuation b1
      then Some ((byte b0 - 192) * 64 + (byte b1 - 128))
      else None
  | String b0 (String b1 (String b2 EmptyString)) =>
      let cp := (byte b0 - 224) * 4096 + (byte b1 - 128) * 64 + (byte b2 - 128) in
      if (224 <=? byte b0) && (byte b0 <? 240)
         && is_continuation b1 && is_continuation b2
         && (2048 <=? cp) && negb ((55296 <=? cp) && (cp <? 57344))
      then Some cp
      else None
  | String b0 (String b1 (String b2 (String b3 EmptyString))) =>
      let cp := (byte b0 - 240) * 262144 + (byte b1 - 128) * 4096
                + (byte b2 - 128) * 64 + (byte b3 - 128) in
      if (240 <=? byte b0) && (byte b0 <? 245)
         && is_continuation b1 && is_continuation b2 && is_continuation b3
         && (65536 <=? cp) && (cp <? 1114112)
      then Some cp
      else None
  | _ => None
  end.

(** The code points for which [str.isspace] holds: TAB..CR, FS..US, SPACE,
    NEL, NO-BREAK SPACE, OGHAM SPACE MARK, EN QUAD..HAIR SPACE, LINE and
    PARAGRAPH SEPARATOR, NARROW NO-BREAK SPACE, MEDIUM MATHEMATICAL SPACE
    and IDEOGRAPHIC SPACE. *)
Definition is_space_code (cp : Z) : bool :=
  (9 <=? cp) && (cp <=? 13) || (28 <=? cp) && (cp <=? 32)
  || (cp =? 133) || (cp =? 160) || (cp =? 5760)
  || (8192 <=? cp) && (cp <=? 8202)
  || (cp =? 8232) || (cp =? 8233) || (cp =? 8239) || (cp =? 8287)
  || (cp =? 12288).

(** [g.isspace()] for one character. *)
Definition is_space (g : string) : bool :=
  match code_point g with
  | Some cp => is_space_code cp
  | None => false
  end.

Fixpoint drop_spaces (gs : list string) : list string :=
  match gs with
  | g :: gs' => if is_space g then drop_spaces gs' else gs
  | [] => []
  end.

(** Drops trailing white space: a character is kept when something that is
    kept follows it, or when it is not white space itself. *)
Fixpoint drop_spaces_end (gs : list string) : list string :=
  match gs with
  | [] => []
  | g :: gs' =>
      match drop_spaces_end gs' with
      | [] => if is_space g then [] else [g]
      | t => g :: t
      end
  end.

Definition lstrip (s : string) : string := join (drop_spaces (chars s)).

Definition rstrip (s : string) : string := join (drop_spaces_end (chars s)).

(** [s.strip()] *)
Definition strip (s : string) : string :=
  join (drop_spaces_end (drop_spaces (chars s))).

(** [s.split()]: the maximal runs of characters that are not white space,
    in order.  [cur] is the run being read. *)
Definition flush (cur : string) (acc : list string) : list string :=
  match cur with
  | EmptyString => acc
  | _ => cur :: acc
  end.

Fixpoint split_chars (gs : list string) (cur : string) : list string :=
  match gs with
  | [] => flush cur []
  | g :: gs' =>
      if is_space g then flush cur (split_chars gs' EmptyString)
      else split_chars gs' (cur ++ g)
  end.

Definition split (s : string) : list string := split_chars (chars s) EmptyString.

(** [s.startswith(p)] *)
Definition startswith (s p : string) : bool := String.prefix p s.

(** The code points of the digits zero of Unicode 14.0, the version of
    CPython 3.11; the nine code points after each are the digits one to
    nine of the same script. *)
Definition decimal_zeros : list Z :=
  [48; 1632; 1776; 1984; 2406; 2534; 2662; 2790;
   2918; 3046; 3174; 3302; 3430; 3558; 3664; 3792;
   3872; 4160; 4240; 6112; 6160; 6470; 6608; 6784;
   6800; 6992; 7088; 7232; 7248; 42528; 43216; 43264;
   43472; 43504; 43600; 44016; 65296; 66720; 68912; 69734;
   69872; 69942; 70096; 70384; 70736; 70864; 71248; 71360;
   71472; 71904; 72016; 72784; 73040; 73120; 92768; 92864;
   93008; 120782; 120792; 120802; 120812; 120822; 123200; 123632;
   125264; 130032].

(** The value of a decimal digit, in any script. *)
Definition digit_of (g : string) : option Z :=
  match code_point g with
  | Some cp =>
      match find (fun z => (z <=? cp) && (cp <=? z + 9)) decimal_zeros with
      | Some z => Some (cp - z)
      | None => None
      end
  | None => None
  end.

(** The white space that [int] skips around a literal: that of
    [str.isspace] without FS..US. *)
Definition is_int_space (g : string) : bool :=
  match code_point g with
  | Some cp => is_space_code cp && negb ((28 <=? cp) && (cp <=? 31))
  | None => false
  end.

Fixpoint drop_int_spaces (gs : list string) : list string :=
  match gs with
  | g :: gs' => if is_int_space g then drop_int_spaces gs' else gs
  | [] => []
  end.

Fixpoint drop_int_spaces_end (gs : list string) : list string :=
  match gs with
  | [] => []
  | g :: gs' =>
      match drop_int_spaces_end gs' with
      | [] => if is_int_space g then [] else [g]
      | t => g :: t
      end
  end.

(** The digits of an integer literal: decimal digits, single underscores
    allowed between two digits.  [prev] tells whether the previous
    character was a digit. *)
Fixpoint int_digits (gs : list string) (acc : Z) (prev : bool) : option Z :=
  match gs with
  | [] => if prev then Some acc else None
  | g :: gs' =>
      match digit_of g with
      | Some d => int_digits gs' (10 * acc + d) true
      | None =>
          if (String.eqb g "_" && prev)%bool then int_digits gs' acc false
          else None
      end
  end.

(** [int(s)] for a [str] argument, base 10; [None] stands for ValueError.
    The interpreter's limit on the length of a literal
    ([sys.set_int_max_str_digits], 4300 digits unless configured
    otherwise) is not modelled: the conversion is that of an interpreter
    with the limit switched off. *)
Definition py_int (s : string) : option Z :=
  match drop_int_spaces_end (drop_int_spaces (chars s)) with
  | "+" :: r => int_digits r 0 false
  | "-" :: r => option_map Z.opp (int_digits r 0 false)
  | t => int_digits t 0 false
  end.

(** [str(n)] for an [int], with the same limit switched off. *)
Definition str_of_int (n : Z) : string := NilZero.string_of_int (Z.to_int n).

(** [xs[:k]] *)
Definition slice_to {A : Type} (xs : list A) (k : Z) : list A :=
  if k <? 0 then firstn (Z.to_nat (Z.of_nat (List.length xs) + k)) xs
  else firstn (Z.to_nat k) xs.


(** The text of one byte. *)
Definition single (c : ascii) : string := String c EmptyString.

(** Texts of ASCII characters none of which is white space. *)
Definition is_word_byte (c : ascii) : bool :=
  (byte c <? 128) && negb (is_space (String c EmptyString)).

Definition no_space (s : string) : bool :=
  forallb is_word_byte (list_ascii_of_string s).

End PyStr.

(* ================================================================== *)
(** ** Regular expressions *)

Module Re.

(** Regular expressions over bytes, in abstract syntax.  They give the
    patterns without metacharacters their meaning; what [re] does with
    any other pattern is not modelled here (see [Libraries]). *)
Inductive regex : Type :=
| Void : regex                       (* matches nothing *)
| Eps : regex                        (* the empty pattern *)
| Chr : ascii -> regex               (* one byte of a literal *)
| Cat : regex -> regex -> regex
| Alt : regex -> regex -> regex
| Star : regex -> regex.

(** A pattern without metacharacters, such as ["ls"]. *)
Fixpoint literal (s : string) : regex :=
  match s with
  | EmptyString => Eps
  | String c s' => Cat (Chr c) (literal s')
  end.

(** The language of a pattern. *)
Inductive Matches : regex -> string -> Prop :=
| MEps : Matches Eps EmptyString
| MChr c : Matches (Chr c) (String c EmptyString)
| MCat r1 r2 s1 s2 :
    Matches r1 s1 -> Matches r2 s2 -> Matches (Cat r1 r2) (s1 ++ s2)
| MAltL r1 r2 s : Matches r1 s -> Matches (Alt r1 r2) s
| MAltR r1 r2 s : Matches r2 s -> Matches (Alt r1 r2) s
| MStar0 r : Matches (Star r) EmptyString
| MStarS r s1 s2 :
    Matches r s1 -> Matches (Star r) s2 -> Matches (Star r) (s1 ++ s2).

Fixpoint nullable (r : regex) : bool :=
  match r with
  | Void | Chr _ => false
  | Eps | Star _ => true
  | Cat r1 r2 => nullable r1 && nullable r2
  | Alt r1 r2 => nullable r1 || nullable r2
  end.

(** Brzozowski derivative: what is left of [r] after reading [c]. *)
Fixpoint deriv (c : ascii) (r : regex) : regex :=
  match r with
  | Void | Eps => Void
  | Chr d => if Ascii.eqb c d then Eps else Void
  | Cat r1 r2 =>
      if nullable r1 then Alt (Cat (deriv c r1) r2) (deriv c r2)
      else Cat (deriv c r1) r2
  | Alt r1 r2 => Alt (deriv c r1) (deriv c r2)
  | Star r1 => Cat (deriv c r1) (Star r1)
  end.

(** Matching at the start of [s]: some prefix of [s] is in the language
    of [r]. *)
Fixpoint re_match (r : regex) (s : string) : bool :=
  nullable r ||
  match s with
  | EmptyString => false
  | String c s' => re_match (deriv c r) s'
  end.

(** Matching all of [s], for comparison. *)
Fixpoint re_fullmatch (r : regex) (s : string) : bool :=
  match s with
  | EmptyString => nullable r
  | String c s' => re_fullmatch (deriv c r) s'
  end.

End Re.

(* ================================================================== *)
(** ** Data model *)

Module Interactive.
Import PyStr Re.

(** [Literal["human", "confirm", "yolo"]] *)
Inductive Mode : Type := human | confirm | yolo.

Definition Mode_eqb (a b : Mode) : bool :=
  match a, b with
  | human, human | confirm, confirm | yolo, yolo => true
  | _, _ => false
  end.

Definition mode_str (m : Mode) : string :=
  match m with human => "human" | confirm => "confirm" | yolo => "yolo" end.

(** [_MODE_COMMANDS_MAPPING]; [None] when the key is absent. *)
Definition _MODE_COMMANDS_MAPPING (k : string) : option Mode :=
  if String.eqb k "/u" then Some human
  else if String.eqb k "/c" then Some confirm
  else if String.eqb k "/y" then Some yolo
  else None.

Module SnapshotInfo.
Record t : Type := mk
  { name : string; message_count : Z; step_number : Z }.
End SnapshotInfo.

(** One turn of the transcript. *)
Record Message : Type := mkMessage { role : string; content : string }.

(** The whitelist holds its regular expressions as pattern strings. *)
Record InteractiveAgentConfig : Type := mkConfig
  { mode : Mode;
    whitelist_actions : list string;
    confirm_exit : bool }.

(** The fields of the agent object that the interactive layer reads or
    writes. *)
Record InteractiveAgent : Type := mkAgent
  { config : InteractiveAgentConfig;
    messages : list Message;
    snapshots : list SnapshotInfo.t;
    step_number : Z }.

(** The exceptions that travel through this file.  [KeyboardInterrupt]
    derives from BaseException only; every other one is an [Exception]. *)
Inductive Exc : Type :=
| KeyboardInterrupt
| EOFError
| ValueError (msg : string)
| IndexError (msg : string)
| KeyError (msg : string)
| NonTerminatingException (msg : string)
| OtherException (cls msg : string).

Definition is_Exception (e : Exc) : bool :=
  match e with KeyboardInterrupt => false | _ => true end.

Definition is_KeyboardInterrupt (e : Exc) : bool :=
  match e with KeyboardInterrupt => true | _ => false end.

Definition is_ValueError_or_IndexError (e : Exc) : bool :=
  match e with ValueError _ | IndexError _ => true | _ => false end.

(** [str(e)] *)
Definition exc_str (e : Exc) : string :=
  match e with
  | KeyboardInterrupt | EOFError => EmptyString
  | ValueError m | IndexError m | KeyError m
  | NonTerminatingException m | OtherException _ m => m
  end.

(** The outcome of [re.match(pattern, string)]: a match object, [None],
    or an exception ([re.error] for a pattern that does not compile). *)
Inductive MatchResult : Type :=
| Matched
| NotMatched
| MatchRaises (e : Exc).

(** What the agent takes from its libraries and this development does not
    define: [re.match] for a pattern with metacharacters; the message of
    the MarkupError that rich's [console.print] raises for a text, if it
    raises one; and [repr] of a [str]. *)
Class Libraries : Type := mkLibraries
  { re_match_special : string -> string -> MatchResult;
    markup_error : string -> option string;
    repr : string -> string }.

(** The characters that are special in a pattern. *)
Definition metacharacters : string := ".^$*+?{}[]\|()".

Definition is_metachar (c : ascii) : bool :=
  existsb (Ascii.eqb c) (list_ascii_of_string metacharacters).

(** A pattern without metacharacters: it stands for its own text. *)
Definition plain_pattern (pattern : string) : bool :=
  forallb (fun c => negb (is_metachar c)) (list_ascii_of_string pattern).

(** [re.match(pattern, s)].  A pattern without metacharacters is the
    literal of its text and matches when [s] starts with it; the outcome
    for any other pattern is the library's. *)
Definition py_re_match {L : Libraries} (pattern s : string) : MatchResult :=
  if plain_pattern pattern then
    if re_match (literal pattern) s then Matched else NotMatched
  else re_match_special pattern s.

(** What the operator does at a prompt: type a line, press Ctrl-C or
    press Ctrl-D. *)
Inductive Key : Type := Line (s : string) | CtrlC | CtrlD.

(** The environment collaborator: which optional methods it has
    ([hasattr]), its configured working directory, and what the two calls
    do to the environment's own state; [Some e] means the call raised
    [e]. *)
Record Environment (E : Type) : Type := mkEnv
  { has_create_snapshot : bool;
    cwd : string;
    has_rollback_snapshot : bool;
    create_snapshot : string -> E -> option Exc * E;
    rollback_snapshot : string -> E -> option Exc * E }.

Arguments has_create_snapshot {E} _.
Arguments cwd {E} _.
Arguments has_rollback_snapshot {E} _.
Arguments create_snapshot {E} _ _ _.
Arguments rollback_snapshot {E} _ _ _.

Record World (E : Type) : Type := mkWorld
  { self : InteractiveAgent;
    env_state : E;
    keyboard : list Key;        (* what the operator will do, in order *)
    console : list string }.    (* what has been printed, in order *)

Arguments mkWorld {E} _ _ _ _.
Arguments self {E} _.
Arguments env_state {E} _.
Arguments keyboard {E} _.
Arguments console {E} _.

Definition dict : Type := list (string * string).

Fixpoint dict_get (d : dict) (k : string) : option string :=
  match d with
  | [] => None
  | (k', v) :: d' => if String.eqb k' k then Some v else dict_get d' k
  end.

(* ================================================================== *)
(** ** The monad of agent methods *)

Inductive Outcome (A : Type) : Type :=
| Return (a : A)
| Raise (e : Exc)
| OutOfFuel.

Arguments Return {A} _.
Arguments Raise {A} _.
Arguments OutOfFuel {A}.

Definition M (E A : Type) : Type := World E -> Outcome A * World E.

Definition ret {E A} (a : A) : M E A := fun w => (Return a, w).

Definition raise {E A} (e : Exc) : M E A := fun w => (Raise e, w).

Definition out_of_fuel {E A} : M E A := fun w => (OutOfFuel, w).

Definition bind {E A B} (m : M E A) (k : A -> M E B) : M E B :=
  fun w =>
    match m w with
    | (Return a, w') => k a w'
    | (Raise e, w') => (Raise e, w')
    | (OutOfFuel, w') => (OutOfFuel, w')
    end.

Notation "x <- m ;; k" := (bind m (fun x => k))
  (at level 61, m at next level, right associativity).
Notation "m ;;; k" := (bind m (fun _ => k))
  (at level 61, right associativity).

(** [try: m  except <catches> as e: h e] *)
Definition try_except {E A} (m : M E A) (catches : Exc -> bool)
    (h : Exc -> M E A) : M E A :=
  fun w =>
    match m w with
    | (Raise e, w') => if catches e then h e w' else (Raise e, w')
    | r => r
    end.

Definition get_self {E} : M E InteractiveAgent := fun w => (Return (self w), w).

Definition modify_self {E} (f : InteractiveAgent -> InteractiveAgent) : M E unit :=
  fun w => (Return tt, mkWorld (f (self w)) (env_state w) (keyboard w) (console w)).

Definition nl : string := String "010"%char EmptyString.

(** An outcome that does not depend on the world. *)
Definition lift {E A} (o : Outcome A) : M E A := fun w => (o, w).

(** [console.print(s, end=...)]: the text is appended to the console.
    This is the printing of the texts that the agent makes of its own
    literals, mode names, integers and snapshot names, which are valid
    console markup. *)
Definition console_print_end {E} (s : string) : M E unit :=
  fun w => (Return tt, mkWorld (self w) (env_state w) (keyboard w) (console w ++ [s])).

(** [console.print(s)] *)
Definition console_print {E} (s : string) : M E unit := console_print_end (s ++ nl).

(** [console.print(s)] for a text that holds text from elsewhere: rich
    reads it as markup and raises MarkupError when that fails, for
    instance at a closing tag that closes nothing. *)
Definition console_print_markup {E} {L : Libraries} (s : string) : M E unit :=
  match markup_error s with
  | Some m => raise (OtherException "MarkupError" m)
  | None => console_print s
  end.

(** [prompt_session.prompt("")]: the next line, or KeyboardInterrupt on
    Ctrl-C, or EOFError on Ctrl-D or at the end of the input. *)
Definition prompt_session_prompt {E} : M E string :=
  fun w =>
    match keyboard w with
    | [] => (Raise EOFError, w)
    | Line s :: ks => (Return s, mkWorld (self w) (env_state w) ks (console w))
    | CtrlC :: ks => (Raise KeyboardInterrupt, mkWorld (self w) (env_state w) ks (console w))
    | CtrlD :: ks => (Raise EOFError, mkWorld (self w) (env_state w) ks (console w))
    end.

(** A call of an environment method. *)
Definition env_call {E} (f : E -> option Exc * E) : M E unit :=
  fun w =>
    let '(r, es) := f (env_state w) in
    let w' := mkWorld (self w) es (keyboard w) (console w) in
    match r with
    | None => (Return tt, w')
    | Some e => (Raise e, w')
    end.

Fixpoint for_each {E A} (xs : list A) (body : A -> M E unit) : M E unit :=
  match xs with
  | [] => ret tt
  | x :: xs' => body x ;;; for_each xs' body
  end.

(** Field updates of the agent object. *)
Definition set_mode (m : Mode) (a : InteractiveAgent) : InteractiveAgent :=
  mkAgent (mkConfig m (whitelist_actions (config a)) (confirm_exit (config a)))
          (messages a) (snapshots a) (step_number a).

Definition set_messages (ms : list Message) (a : InteractiveAgent) : InteractiveAgent :=
  mkAgent (config a) ms (snapshots a) (step_number a).

Definition set_snapshots (ss : list SnapshotInfo.t) (a : InteractiveAgent) : InteractiveAgent :=
  mkAgent (config a) (messages a) ss (step_number a).

Definition set_step_number (n : Z) (a : InteractiveAgent) : InteractiveAgent :=
  mkAgent (config a) (messages a) (snapshots a) n.

(* ================================================================== *)
(** ** The methods of [InteractiveAgent] *)

Section Methods.

Context {E : Type} {L : Libraries}.
Variable env : Environment E.

(** The model collaborator, as far as the banner of [add_message] shows
    it: [self.model.n_calls] and [self.model.cost] rendered with two
    decimals. *)
Variable model_n_calls : Z.
Variable model_cost_2f : string.

Definition upper (c : ascii) : ascii :=
  let n := nat_of_ascii c in
  if ((97 <=? n) && (n <=? 122))%nat then ascii_of_nat (n - 32) else c.

Definition lower (c : ascii) : ascii :=
  let n := nat_of_ascii c in
  if ((65 <=? n) && (n <=? 90))%nat then ascii_of_nat (n + 32) else c.

Fixpoint map_string (f : ascii -> ascii) (s : string) : string :=
  match s with
  | EmptyString => EmptyString
  | String c s' => String (f c) (map_string f s')
  end.

(** [s.capitalize()] on ASCII text. *)
Definition capitalize (s : string) : string :=
  match s with
  | EmptyString => EmptyString
  | String c s' => String (upper c) (map_string lower s')
  end.

(** Modelled from the spec: [DefaultAgent.add_message], which is not in
    this file; the transcript is an ordered sequence of turns and a new
    turn goes to its end. *)
Definition super_add_message (role content : string) : M E unit :=
  modify_self (fun a => set_messages (messages a ++ [mkMessage role content]) a).

Definition add_message (role content : string) : M E unit :=
  super_add_message role content ;;;
  (if String.eqb role "assistant" then
     console_print_end
       (nl ++ "[red][bold]mini-swe-agent[/bold] (step [bold]" ++ str_of_int model_n_calls
           ++ "[/bold], [bold]$" ++ model_cost_2f ++ "[/bold]):[/red]" ++ nl)
   else
     console_print_end
       (nl ++ "[bold green]" ++ capitalize role ++ "[/bold green]:" ++ nl)) ;;;
  console_print content.

(** [any(re.match(r, action) for r in patterns)]: the patterns are tried
    in order up to the first that matches, and an exception of [re.match]
    ends the search. *)
Fixpoint any_match (patterns : list string) (action : string) : Outcome bool :=
  match patterns with
  | [] => Return false
  | r :: patterns' =>
      match py_re_match r action with
      | Matched => Return true
      | NotMatched => any_match patterns' action
      | MatchRaises e => Raise e
      end
  end.

(** [and] does not evaluate its second operand outside confirm mode. *)
Definition should_ask_confirmation (a : InteractiveAgent) (action : string)
  : Outcome bool :=
  if Mode_eqb (mode (config a)) confirm then
    match any_match (whitelist_actions (config a)) action with
    | Return b => Return (negb b)
    | Raise e => Raise e
    | OutOfFuel => OutOfFuel
    end
  else Return false.

Definition help_text (m : Mode) : string :=
  "Current mode: [bold green]" ++ mode_str m ++ "[/bold green]" ++ nl ++
  "[bold green]/y[/bold green] to switch to [bold yellow]yolo[/bold yellow] mode (execute LM commands without confirmation)" ++ nl ++
  "[bold green]/c[/bold green] to switch to [bold yellow]confirmation[/bold yellow] mode (ask for confirmation before executing LM commands)" ++ nl ++
  "[bold green]/u[/bold green] to switch to [bold yellow]human[/bold yellow] mode (execute commands issued by the user)" ++ nl ++
  "[bold green]/r[/bold green] to list available snapshots" ++ nl ++
  "[bold green]/r N[/bold green] to rollback to step N" ++ nl.

Definition plain_prompt : string := "[bold yellow]>[/bold yellow] ".

Definition snapshot_line (s : SnapshotInfo.t) : string :=
  "  Step " ++ str_of_int (SnapshotInfo.step_number s) ++ ": " ++ SnapshotInfo.name s
    ++ " (" ++ str_of_int (SnapshotInfo.message_count s) ++ " messages)".

(** [next((s for s in self.snapshots if s.step_number == target_step), None)] *)
Definition find_snapshot (ss : list SnapshotInfo.t) (target_step : Z)
  : option SnapshotInfo.t :=
  find (fun s => SnapshotInfo.step_number s =? target_step) ss.

(** [[s for s in self.snapshots if s.step_number <= target_step]] *)
Definition keep_upto (ss : list SnapshotInfo.t) (target_step : Z)
  : list SnapshotInfo.t :=
  filter (fun s => SnapshotInfo.step_number s <=? target_step) ss.

(** The three assignments of a successful rollback. *)
Definition apply_rollback (snapshot_info : SnapshotInfo.t) (target_step : Z)
    (a : InteractiveAgent) : InteractiveAgent :=
  let a1 := set_messages (slice_to (messages a) (SnapshotInfo.message_count snapshot_info)) a in
  let a2 := set_snapshots (keep_upto (snapshots a1) target_step) a1 in
  set_step_number (target_step + 1) a2.

(** The [try] block of [_handle_rollback].  [Some v] is a [return v] from
    inside the block, [None] is falling out of its end.  The ValueError
    of [int] is caught by the handler before anything reads its message,
    which is left short here. *)
Definition rollback_try_block (reprompt : string -> M E string)
    (parts : list string) : M E (option string) :=
  target_step <-
    match nth_error parts 1 with
    | None => raise (IndexError "list index out of range")
    | Some arg =>
        match py_int arg with
        | None => raise (ValueError "invalid literal for int() with base 10")
        | Some n => ret n
        end
    end ;;
  a <- get_self ;;
  match find_snapshot (snapshots a) target_step with
  | None =>
      console_print ("[red]Snapshot for step " ++ str_of_int target_step ++ " not found[/red]") ;;;
      v <- reprompt plain_prompt ;;
      ret (Some v)
  | Some snapshot_info =>
      if has_rollback_snapshot env then
        env_call (rollback_snapshot env (SnapshotInfo.name snapshot_info)) ;;;
        modify_self (apply_rollback snapshot_info target_step) ;;;
        console_print ("[bold green]Rolled back to step " ++ str_of_int target_step ++ "[/bold green]") ;;;
        ret None
      else
        console_print "[red]Environment does not support rollback[/red]" ;;;
        ret None
  end.

(** [_handle_rollback], with the method it calls to prompt again as a
    parameter. *)
Definition _handle_rollback_with (reprompt : string -> M E string)
    (user_input : string) : M E string :=
  let parts := split user_input in
  if (List.length parts =? 1)%nat then
    a <- get_self ;;
    match snapshots a with
    | [] => console_print "[yellow]No snapshots available[/yellow]"
    | _ =>
        console_print "[bold green]Available snapshots:[/bold green]" ;;;
        for_each (snapshots a) (fun snapshot => console_print (snapshot_line snapshot))
    end ;;;
    reprompt plain_prompt
  else
    r <- try_except (rollback_try_block reprompt parts)
           is_ValueError_or_IndexError
           (fun _ =>
              console_print "[red]Invalid rollback command. Use /r to list snapshots or /r N to rollback to step N[/red]" ;;;
              ret None) ;;
    match r with
    | Some v => ret v
    | None => reprompt plain_prompt
    end.

Fixpoint _prompt_and_handle_special (fuel : nat) (prompt : string) : M E string :=
  match fuel with
  | O => out_of_fuel
  | S fuel' =>
      console_print_end prompt ;;;
      user_input <- prompt_session_prompt ;;
      if String.eqb user_input "/h" then
        a <- get_self ;;
        console_print (help_text (mode (config a))) ;;;
        _prompt_and_handle_special fuel' prompt
      else if startswith user_input "/r" then
        _handle_rollback_with (_prompt_and_handle_special fuel') user_input
      else
        match _MODE_COMMANDS_MAPPING user_input with
        | Some m =>
            a <- get_self ;;
            if Mode_eqb (mode (config a)) m then
              _prompt_and_handle_special fuel'
                ("[bold red]Already in " ++ mode_str (mode (config a)) ++ " mode.[/bold red]" ++ nl ++ prompt)
            else
              modify_self (set_mode m) ;;;
              console_print ("Switched to [bold green]" ++ mode_str m ++ "[/bold green] mode.") ;;;
              ret user_input
        | None => ret user_input
        end
  end.

Definition _handle_rollback (fuel : nat) (user_input : string) : M E string :=
  _handle_rollback_with (_prompt_and_handle_special fuel) user_input.

(** The text of the warning for a failed snapshot; the exception's own
    text goes into it as it is. *)
Definition snapshot_warning (e : Exc) : string :=
  "[yellow]Warning: Failed to create snapshot: " ++ exc_str e ++ "[/yellow]".

Definition _create_snapshot : M E unit :=
  if has_create_snapshot env && negb (String.eqb (cwd env) EmptyString) then
    a <- get_self ;;
    let snapshot_name := "step-" ++ str_of_int (step_number a) in
    try_except
      (env_call (create_snapshot env snapshot_name) ;;;
       modify_self (fun a =>
         set_snapshots
           (snapshots a ++
              [SnapshotInfo.mk snapshot_name (Z.of_nat (List.length (messages a))) (step_number a)]) a) ;;;
       modify_self (fun a => set_step_number (step_number a + 1) a))
      is_Exception
      (fun e => console_print_markup (snapshot_warning e))
  else ret tt.

Definition confirmation_prompt : string :=
  "[bold yellow]Execute?[/bold yellow] [green][bold]Enter[/bold] to confirm[/green], "
  ++ "or [green]Type a comment/command[/green] (/h for available commands)" ++ nl
  ++ "[bold yellow]>[/bold yellow] ".

Definition ask_confirmation (fuel : nat) : M E unit :=
  line <- _prompt_and_handle_special fuel confirmation_prompt ;;
  let user_input := strip line in
  if String.eqb user_input EmptyString || String.eqb user_input "/y" then ret tt
  else if String.eqb user_input "/u" then
    raise (NonTerminatingException "Command not executed. Switching to human mode")
  else
    raise (NonTerminatingException
             ("Command not executed. The user rejected your command with the following message: "
                ++ user_input)).

(** The confirmation stage of [execute_action]: everything before the
    snapshot attempt. *)
Definition confirmation_stage (fuel : nat) (action : dict) : M E unit :=
  match dict_get action "action" with
  | None => raise (KeyError "'action'")
  | Some cmd =>
      a <- get_self ;;
      ask <- lift (should_ask_confirmation a cmd) ;;
      if ask then ask_confirmation fuel else ret tt
  end.

(** [execute_action]; [super_execute_action] is the base executor. *)
Definition execute_action {R : Type} (super_execute_action : dict -> M E R)
    (fuel : nat) (action : dict) : M E R :=
  confirmation_stage fuel action ;;;
  _create_snapshot ;;;
  super_execute_action action.

Definition interrupt_prompt : string :=
  nl ++ nl ++ "[bold yellow]Interrupted.[/bold yellow] "
  ++ "[green]Type a comment/command[/green] (/h for available commands)"
  ++ nl ++ "[bold yellow]>[/bold yellow] ".

(** The message carried by the exception that [step] raises after an
    interruption, from the line the operator typed. *)
Definition interruption_message (line : string) : string :=
  let m := strip line in
  match String.eqb m EmptyString, _MODE_COMMANDS_MAPPING m with
  | false, None => m
  | _, _ => "Temporary interruption caught."
  end.

(** [step]; [super_step] is the base loop's single step. *)
Definition step {R : Type} (super_step : M E R) (fuel : nat) : M E R :=
  try_except
    (console_print "<Rule>" ;;; super_step)
    is_KeyboardInterrupt
    (fun _ =>
       line <- _prompt_and_handle_special fuel interrupt_prompt ;;
       raise (NonTerminatingException ("Interrupted by user: " ++ interruption_message line))).

(** [input(prompt)]: the prompt is written and one line is read from the
    operator. *)
Definition builtin_input (prompt : string) : M E string :=
  console_print_end prompt ;;; prompt_session_prompt.

Definition is_LimitsExceeded (e : Exc) : bool :=
  match e with OtherException cls _ => String.eqb cls "LimitsExceeded" | _ => false end.

Definition is_Submitted (e : Exc) : bool :=
  match e with OtherException cls _ => String.eqb cls "Submitted" | _ => false end.

(** The assistant turn that [query] makes of a command typed in human
    mode. *)
Definition command_block (command : string) : string :=
  nl ++ "```bash" ++ nl ++ command ++ nl ++ "```".

Section Query.

(** The ValueError of [int] and of [float] for a text that is no
    literal; [int] shows at most 200 characters of the text's [repr]. *)
Definition invalid_int_literal (s : string) : Exc :=
  ValueError ("invalid literal for int() with base 10: "
                ++ join (firstn 200 (chars (repr s)))).

Definition invalid_float_literal (s : string) : Exc :=
  ValueError ("could not convert string to float: " ++ repr s).

(** What [query] needs of the base class and of the numbers it reads:
    the base query, the rendering of the configured limits and of the
    spend so far, the assignments to [config.step_limit] and
    [config.cost_limit], and [float] on a string ([None] for
    ValueError). *)
Context {F : Type}.
Variable super_query : M E dict.
Variable limits_report : World E -> string.
Variable set_step_limit : Z -> M E unit.
Variable set_cost_limit : F -> M E unit.
Variable py_float : string -> option F.

(** Lines 74 to 84: the base query, and the dialogue about new limits
    when it raises LimitsExceeded.  The status line shown while waiting
    is not modelled. *)
Definition query_model : M E dict :=
  try_except super_query is_LimitsExceeded
    (fun _ =>
       (fun w => console_print (limits_report w) w) ;;;
       line <- builtin_input "New step limit: " ;;
       match py_int line with
       | None => raise (invalid_int_literal line)
       | Some n =>
           set_step_limit n ;;;
           line <- builtin_input "New cost limit: " ;;
           match py_float line with
           | None => raise (invalid_float_literal line)
           | Some c => set_cost_limit c ;;; super_query
           end
       end).

Definition query (fuel : nat) : M E dict :=
  a <- get_self ;;
  if Mode_eqb (mode (config a)) human then
    command <- _prompt_and_handle_special fuel plain_prompt ;;
    if String.eqb command "/y" || String.eqb command "/c" then query_model
    else
      let content := command_block command in
      add_message "assistant" content ;;;
      ret [("content", content)]
  else query_model.

End Query.

Definition finish_prompt : string :=
  "[bold green]Agent wants to finish.[/bold green] "
  ++ "[green]Type a comment to give it a new task or press enter to quit." ++ nl
  ++ "[bold yellow]>[/bold yellow] ".

(** [has_finished]; [super_has_finished] is the base method. *)
Definition has_finished {R : Type} (super_has_finished : dict -> M E R)
    (fuel : nat) (output : dict) : M E R :=
  try_except (super_has_finished output) is_Submitted
    (fun e =>
       a <- get_self ;;
       (if confirm_exit (config a) then
          console_print_end finish_prompt ;;;
          line <- _prompt_and_handle_special fuel EmptyString ;;
          let new_task := strip line in
          if String.eqb new_task EmptyString then ret tt
          else raise (NonTerminatingException ("The user added a new task: " ++ new_task))
        else ret tt) ;;;
       raise e).

End Methods.

(* ================================================================== *)
(** ** Sessions: sequences of operations on one agent *)

(** The agent after [__init__]: an empty ledger and step counter 0.  The
    configuration and the transcript come from the base class. *)
Definition fresh_agent (cfg : InteractiveAgentConfig) (msgs : list Message)
  : InteractiveAgent :=
  mkAgent cfg msgs [] 0.

Definition fresh_session {E} (cfg : InteractiveAgentConfig) (msgs : list Message)
    (es : E) : World E :=
  mkWorld (fresh_agent cfg msgs) es [] [].

(** What the handler does before it prompts again: the handler run with a
    prompt that returns at once. *)
Definition rollback_effect {E} (env : Environment E) (user_input : string)
  : M E string :=
  _handle_rollback_with env (fun _ => ret EmptyString) user_input.

(** A line that ends a prompt whatever the mode: not the help command,
    not a rollback command, not a mode token. *)
Definition plain_line (l : string) : bool :=
  negb (String.eqb l "/h") && negb (startswith l "/r")
  && match _MODE_COMMANDS_MAPPING l with None => true | Some _ => false end.

(** The world after [console.print(s, end=...)] and after the operator's
    next key has been read. *)
Definition shown {E} (s : string) (w : World E) : World E :=
  mkWorld (self w) (env_state w) (keyboard w) (console w ++ [s]).

Definition typed {E} (ks : list Key) (w : World E) : World E :=
  mkWorld (self w) (env_state w) ks (console w).

(** One turn of [_prompt_and_handle_special] as the body of a loop:
    [continue] is the next turn, and the rollback handler is written as
    its effect followed by the next turn. *)
Definition prompt_once {E} (env : Environment E) (continue : string -> M E string)
    (prompt : string) : M E string :=
  console_print_end prompt ;;;
  user_input <- prompt_session_prompt ;;
  if String.eqb user_input "/h" then
    a <- get_self ;;
    console_print (help_text (mode (config a))) ;;;
    continue prompt
  else if startswith user_input "/r" then
    rollback_effect env user_input ;;; continue plain_prompt
  else
    match _MODE_COMMANDS_MAPPING user_input with
    | Some m =>
        a <- get_self ;;
        if Mode_eqb (mode (config a)) m then
          continue ("[bold red]Already in " ++ mode_str (mode (config a)) ++ " mode.[/bold red]" ++ nl ++ prompt)
        else
          modify_self (set_mode m) ;;;
          console_print ("Switched to [bold green]" ++ mode_str m ++ "[/bold green] mode.") ;;;
          ret user_input
    | None => ret user_input
    end.

(** The runs of the prompt as a relation: [prompt_run env p w o w'] when
    prompting with [p] in world [w] ends with outcome [o] in world [w']. *)
Inductive prompt_run {E} (env : Environment E)
  : string -> World E -> Outcome string -> World E -> Prop :=
| run_eof p w :
    keyboard w = [] ->
    prompt_run env p w (Raise EOFError) (shown p w)
| run_ctrl_c p w ks :
    keyboard w = CtrlC :: ks ->
    prompt_run env p w (Raise KeyboardInterrupt) (typed ks (shown p w))
| run_ctrl_d p w ks :
    keyboard w = CtrlD :: ks ->
    prompt_run env p w (Raise EOFError) (typed ks (shown p w))
| run_help p w ks o w' :
    keyboard w = Line "/h" :: ks ->
    prompt_run env p
      (shown (help_text (mode (config (self w))) ++ nl) (typed ks (shown p w))) o w' ->
    prompt_run env p w o w'
| run_rollback_raises p w l ks e w2 :
    keyboard w = Line l :: ks -> startswith l "/r" = true ->
    rollback_effect env l (typed ks (shown p w)) = (Raise e, w2) ->
    prompt_run env p w (Raise e) w2
| run_rollback p w l ks v w2 o w' :
    keyboard w = Line l :: ks -> startswith l "/r" = true ->
    rollback_effect env l (typed ks (shown p w)) = (Return v, w2) ->
    prompt_run env plain_prompt w2 o w' ->
    prompt_run env p w o w'
| run_same_mode p w l ks o w' :
    keyboard w = Line l :: ks ->
    _MODE_COMMANDS_MAPPING l = Some (mode (config (self w))) ->
    prompt_run env
      ("[bold red]Already in " ++ mode_str (mode (config (self w))) ++ " mode.[/bold red]" ++ nl ++ p)
      (typed ks (shown p w)) o w' ->
    prompt_run env p w o w'
| run_switch p w l ks m :
    keyboard w = Line l :: ks ->
    _MODE_COMMANDS_MAPPING l = Some m -> m <> mode (config (self w)) ->
    prompt_run env p w (Return l)
      (shown (("Switched to [bold green]" ++ mode_str m ++ "[/bold green] mode.") ++ nl)
         (mkWorld (set_mode m (self w)) (env_state w) ks (console w ++ [p])))
| run_plain p w l ks :
    keyboard w = Line l :: ks -> plain_line l = true ->
    prompt_run env p w (Return l) (typed ks (shown p w)).

(** The world as the operator sits down at a prompt with [keys] to type. *)
Definition with_keyboard {E} (keys : list Key) (w : World E) : World E :=
  mkWorld (self w) (env_state w) keys (console w).

(** One operation that touches the transcript, the ledger or the step
    counter: a turn is appended, a snapshot is attempted, or the operator
    is prompted and types [keys]. *)
Inductive Op : Type :=
| OpAddMessage (role content : string)
| OpCreateSnapshot
| OpPrompt (prompt : string) (keys : list Key).

Definition run_op {E} {L : Libraries} (env : Environment E) (op : Op) (w : World E)
  : World E :=
  match op with
  | OpAddMessage r c => snd (super_add_message r c w)
  | OpCreateSnapshot => snd (_create_snapshot env w)
  | OpPrompt p keys =>
      snd (_prompt_and_handle_special env (S (List.length keys)) p (with_keyboard keys w))
  end.

Definition run_ops {E} {L : Libraries} (env : Environment E) (ops : list Op)
    (w : World E) : World E :=
  fold_left (fun w op => run_op env op w) ops w.

(** Sessions made of appended turns and snapshot attempts only. *)
Inductive SnapOp : Type :=
| Append (role content : string)
| Snapshot.

Definition op_of (o : SnapOp) : Op :=
  match o with
  | Append r c => OpAddMessage r c
  | Snapshot => OpCreateSnapshot
  end.

(** The transcript length at each [Snapshot] of a session that starts
    with [len] turns. *)
Fixpoint capture_lengths (ops : list SnapOp) (len : nat) : list nat :=
  match ops with
  | [] => []
  | Append _ _ :: ops' => capture_lengths ops' (S len)
  | Snapshot :: ops' => len :: capture_lengths ops' len
  end.

(** The records that snapshots taken at transcript lengths [lens] leave
    when the step counter starts at [k]. *)
Fixpoint records_from (k : Z) (lens : list nat) : list SnapshotInfo.t :=
  match lens with
  | [] => []
  | len :: lens' =>
      SnapshotInfo.mk ("step-" ++ str_of_int k) (Z.of_nat len) k
        :: records_from (k + 1) lens'
  end.

(** The ledger invariant: the step counter is the length of the ledger and
    every record sits at the index that is its step number. *)
Definition ledger_indexed (a : InteractiveAgent) : Prop :=
  step_number a = Z.of_nat (List.length (snapshots a)) /\
  forall i r, nth_error (snapshots a) i = Some r ->
              SnapshotInfo.step_number r = Z.of_nat i.

(** Every record's [message_count] is a length that the transcript still
    has, and the counts do not decrease along the ledger. *)
Definition counts_bounded (a : InteractiveAgent) : Prop :=
  (forall r, In r (snapshots a) ->
     0 <= SnapshotInfo.message_count r <= Z.of_nat (List.length (messages a))) /\
  forall i j ri rj, (i <= j)%nat ->
     nth_error (snapshots a) i = Some ri -> nth_error (snapshots a) j = Some rj ->
     SnapshotInfo.message_count ri <= SnapshotInfo.message_count rj.

(** Both together: what every session keeps true of its agent. *)
Definition ledger_ok (a : InteractiveAgent) : Prop :=
  ledger_indexed a /\ counts_bounded a.

(** The guard of [_create_snapshot]: the environment has the method and a
    working directory is configured. *)
Definition snapshot_capable {E} (env : Environment E) : Prop :=
  has_create_snapshot env = true /\ cwd env <> EmptyString.

(** The agent after a successful snapshot: one more record, named after
    the old step counter, and the counter one up. *)
Definition after_snapshot (a : InteractiveAgent) : InteractiveAgent :=
  mkAgent (config a) (messages a)
    (snapshots a ++
       [SnapshotInfo.mk ("step-" ++ str_of_int (step_number a))
          (Z.of_nat (List.length (messages a))) (step_number a)])
    (step_number a + 1).

Definition is_rollback_key (k : Key) : bool :=
  match k with Line l => startswith l "/r" | _ => false end.

(** The operator types no rollback command. *)
Definition no_rollback_keys (ks : list Key) : bool :=
  forallb (fun k => negb (is_rollback_key k)) ks.

Definition is_line (k : Key) : bool :=
  match k with Line _ => true | _ => false end.

Definition is_plain_key (k : Key) : bool :=
  match k with Line l => plain_line l | _ => false end.

(** A key at which the prompt goes round again while the agent is in mode
    [m]: the help command, a rollback command, or the token of [m]. *)
Definition is_retry_key (m : Mode) (k : Key) : bool :=
  match k with
  | Line l =>
      String.eqb l "/h" || startswith l "/r"
      || match _MODE_COMMANDS_MAPPING l with
         | Some m' => Mode_eqb m m'
         | None => false
         end
  | _ => false
  end.

(** [r] is the first entry of [W] for which [re.match] on [C] returns
    something else than [None], and [o] is what it returns or raises. *)
Definition first_outcome {L : Libraries} (W : list string) (C r : string)
    (o : MatchResult) : Prop :=
  exists W1 W2,
    W = (W1 ++ r :: W2)%list /\ py_re_match r C = o /\
    forall r', In r' W1 -> py_re_match r' C = NotMatched.

(** The statement that in confirm mode no confirmation is asked exactly
    when some whitelist entry matches at the start of the command. *)
Definition whitelist_decides_confirmation : Prop :=
  forall (L : Libraries) (a : InteractiveAgent) (C : string),
    mode (config a) = confirm ->
    (should_ask_confirmation a C = Return false <->
     exists r, In r (whitelist_actions (config a)) /\ py_re_match r C = Matched).

(* ================================================================== *)
(** ** Concrete environments and sessions *)

(** The libraries on the texts of the sessions below: [(] does not
    compile as a pattern, [[/work]] is a closing tag that closes nothing,
    and [repr] of a text without quotes or escapes is the text in single
    quotes. *)
Definition session_libraries : Libraries :=
  {| re_match_special := fun pattern _ =>
       if String.eqb pattern "(" then
         MatchRaises
           (OtherException "re.error" "missing ), unterminated subpattern at position 0")
       else NotMatched;
     markup_error := fun text =>
       match String.index 0 "[/work]" text with
       | Some i =>
           Some ("closing tag '[/work]' at position " ++ str_of_int (Z.of_nat i)
                   ++ " doesn't match any open tag")
       | None => None
       end;
     repr := fun s => "'" ++ s ++ "'" |}.

(** An environment whose state is a script: each call takes the next
    entry, [Some e] makes it raise [e]; past the end every call
    succeeds. *)
Definition scripted_call (name : string) (script : list (option Exc))
  : option Exc * list (option Exc) :=
  match script with
  | [] => (None, [])
  | r :: script' => (r, script')
  end.

Definition scripted_env : Environment (list (option Exc)) :=
  mkEnv (list (option Exc)) true "/work" true scripted_call scripted_call.

(** An environment that records the calls it receives and always
    succeeds. *)
Definition recording_env : Environment (list string) :=
  mkEnv (list string) true "/work" true
    (fun name log => (None, app log [("create_snapshot " ++ name)%string]))
    (fun name log => (None, app log [("rollback_snapshot " ++ name)%string])).

Definition btrfs_error : Exc :=
  OtherException "RuntimeError" "btrfs: cannot restore snapshot".

Definition default_config : InteractiveAgentConfig := mkConfig confirm [] true.

Definition msg (n : string) : Message := mkMessage "user" n.

(** Three snapshots at steps 0, 1, 2 taken at transcript lengths 2, 5, 9. *)
Definition three_snapshots : list SnapshotInfo.t :=
  [ SnapshotInfo.mk "step-0" 2 0; SnapshotInfo.mk "step-1" 5 1; SnapshotInfo.mk "step-2" 9 2 ].

Definition nine_messages : list Message :=
  map msg ["m0"; "m1"; "m2"; "m3"; "m4"; "m5"; "m6"; "m7"; "m8"].

Definition agent_at_step_3 : InteractiveAgent :=
  mkAgent default_config nine_messages three_snapshots 3.

(** A fresh agent in confirm mode with an empty whitelist, and the
    operator about to answer the confirmation prompt with [no]. *)
Definition rejecting_world : World (list string) :=
  mkWorld (fresh_agent default_config []) [] [Line "no"] [].

Definition rm_action : dict := [("action", "rm -rf /")].

(** The statement that every [execute_action] attempts a snapshot, the
    operator's answer notwithstanding, read on the recording
    environment: its log shows a [create_snapshot] call afterwards. *)
Definition snapshot_attempted_on_every_action : Prop :=
  forall (L : Libraries) (w : World (list string)) (fuel : nat) (action : dict)
         (cmd : string),
    dict_get action "action" = Some cmd ->
    (List.length (keyboard w) < fuel)%nat ->
    exists name,
      In ("create_snapshot " ++ name)
         (env_state (snd (execute_action recording_env (fun a => ret a) fuel action w))).

(** A read-only working directory: the environment's [create_snapshot]
    fails with an error that names the directory in brackets. *)
Definition read_only_error : Exc :=
  OtherException "RuntimeError" "cannot snapshot [/work] read-only".

(** A fresh agent in yolo mode whose environment fails the next call in
    that way. *)
Definition read_only_world : World (list (option Exc)) :=
  mkWorld (fresh_agent (mkConfig yolo [] true) [msg "task"]) [Some read_only_error] [] [].

Definition ls_action : dict := [("action", "ls")].

(** A confirm-mode agent whose whitelist has an entry that does not
    compile before one that matches [ls]. *)
Definition broken_whitelist_agent : InteractiveAgent :=
  fresh_agent (mkConfig confirm ["("; "ls"] true) [].

(** The statement that an interruption caught by [step] leaves the
    transcript and the ledger as they were before the step began. *)
Definition interruption_restores_state : Prop :=
  forall (E R : Type) (env : Environment E) (super_step : M E R) (fuel : nat)
         (w w1 : World E),
    (console_print "<Rule>" ;;; super_step) w = (Raise KeyboardInterrupt, w1) ->
    (List.length (keyboard w1) < fuel)%nat ->
    let after := snd (step env super_step fuel w) in
    messages (self after) = messages (self w) /\
    snapshots (self after) = snapshots (self w).

(** A base step that is interrupted while its command runs.
    Modelled from the spec: the base loop's [step] is not in this file; it
    obtains the next action, appends it to the transcript as an assistant
    turn and passes it to [execute_action], whose base executor is where
    the operator's Ctrl-C arrives. *)
Definition interrupted_base_step {E} {L : Libraries} (env : Environment E)
    (fuel : nat) (cmd : string) : M E dict :=
  super_add_message "assistant" cmd ;;;
  execute_action env (fun _ => raise KeyboardInterrupt) fuel [("action", cmd)].

(** A yolo-mode session with one turn, and the operator about to answer
    the interruption prompt with an empty line. *)
Definition yolo_world : World (list string) :=
  mkWorld (fresh_agent (mkConfig yolo [] true) [msg "task"]) [] [Line EmptyString] [].

(** The session of [agent_at_step_3] with the operator about to type
    [/r 0] and then a comment at the interruption prompt. *)
Definition rollback_at_interrupt_world : World (list string) :=
  mkWorld agent_at_step_3 [] [Line "/r 0"; Line "continue"] [].

(** The statement that the rollback handler never raises: whenever the
    operator goes on typing lines and one of them is plain, the handler
    returns. *)
Definition rollback_handler_never_raises : Prop :=
  forall (E : Type) (env : Environment E) (fuel : nat) (user_input : string)
         (w : World E),
    startswith user_input "/r" = true ->
    (List.length (keyboard w) < fuel)%nat ->
    forallb is_line (keyboard w) = true ->
    existsb is_plain_key (keyboard w) = true ->
    exists v w', _handle_rollback env fuel user_input w = (Return v, w').

(** The environment's [rollback_snapshot] raises only what the handler
    catches. *)
Definition rollback_raises_only_caught {E} (env : Environment E) : Prop :=
  forall name es e,
    fst (rollback_snapshot env name es) = Some e ->
    is_ValueError_or_IndexError e = true.

(** The session of [agent_at_step_3] on an environment whose next call
    fails, with the operator ready to type a plain line. *)
Definition failing_rollback_world : World (list (option Exc)) :=
  mkWorld agent_at_step_3 [Some btrfs_error] [Line "go on"] [].

(** The session of [agent_at_step_3] with the operator ready to type a
    plain line. *)
Definition step_3_world : World (list string) :=
  mkWorld agent_at_step_3 [] [Line "go on"] [].

(** A fresh agent in confirm mode, the operator about to type [/y]. *)
Definition switching_world : World (list string) :=
  mkWorld (fresh_agent default_config []) [] [Line "/y"] [].

(** Two turns, a snapshot, three turns, a snapshot. *)
Definition two_snapshot_session : list SnapOp :=
  [Append "system" "You are an agent"; Append "user" "task"; Snapshot;
   Append "assistant" "ls"; Append "user" "out"; Append "assistant" "pwd"; Snapshot].

(** The operator types a mode token. *)
Definition is_token_key (k : Key) : bool :=
  match k with
  | Line l => match _MODE_COMMANDS_MAPPING l with Some _ => true | None => false end
  | _ => false
  end.

Definition no_token_keys (ks : list Key) : bool :=
  forallb (fun k => negb (is_token_key k)) ks.

(** The environment cannot roll back: it lacks the method, or the method
    raises whatever it is given. *)
Definition cannot_roll_back {E} (env : Environment E) : Prop :=
  has_rollback_snapshot env = false \/
  forall name es, fst (rollback_snapshot env name es) <> None.

(** An environment without [rollback_snapshot]. *)
Definition snapshot_only_env : Environment (list string) :=
  mkEnv (list string) true "/work" false
    (fun name log => (None, app log [("create_snapshot " ++ name)%string]))
    (fun name log => (None, log)).

(** The session of [agent_at_step_3] with the operator asking for help,
    for the list, for a mode he is in, for a rollback, and then typing a
    comment. *)
Definition busy_world : World (list string) :=
  mkWorld agent_at_step_3 []
    [Line "/h"; Line "/r"; Line "/c"; Line "/r 1"; Line "looks good"; Line "unread"] [].

(** What [/r] without an argument prints. *)
Definition snapshot_listing (ss : list SnapshotInfo.t) : list string :=
  match ss with
  | [] => ["[yellow]No snapshots available[/yellow]" ++ nl]
  | _ =>
      ("[bold green]Available snapshots:[/bold green]" ++ nl)
        :: map (fun s => snapshot_line s ++ nl) ss
  end.

Definition invalid_rollback_report : string :=
  "[red]Invalid rollback command. Use /r to list snapshots or /r N to rollback to step N[/red]"
  ++ nl.

(** The world with more text on the console. *)
Definition printed {E} (out : list string) (w : World E) : World E :=
  mkWorld (self w) (env_state w) (keyboard w) (console w ++ out).

(** An environment whose [rollback_snapshot] raises ValueError. *)
Definition value_error_env : Environment (list string) :=
  mkEnv (list string) true "/work" true
    (fun name log => (None, app log [("create_snapshot " ++ name)%string]))
    (fun name log => (Some (ValueError "no such subvolume"),
                      app log [("rollback_snapshot " ++ name)%string])).

(** Every record is named after its step number. *)
Definition named_by_step (a : InteractiveAgent) : Prop :=
  forall r, In r (snapshots a) ->
    SnapshotInfo.name r = "step-" ++ str_of_int (SnapshotInfo.step_number r).

(** A session that snapshots, grows the transcript, fails a snapshot,
    rolls back and snapshots again, on the scripted environment whose
    third call fails. *)
Definition mixed_session : list Op :=
  [OpAddMessage "user" "task"; OpCreateSnapshot; OpAddMessage "assistant" "ls";
   OpCreateSnapshot; OpCreateSnapshot; OpAddMessage "user" "out";
   OpPrompt plain_prompt [Line "/r 0"; Line "again"]; OpCreateSnapshot].

Definition mixed_script : list (option Exc) := [None; None; Some btrfs_error].

(** The exceptions of the base loop that this layer catches by class. *)
Definition submitted : Exc := OtherException "Submitted" "final output".

Definition limits_exceeded : Exc := OtherException "LimitsExceeded" EmptyString.

(** A fresh agent in confirm mode whose operator answers the confirmation
    prompt with a padded [/u]. *)
Definition padded_token_world : World (list string) :=
  mkWorld (fresh_agent default_config []) [] [Line " /u"] [].

(** A fresh agent in human mode whose operator types a command. *)
Definition human_world : World (list string) :=
  mkWorld (fresh_agent (mkConfig human [] true) []) [] [Line "ls -la"] [].

(** A fresh agent in human mode whose operator hands over to the model. *)
Definition handover_world : World (list string) :=
  mkWorld (fresh_agent (mkConfig human [] true) []) [] [Line "/y"] [].

(** A fresh agent whose operator answers the limits dialogue with a word
    and then with a number. *)
Definition limits_world : World (list string) :=
  mkWorld (fresh_agent default_config []) [] [Line "ten"; Line "10"] [].

(** A base query that always hits the limits, and a base [has_finished]
    that always finds the task submitted. *)
Definition exhausted_query : M (list string) dict := raise limits_exceeded.

Definition always_submitted : dict -> M (list string) unit :=
  fun _ => raise submitted.

Definition no_limit_store {A : Type} : A -> M (list string) unit := fun _ => ret tt.

Definition no_float : string -> option Z := fun _ => None.

(** An action dictionary without the ["action"] key. *)
Definition keyless_action : dict := [("content", "ls")].

(** The session of [agent_at_step_3] at whose interruption prompt the
    operator presses Ctrl-C again. *)
Definition second_interrupt_world : World (list string) :=
  mkWorld agent_at_step_3 [] [CtrlC; Line "unread"] [].

(** Two snapshots with a turn before each, on the recording
    environment. *)
Definition short_session : list Op :=
  [OpAddMessage "user" "task"; OpCreateSnapshot; OpAddMessage "assistant" "ls";
   OpCreateSnapshot; OpAddMessage "user" "out"].

End Interactive.

(* ================================================================== *)
(** * Properties *)

Import PyStr Re Interactive.

(** ** Characters, white space and numerals *)

(** White space and digits outside ASCII: NO-BREAK SPACE is stripped, it
    separates the parts of a request and [int] skips it; UNIT SEPARATOR
    is white space for [strip] and [split] but not for [int]; and
    ARABIC-INDIC DIGIT ONE is a digit. *)
Example white_space_and_digits :
  let nbsp := String "194" (String "160" EmptyString) in
  let us := String "031" EmptyString in
  let arabic_one := String "217" (String "161" EmptyString) in
  strip nbsp = EmptyString /\
  strip (nbsp ++ "/u" ++ us) = "/u" /\
  split ("/r" ++ nbsp ++ "1") = ["/r"; "1"] /\
  split ("/r " ++ arabic_one) = ["/r"; arabic_one] /\
  py_int (nbsp ++ "10") = Some 10 /\
  py_int ("10" ++ us) = None /\
  py_int arabic_one = Some 1.
Proof. vm_compute. repeat split. Qed.

Section StringFacts.

Lemma chars_head (c : ascii) (s : string) :
  exists t gs, chars (String c s) = String c t :: gs.
Proof.
  cbn [chars]. destruct (chars s) as [|[|d g] gs].
  - now exists EmptyString, [].
  - now exists EmptyString, (EmptyString :: gs).
  - destruct (is_continuation d).
    + now exists (String d g), gs.
    + now exists EmptyString, (String d g :: gs).
Qed.

Lemma chars_cons_start (c d : ascii) (s : string) :
  is_continuation d = false ->
  chars (String c (String d s)) = String c EmptyString :: chars (String d s).
Proof.
  intros Hd. destruct (chars_head d s) as (t & gs & H).
  change (chars (String c (String d s)))
    with (match chars (String d s) with
          | String d0 g :: gs0 =>
              if is_continuation d0 then String c (String d0 g) :: gs0
              else String c EmptyString :: String d0 g :: gs0
          | gs0 => String c EmptyString :: gs0
          end).
  rewrite H, Hd. reflexivity.
Qed.

Lemma ascii_char_not_space (c : ascii) (t : string) :
  (byte c <? 128) = true -> is_space (String c EmptyString) = false ->
  is_space (String c t) = false.
Proof.
  intros Hc Hs. unfold is_space, code_point.
  destruct t as [|b1 [|b2 [|b3 [|b4 t]]]]; try reflexivity.
  - exact Hs.
  - replace (194 <=? byte c) with false by (symmetry; apply Z.leb_gt; apply Z.ltb_lt in Hc; lia).
    reflexivity.
  - cbv zeta.
    replace (224 <=? byte c) with false by (symmetry; apply Z.leb_gt; apply Z.ltb_lt in Hc; lia).
    reflexivity.
  - cbv zeta.
    replace (240 <=? byte c) with false by (symmetry; apply Z.leb_gt; apply Z.ltb_lt in Hc; lia).
    reflexivity.
Qed.

Lemma split_chars_nonempty (gs : list string) : forall cur,
  cur <> EmptyString -> split_chars gs cur <> [].
Proof.
  induction gs as [|g gs IH]; intros cur Hcur; cbn [split_chars].
  - destruct cur; [contradiction | discriminate].
  - destruct (is_space g).
    + destruct cur; [contradiction | discriminate].
    + apply IH. destruct cur; [contradiction | discriminate].
Qed.

Lemma drop_spaces_end_keeps (g : string) (gs : list string) :
  is_space g = false -> drop_spaces_end (g :: gs) = g :: drop_spaces_end gs.
Proof.
  intros Hg. cbn [drop_spaces_end]. rewrite Hg. now destruct (drop_spaces_end gs).
Qed.

Lemma strip_of_rollback_command (s : string) :
  exists t, strip (String "/" (String "r" s)) = String "/" (String "r" t).
Proof.
  unfold strip. rewrite chars_cons_start by reflexivity.
  destruct (chars_head "r" s) as (t & gs & ->).
  cbn [drop_spaces]. change (is_space "/") with false. cbv iota.
  rewrite drop_spaces_end_keeps by reflexivity.
  rewrite drop_spaces_end_keeps by (now apply ascii_char_not_space).
  cbn [join append]. eexists. reflexivity.
Qed.

Lemma chars_word (s : string) :
  no_space s = true ->
  chars s = map (fun c => String c EmptyString) (list_ascii_of_string s).
Proof.
  unfold no_space. induction s as [|c s IH]; [reflexivity|].
  cbn [list_ascii_of_string forallb]. intros H.
  apply andb_true_iff in H as [Hc Hs]. specialize (IH Hs).
  destruct s as [|d s]; [reflexivity|].
  rewrite chars_cons_start.
  - rewrite IH. reflexivity.
  - cbn [list_ascii_of_string forallb] in Hs. apply andb_true_iff in Hs as [Hd _].
    unfold is_word_byte in Hd. apply andb_true_iff in Hd as [Hd _].
    unfold is_continuation. apply Z.ltb_lt in Hd.
    apply andb_false_iff. left. apply Z.leb_gt. lia.
Qed.

Lemma join_singletons (l : list ascii) :
  join (map (fun c => String c EmptyString) l) = string_of_list_ascii l.
Proof. induction l as [|c l IH]; [reflexivity|]. cbn. now rewrite IH. Qed.

Lemma drop_spaces_end_words (l : list ascii) :
  forallb is_word_byte l = true ->
  drop_spaces_end (map (fun c => String c EmptyString) l)
    = map (fun c => String c EmptyString) l.
Proof.
  induction l as [|c l IH]; [reflexivity|]. cbn [forallb map]. intros H.
  apply andb_true_iff in H as [Hc Hl].
  unfold is_word_byte in Hc. apply andb_true_iff in Hc as [_ Hc].
  apply negb_true_iff in Hc.
  rewrite drop_spaces_end_keeps by exact Hc. now rewrite IH.
Qed.

Lemma strip_no_space (s : string) : no_space s = true -> strip s = s.
Proof.
  intros H. unfold strip. rewrite (chars_word s H).
  unfold no_space in H.
  assert (Hl : drop_spaces (map (fun c => String c EmptyString) (list_ascii_of_string s))
               = map (fun c => String c EmptyString) (list_ascii_of_string s)).
  { destruct (list_ascii_of_string s) as [|c l]; [reflexivity|].
    cbn [forallb] in H. apply andb_true_iff in H as [Hc _].
    unfold is_word_byte in Hc. apply andb_true_iff in Hc as [_ Hc].
    apply negb_true_iff in Hc. cbn [map drop_spaces]. now rewrite Hc. }
  rewrite Hl, (drop_spaces_end_words _ H), join_singletons.
  apply string_of_list_ascii_of_string.
Qed.

Lemma split_chars_words (l : list ascii) : forall cur,
  forallb is_word_byte l = true ->
  split_chars (map (fun c => String c EmptyString) l) cur
    = flush (cur ++ string_of_list_ascii l) [].
Proof.
  induction l as [|c l IH]; intros cur H.
  - cbn. clear H. induction cur as [|d cur IHc]; [reflexivity|].
    cbn [append]. f_equal. cbn [flush]. f_equal.
    clear IHc. induction cur as [|e cur IHc]; [reflexivity|]. cbn. now rewrite <- IHc.
  - cbn [forallb] in H. apply andb_true_iff in H as [Hc Hl].
    unfold is_word_byte in Hc. apply andb_true_iff in Hc as [_ Hc].
    apply negb_true_iff in Hc.
    cbn [map split_chars string_of_list_ascii]. rewrite Hc, (IH _ Hl).
    f_equal. clear. induction cur as [|d cur IHc]; [reflexivity|].
    cbn. now rewrite IHc.
Qed.

Lemma split_rollback_request (s : string) :
  no_space s = true -> s <> EmptyString ->
  split ("/r " ++ s) = ["/r"; s].
Proof.
  intros Hs Hne. unfold split.
  destruct s as [|c s]; [now destruct Hne|].
  assert (Hc : is_continuation c = false).
  { unfold no_space in Hs. cbn [list_ascii_of_string forallb] in Hs.
    apply andb_true_iff in Hs as [Hc _].
    unfold is_word_byte in Hc. apply andb_true_iff in Hc as [Hc _].
    unfold is_continuation. apply Z.ltb_lt in Hc.
    apply andb_false_iff. left. apply Z.leb_gt. lia. }
  change ("/r " ++ String c s) with (String "/" (String "r" (String " " (String c s)))).
  rewrite (chars_cons_start "/" "r") by reflexivity.
  rewrite (chars_cons_start "r" " ") by reflexivity.
  rewrite (chars_cons_start " " c) by exact Hc.
  rewrite (chars_word _ Hs).
  cbn [split_chars]. change (is_space "/") with false. change (is_space "r") with false.
  change (is_space " ") with true. cbv iota.
  rewrite (split_chars_words _ EmptyString Hs).
  cbn [append flush]. rewrite string_of_list_ascii_of_string. reflexivity.
Qed.

Lemma digits_no_space (d : Decimal.uint) : no_space (NilEmpty.string_of_uint d) = true.
Proof.
  unfold no_space.
  induction d; cbn [NilEmpty.string_of_uint list_ascii_of_string forallb];
    try reflexivity; rewrite IHd; reflexivity.
Qed.

Lemma int_digits_acc (d : Decimal.uint) : forall acc : positive,
  int_digits (map single (list_ascii_of_string (NilEmpty.string_of_uint d))) (Zpos acc) true
    = Some (Zpos (Pos.of_uint_acc d acc)).
Proof.
  induction d; intros acc;
    cbn [NilEmpty.string_of_uint list_ascii_of_string map int_digits Pos.of_uint_acc];
    try reflexivity;
    match goal with
    | |- context [digit_of ?c] =>
        let v := eval vm_compute in (digit_of c) in change (digit_of c) with v
    end; cbv iota;
    match goal with
    | |- int_digits _ ?z true = Some (Zpos (Pos.of_uint_acc _ ?q)) =>
        replace z with (Zpos q) by lia
    end; apply IHd.
Qed.

Lemma int_digits_of_uint (d : Decimal.uint) :
  int_digits (map single (list_ascii_of_string (NilEmpty.string_of_uint d))) 0 true
    = Some (Z.of_N (Pos.of_uint d)).
Proof.
  induction d;
    cbn [NilEmpty.string_of_uint list_ascii_of_string map int_digits Pos.of_uint];
    try reflexivity;
    match goal with
    | |- context [digit_of ?c] =>
        let v := eval vm_compute in (digit_of c) in change (digit_of c) with v
    end; cbv iota; cbn [Z.mul Z.add];
    [ exact IHd | .. ]; cbn [Z.of_N]; apply int_digits_acc.
Qed.

Lemma int_digits_first (d : Decimal.uint) :
  d <> Decimal.Nil ->
  int_digits (map single (list_ascii_of_string (NilEmpty.string_of_uint d))) 0 false
    = int_digits (map single (list_ascii_of_string (NilEmpty.string_of_uint d))) 0 true.
Proof.
  destruct d; intros H; [now destruct H | ..];
    cbn [NilEmpty.string_of_uint list_ascii_of_string map int_digits];
    match goal with
    | |- context [digit_of ?c] =>
        let v := eval vm_compute in (digit_of c) in change (digit_of c) with v
    end; reflexivity.
Qed.

Lemma word_not_int_space (c : ascii) :
  is_word_byte c = true -> is_int_space (single c) = false.
Proof.
  unfold single, is_word_byte, is_space, is_int_space. intros H.
  apply andb_true_iff in H as [_ H]. apply negb_true_iff in H.
  destruct (code_point (String c EmptyString)); [|reflexivity].
  now rewrite H.
Qed.

Lemma drop_int_spaces_words (l : list ascii) :
  forallb is_word_byte l = true ->
  drop_int_spaces_end (drop_int_spaces (map single l)) = map single l.
Proof.
  intros H.
  assert (Hl : drop_int_spaces (map single l) = map single l).
  { destruct l as [|c l]; [reflexivity|].
    cbn [forallb] in H. apply andb_true_iff in H as [Hc _].
    cbn [map drop_int_spaces]. now rewrite (word_not_int_space c Hc). }
  rewrite Hl. clear Hl.
  induction l as [|c l IH]; [reflexivity|].
  cbn [forallb] in H. apply andb_true_iff in H as [Hc Hl].
  cbn [map drop_int_spaces_end]. rewrite (IH Hl).
  rewrite (word_not_int_space c Hc). now destruct (map single l).
Qed.

Lemma py_int_of_word (s : string) :
  no_space s = true ->
  py_int s = match map single (list_ascii_of_string s) with
             | "+" :: r => int_digits r 0 false
             | "-" :: r => option_map Z.opp (int_digits r 0 false)
             | t => int_digits t 0 false
             end.
Proof.
  intros H. unfold py_int. rewrite (chars_word s H).
  fold single. now rewrite (drop_int_spaces_words _ H).
Qed.

Lemma py_int_of_digits (d : Decimal.uint) :
  d <> Decimal.Nil ->
  py_int (NilEmpty.string_of_uint d) = Some (Z.of_N (Pos.of_uint d)).
Proof.
  intros Hd. rewrite (py_int_of_word _ (digits_no_space d)).
  rewrite <- int_digits_of_uint, <- (int_digits_first d Hd).
  destruct d; [now destruct Hd | ..]; reflexivity.
Qed.

Lemma py_int_of_minus_digits (d : Decimal.uint) :
  d <> Decimal.Nil ->
  py_int (String "-" (NilEmpty.string_of_uint d)) = Some (- Z.of_N (Pos.of_uint d)).
Proof.
  intros Hd.
  assert (Hns : no_space (String "-" (NilEmpty.string_of_uint d)) = true).
  { unfold no_space. cbn [list_ascii_of_string forallb].
    change (is_word_byte "-"%char) with true. apply digits_no_space. }
  rewrite (py_int_of_word _ Hns). cbn [list_ascii_of_string map].
  change (single "-") with "-".
  now rewrite (int_digits_first d Hd), int_digits_of_uint.
Qed.

Lemma str_of_int_shape (n : Z) :
  no_space (str_of_int n) = true /\ str_of_int n <> EmptyString.
Proof.
  unfold str_of_int. destruct n as [|p|p]; cbn [Z.to_int NilZero.string_of_int].
  - split; [reflexivity | discriminate].
  - pose proof (DecimalPos.Unsigned.to_uint_nonnil p) as Hd.
    destruct (Pos.to_uint p) eqn:Hp; [now destruct Hd | ..];
      (split; [apply (digits_no_space (_ _)) | discriminate]).
  - pose proof (DecimalPos.Unsigned.to_uint_nonnil p) as Hd.
    split; [|discriminate].
    unfold no_space. cbn [list_ascii_of_string forallb].
    change (is_word_byte "-"%char) with true. cbn [negb andb].
    destruct (Pos.to_uint p) eqn:Hp; [now destruct Hd | ..];
      apply (digits_no_space (_ _)).
Qed.

Lemma py_int_str_of_int (n : Z) : py_int (str_of_int n) = Some n.
Proof.
  unfold str_of_int. destruct n as [|p|p]; cbn [Z.to_int NilZero.string_of_int].
  - reflexivity.
  - pose proof (DecimalPos.Unsigned.to_uint_nonnil p) as Hd.
    pose proof (DecimalPos.Unsigned.of_to p) as Hof.
    unfold NilZero.string_of_uint.
    destruct (Pos.to_uint p) eqn:Hp; [now destruct Hd | ..];
      rewrite py_int_of_digits by discriminate; rewrite Hof; reflexivity.
  - pose proof (DecimalPos.Unsigned.to_uint_nonnil p) as Hd.
    pose proof (DecimalPos.Unsigned.of_to p) as Hof.
    unfold NilZero.string_of_uint.
    destruct (Pos.to_uint p) eqn:Hp; [now destruct Hd | ..];
      rewrite py_int_of_minus_digits by discriminate; rewrite Hof; reflexivity.
Qed.

Lemma split_printed_request (n : Z) :
  split ("/r " ++ str_of_int n) = ["/r"; str_of_int n].
Proof.
  destruct (str_of_int_shape n) as [Hns Hne]. now apply split_rollback_request.
Qed.

End StringFacts.

(** ** Patterns: [re_match] decides "some prefix is in the language" *)

Section RegexFacts.

Lemma append_empty_r (s : string) : s ++ EmptyString = s.
Proof. induction s as [|c s IH]; simpl; [reflexivity | now rewrite IH]. Qed.

Lemma append_is_empty (s1 s2 : string) :
  s1 ++ s2 = EmptyString -> s1 = EmptyString /\ s2 = EmptyString.
Proof. destruct s1; simpl; intros H; [auto | discriminate]. Qed.

Lemma append_is_cons (s1 s2 : string) c s :
  s1 ++ s2 = String c s ->
  (s1 = EmptyString /\ s2 = String c s) \/
  (exists t, s1 = String c t /\ s = t ++ s2).
Proof.
  destruct s1 as [|d t]; simpl; intros H.
  - left; auto.
  - right. injection H as -> <-. now exists t.
Qed.

Lemma nullable_of_empty_match r s :
  Matches r s -> s = EmptyString -> nullable r = true.
Proof.
  induction 1; intros Hs; simpl; try discriminate; try reflexivity.
  - apply append_is_empty in Hs as [-> ->].
    now rewrite IHMatches1, IHMatches2.
  - now rewrite IHMatches.
  - rewrite IHMatches by assumption. apply orb_true_r.
Qed.

Lemma empty_match_of_nullable r :
  nullable r = true -> Matches r EmptyString.
Proof.
  induction r; simpl; intros H; try discriminate.
  - constructor.
  - apply andb_true_iff in H as [H1 H2].
    change EmptyString with (EmptyString ++ EmptyString). constructor; auto.
  - apply orb_true_iff in H as [H|H]; [apply MAltL | apply MAltR]; auto.
  - constructor.
Qed.

Lemma nullable_spec r : nullable r = true <-> Matches r EmptyString.
Proof.
  split; [apply empty_match_of_nullable|].
  intros H. now apply (nullable_of_empty_match r EmptyString).
Qed.

Lemma deriv_sound c r : forall s, Matches (deriv c r) s -> Matches r (String c s).
Proof.
  induction r; simpl; intros s H.
  - inversion H.
  - inversion H.
  - destruct (Ascii.eqb_spec c a) as [->|]; inversion H; subst. constructor.
  - destruct (nullable r1) eqn:Hn.
    + inversion H as [| | | ? ? ? H1 | ? ? ? H2 | |]; subst.
      * inversion H1; subst.
        change (String c (s1 ++ s2)) with (String c s1 ++ s2). constructor; auto.
      * change (String c s) with (EmptyString ++ String c s).
        constructor; auto. now apply empty_match_of_nullable.
    + inversion H; subst.
      change (String c (s1 ++ s2)) with (String c s1 ++ s2). constructor; auto.
  - inversion H; subst; [apply MAltL | apply MAltR]; auto.
  - inversion H; subst.
    change (String c (s1 ++ s2)) with (String c s1 ++ s2). constructor; auto.
Qed.

Lemma deriv_complete r s' :
  Matches r s' -> forall c s, s' = String c s -> Matches (deriv c r) s.
Proof.
  induction 1; intros a t Heq; simpl; try discriminate.
  - injection Heq as -> <-. rewrite Ascii.eqb_refl. constructor.
  - apply append_is_cons in Heq as [[-> ->] | [u [-> ->]]].
    + rewrite (nullable_of_empty_match _ _ H eq_refl).
      apply MAltR. now apply IHMatches2.
    + destruct (nullable r1).
      * apply MAltL. constructor; auto.
      * constructor; auto.
  - apply MAltL; auto.
  - apply MAltR; auto.
  - apply append_is_cons in Heq as [[-> ->] | [u [-> ->]]].
    + now apply IHMatches2.
    + constructor; auto.
Qed.

Lemma deriv_spec c r s : Matches (deriv c r) s <-> Matches r (String c s).
Proof.
  split; [apply deriv_sound|]. intros H. now apply (deriv_complete r (String c s)).
Qed.

Lemma re_match_spec s : forall r,
  re_match r s = true <-> exists p q, s = p ++ q /\ Matches r p.
Proof.
  induction s as [|c s IH]; intros r; simpl.
  - rewrite orb_false_r, nullable_spec. split.
    + intros H. now exists EmptyString, EmptyString.
    + intros (p & q & Heq & H). symmetry in Heq.
      apply append_is_empty in Heq as [-> _]. exact H.
  - rewrite orb_true_iff, nullable_spec, IH. split.
    + intros [H | (p & q & -> & H)].
      * now exists EmptyString, (String c s).
      * exists (String c p), q. split; [reflexivity | now apply deriv_spec].
    + intros (p & q & Heq & H). symmetry in Heq.
      apply append_is_cons in Heq as [[-> _] | [u [-> ->]]].
      * now left.
      * right. exists u, q. split; [reflexivity | now apply deriv_spec].
Qed.

Lemma re_fullmatch_spec s : forall r, re_fullmatch r s = true <-> Matches r s.
Proof.
  induction s as [|c s IH]; intros r; simpl.
  - apply nullable_spec.
  - rewrite IH. apply deriv_spec.
Qed.

Lemma literal_matches (p : string) : forall x, Matches (literal p) x <-> x = p.
Proof.
  induction p as [|c p IH]; intros x; cbn [literal]; split.
  - intros H. now inversion H.
  - intros ->. constructor.
  - intros H. inversion H as [| |? ? s1 s2 H1 H2| | | |]; subst.
    inversion H1; subst. apply IH in H2. subst. reflexivity.
  - intros ->. change (String c p) with (String c EmptyString ++ p).
    constructor; [constructor | now apply IH].
Qed.

Lemma prefix_iff_append (p : string) : forall s,
  String.prefix p s = true <-> exists q, s = p ++ q.
Proof.
  induction p as [|c p IH]; intros s.
  - split; [intros _; now exists s | intros _; now destruct s].
  - destruct s as [|d s]; cbn [String.prefix].
    + split; [discriminate | intros [q H]; discriminate].
    + destruct (Ascii.ascii_dec c d) as [->|Hne].
      * rewrite IH. split; intros [q H]; exists q.
        -- now rewrite H.
        -- now injection H.
      * split; [discriminate|]. intros [q H]. injection H as H _.
        now destruct Hne.
Qed.

Lemma re_match_literal (p s : string) : re_match (literal p) s = startswith s p.
Proof.
  unfold startswith.
  destruct (String.prefix p s) eqn:Hp.
  - apply re_match_spec. apply prefix_iff_append in Hp as [q ->].
    exists p, q. split; [reflexivity | now apply literal_matches].
  - destruct (re_match (literal p) s) eqn:Hm; [|reflexivity].
    apply re_match_spec in Hm as (x & q & -> & Hx).
    apply literal_matches in Hx. subst x.
    assert (H : String.prefix p (p ++ q) = true) by (apply prefix_iff_append; now exists q).
    rewrite H in Hp. discriminate.
Qed.

End RegexFacts.

Section WhitelistFacts.

Context {L : Libraries}.

Lemma plain_pattern_match (r C : string) :
  plain_pattern r = true ->
  py_re_match r C = if startswith C r then Matched else NotMatched.
Proof. intros H. unfold py_re_match. now rewrite H, re_match_literal. Qed.

Lemma any_match_first (C : string) (W1 : list string) : forall r W2,
  (forall r', In r' W1 -> py_re_match r' C = NotMatched) ->
  any_match (W1 ++ r :: W2) C
    = match py_re_match r C with
      | Matched => Return true
      | NotMatched => any_match W2 C
      | MatchRaises e => Raise e
      end.
Proof.
  induction W1 as [|r1 W1 IH]; intros r W2 Hnone; [reflexivity|].
  cbn [app any_match]. rewrite (Hnone r1) by now left.
  apply IH. intros r' Hr'. apply Hnone. now right.
Qed.

Lemma any_match_spec (C : string) (W : list string) :
  match any_match W C with
  | Return true => exists r, first_outcome W C r Matched
  | Return false => forall r, In r W -> py_re_match r C = NotMatched
  | Raise e => exists r, first_outcome W C r (MatchRaises e)
  | OutOfFuel => False
  end.
Proof.
  induction W as [|r W IH]; cbn [any_match].
  - intros r [].
  - destruct (py_re_match r C) as [| |e] eqn:Hr.
    + exists r, [], W. repeat split; [exact Hr | intros r' []].
    + destruct (any_match W C) as [[|]|e|].
      * destruct IH as (r0 & W1 & W2 & -> & Hr0 & Hnone).
        exists r0, (r :: W1), W2. repeat split; [exact Hr0|].
        intros r' [<-|Hr']; [exact Hr | now apply Hnone].
      * intros r' [<-|Hr']; [exact Hr | now apply IH].
      * destruct IH as (r0 & W1 & W2 & -> & Hr0 & Hnone).
        exists r0, (r :: W1), W2. repeat split; [exact Hr0|].
        intros r' [<-|Hr']; [exact Hr | now apply Hnone].
      * exact IH.
    + exists r, [], W. repeat split; [exact Hr | intros r' []].
Qed.

Lemma any_match_of_first (C : string) (W : list string) (r : string) (o : MatchResult) :
  first_outcome W C r o ->
  any_match W C = match o with
                  | Matched => Return true
                  | NotMatched => any_match W C
                  | MatchRaises e => Raise e
                  end.
Proof.
  intros (W1 & W2 & -> & Hr & Hnone).
  rewrite (any_match_first C W1 r W2 Hnone), Hr.
  destruct o; try reflexivity.
Qed.

End WhitelistFacts.

(** C5, as the code has it.  Outside confirm mode [should_ask_confirmation]
    returns false whatever the whitelist, without looking at it.  In
    confirm mode the entries are tried in order with [re.match]: it
    returns false exactly when the first entry for which [re.match] does
    not return [None] matches, true exactly when every entry fails to
    match, and it raises exactly what [re.match] raises for such a first
    entry; when [re.match] raises for no entry, it returns false exactly
    when some entry matches.  For an entry without metacharacters, to
    match is to be a prefix of the command: the match is anchored at the
    start and need not reach the end. *)
Theorem should_ask_confirmation_spec {L : Libraries} (a : InteractiveAgent)
    (C : string) :
  let W := whitelist_actions (config a) in
  (mode (config a) <> confirm -> should_ask_confirmation a C = Return false) /\
  (mode (config a) = confirm ->
     (should_ask_confirmation a C = Return false <->
        exists r, first_outcome W C r Matched) /\
     (should_ask_confirmation a C = Return true <->
        forall r, In r W -> py_re_match r C = NotMatched) /\
     (forall e, should_ask_confirmation a C = Raise e <->
        exists r, first_outcome W C r (MatchRaises e)) /\
     ((forall r e, In r W -> py_re_match r C <> MatchRaises e) ->
        (should_ask_confirmation a C = Return false <->
           exists r, In r W /\ py_re_match r C = Matched))) /\
  (forall r, plain_pattern r = true ->
     (py_re_match r C = Matched <-> exists q, C = r ++ q)).
Proof.
  cbn zeta. split; [|split].
  - intros Hmode. unfold should_ask_confirmation.
    destruct (mode (config a)); try reflexivity. now destruct Hmode.
  - intros Hmode. unfold should_ask_confirmation. rewrite Hmode. cbn [Mode_eqb].
    pose proof (any_match_spec C (whitelist_actions (config a))) as Hspec.
    assert (Hdet : forall r o, first_outcome (whitelist_actions (config a)) C r o ->
              o <> NotMatched ->
              any_match (whitelist_actions (config a)) C
                = match o with
                  | Matched => Return true
                  | NotMatched => Return false
                  | MatchRaises e => Raise e
                  end).
    { intros r o Hfirst Ho. rewrite (any_match_of_first C _ r o Hfirst).
      destruct o; try reflexivity. now destruct Ho. }
    assert (Hall : (forall r, In r (whitelist_actions (config a)) ->
                              py_re_match r C = NotMatched) ->
                   any_match (whitelist_actions (config a)) C = Return false).
    { intros Hnone.
      destruct (any_match (whitelist_actions (config a)) C) as [[|]|e|];
        try reflexivity.
      - destruct Hspec as (r & W1 & W2 & Heq & Hr & _).
        rewrite (Hnone r) in Hr; [discriminate|]. rewrite Heq.
        apply in_or_app. right. now left.
      - destruct Hspec as (r & W1 & W2 & Heq & Hr & _).
        rewrite (Hnone r) in Hr; [discriminate|]. rewrite Heq.
        apply in_or_app. right. now left.
      - destruct Hspec. }
    split; [|split; [|split]].
    + split.
      * destruct (any_match (whitelist_actions (config a)) C) as [[|]|e|];
          try discriminate. intros _. exact Hspec.
      * intros (r & Hfirst). rewrite (Hdet r Matched Hfirst); [reflexivity | discriminate].
    + split.
      * destruct (any_match (whitelist_actions (config a)) C) as [[|]|e|];
          try discriminate. intros _. exact Hspec.
      * intros Hnone. now rewrite (Hall Hnone).
    + intros e. split.
      * destruct (any_match (whitelist_actions (config a)) C) as [[|]|e'|];
          try discriminate. intros [= <-]. exact Hspec.
      * intros (r & Hfirst).
        rewrite (Hdet r (MatchRaises e) Hfirst); [reflexivity | discriminate].
    + intros Hvalid. split.
      * destruct (any_match (whitelist_actions (config a)) C) as [[|]|e|];
          try discriminate. intros _.
        destruct Hspec as (r & W1 & W2 & Heq & Hr & _).
        exists r. split; [|exact Hr]. rewrite Heq. apply in_or_app. right. now left.
      * intros (r & Hin & Hr).
        destruct (any_match (whitelist_actions (config a)) C) as [[|]|e|];
          try reflexivity.
        -- rewrite (Hspec r Hin) in Hr. discriminate.
        -- destruct Hspec as (r0 & W1 & W2 & Heq & Hr0 & _).
           exfalso. apply (Hvalid r0 e); [|exact Hr0].
           rewrite Heq. apply in_or_app. right. now left.
        -- destruct Hspec.
  - intros r Hplain. rewrite (plain_pattern_match r C Hplain).
    unfold startswith. destruct (String.prefix r C) eqn:Hp.
    + split; [intros _; now apply prefix_iff_append | reflexivity].
    + split; [discriminate|]. intros Hq. apply prefix_iff_append in Hq.
      rewrite Hq in Hp. discriminate.
Qed.

(** A whitelist entry that does not compile: with [(] before [ls] in the
    whitelist, the command [ls] makes [should_ask_confirmation] raise
    re.error, although an entry of the whitelist matches at its start. *)
Lemma whitelist_entry_that_does_not_compile :
  should_ask_confirmation (L := session_libraries) broken_whitelist_agent "ls"
    = Raise (OtherException "re.error"
               "missing ), unterminated subpattern at position 0") /\
  In "ls" (whitelist_actions (config broken_whitelist_agent)) /\
  py_re_match (L := session_libraries) "ls" "ls" = Matched /\
  ~ whitelist_decides_confirmation.
Proof.
  split; [reflexivity|]. split; [right; left; reflexivity|]. split; [reflexivity|].
  intros H.
  destruct (H session_libraries broken_whitelist_agent "ls" eq_refl) as [_ Hback].
  assert (Hex : exists r, In r (whitelist_actions (config broken_whitelist_agent)) /\
                          py_re_match (L := session_libraries) r "ls" = Matched).
  { exists "ls". split; [right; left; reflexivity | reflexivity]. }
  specialize (Hback Hex). discriminate.
Qed.

(** The scenario of the specification: in confirm mode with whitelist
    [ls], the command [ls -la] needs no confirmation although the pattern
    does not match it in full, and [rm -rf /] needs one. *)
Example whitelist_ls_scenario {L : Libraries} :
  let a := mkAgent (mkConfig confirm ["ls"] true) [] [] 0 in
  should_ask_confirmation a "ls -la" = Return false /\
  ~ Matches (literal "ls") "ls -la" /\
  should_ask_confirmation a "rm -rf /" = Return true.
Proof.
  cbn zeta. split; [reflexivity | split; [|reflexivity]].
  intros H. apply re_fullmatch_spec in H. discriminate.
Qed.

(* ================================================================== *)
(** ** Snapshots *)

Section SnapshotFacts.

Context {E : Type} {L : Libraries} (env : Environment E).

Lemma capable_guard :
  snapshot_capable env ->
  has_create_snapshot env && negb (String.eqb (cwd env) EmptyString) = true.
Proof.
  intros [-> Hcwd]. simpl. apply negb_true_iff.
  now apply String.eqb_neq.
Qed.

Lemma create_snapshot_success (w : World E) (es' : E) :
  snapshot_capable env ->
  create_snapshot env ("step-" ++ str_of_int (step_number (self w))) (env_state w)
    = (None, es') ->
  _create_snapshot env w
    = (Return tt, mkWorld (after_snapshot (self w)) es' (keyboard w) (console w)).
Proof.
  intros Hcap Hcall. unfold _create_snapshot.
  rewrite (capable_guard Hcap).
  unfold bind, get_self, try_except, env_call, modify_self, ret.
  cbv beta iota. rewrite Hcall. reflexivity.
Qed.

Lemma create_snapshot_raises (w : World E) (e : Exc) (es' : E) :
  snapshot_capable env ->
  create_snapshot env ("step-" ++ str_of_int (step_number (self w))) (env_state w)
    = (Some e, es') ->
  let failed := mkWorld (self w) es' (keyboard w) (console w) in
  _create_snapshot env w
    = if is_Exception e then
        match markup_error (snapshot_warning e) with
        | None => (Return tt, shown (snapshot_warning e ++ nl) failed)
        | Some m => (Raise (OtherException "MarkupError" m), failed)
        end
      else (Raise e, failed).
Proof.
  intros Hcap Hcall. cbn zeta. unfold _create_snapshot.
  rewrite (capable_guard Hcap).
  unfold bind, get_self, try_except, env_call, modify_self, ret.
  cbv beta iota. rewrite Hcall. destruct (is_Exception e); [|reflexivity].
  unfold console_print_markup.
  destruct (markup_error (snapshot_warning e)); reflexivity.
Qed.

(** Whatever a failed call raises, the agent is as it was. *)
Lemma create_snapshot_raises_agent (w : World E) (e : Exc) (es' : E) :
  snapshot_capable env ->
  create_snapshot env ("step-" ++ str_of_int (step_number (self w))) (env_state w)
    = (Some e, es') ->
  self (snd (_create_snapshot env w)) = self w /\
  env_state (snd (_create_snapshot env w)) = es' /\
  keyboard (snd (_create_snapshot env w)) = keyboard w.
Proof.
  intros Hcap Hcall. rewrite (create_snapshot_raises w e es' Hcap Hcall).
  destruct (is_Exception e); [|repeat split].
  destruct (markup_error (snapshot_warning e)); repeat split.
Qed.

Lemma create_snapshot_incapable (w : World E) :
  has_create_snapshot env && negb (String.eqb (cwd env) EmptyString) = false ->
  _create_snapshot env w = (Return tt, w).
Proof. intros H. unfold _create_snapshot. now rewrite H. Qed.

End SnapshotFacts.

(** C3.  When the environment's [create_snapshot] call raises, the agent
    object is exactly as before: no record is appended and the step
    counter is not incremented.  When what it raises is an [Exception],
    the warning is printed with the exception's text in it, read as
    console markup.  If that text is valid markup, [_create_snapshot]
    returns normally with only the warning printed, and [execute_action],
    once its confirmation stage has returned, goes on to the base
    executor in that world.  If it is not, the printing raises
    MarkupError inside the handler: [_create_snapshot] raises it, and so
    does [execute_action], which never reaches the base executor. *)
Theorem failed_snapshot_warning {E R : Type} {L : Libraries} (env : Environment E)
    (w : World E) (e : Exc) (es' : E) :
  snapshot_capable env ->
  create_snapshot env ("step-" ++ str_of_int (step_number (self w))) (env_state w)
    = (Some e, es') ->
  let failed := mkWorld (self w) es' (keyboard w) (console w) in
  let warned := shown (snapshot_warning e ++ nl) failed in
  self (snd (_create_snapshot env w)) = self w /\
  (is_Exception e = true ->
     (markup_error (snapshot_warning e) = None ->
        _create_snapshot env w = (Return tt, warned) /\
        forall (super_execute_action : dict -> M E R) fuel action w0,
          confirmation_stage env fuel action w0 = (Return tt, w) ->
          execute_action env super_execute_action fuel action w0
            = super_execute_action action warned) /\
     (forall m, markup_error (snapshot_warning e) = Some m ->
        _create_snapshot env w = (Raise (OtherException "MarkupError" m), failed) /\
        forall (super_execute_action : dict -> M E R) fuel action w0,
          confirmation_stage env fuel action w0 = (Return tt, w) ->
          execute_action env super_execute_action fuel action w0
            = (Raise (OtherException "MarkupError" m), failed))).
Proof.
  intros Hcap Hcall. cbn zeta.
  pose proof (create_snapshot_raises env w e es' Hcap Hcall) as Hrun.
  cbn zeta in Hrun.
  split; [apply (create_snapshot_raises_agent env w e es' Hcap Hcall)|].
  intros He. rewrite He in Hrun. split.
  - intros Hok. rewrite Hok in Hrun. split; [exact Hrun|].
    intros super fuel action w0 Hstage.
    unfold execute_action, bind. rewrite Hstage, Hrun. reflexivity.
  - intros m Hbad. rewrite Hbad in Hrun. split; [exact Hrun|].
    intros super fuel action w0 Hstage.
    unfold execute_action, bind. rewrite Hstage, Hrun. reflexivity.
Qed.

Section SnapshotSessions.

Context {E : Type} {L : Libraries} (env : Environment E).
Hypothesis Hcap : snapshot_capable env.
Hypothesis Hok : forall name es, fst (create_snapshot env name es) = None.

Lemma create_snapshot_always (w : World E) :
  exists es', _create_snapshot env w
    = (Return tt, mkWorld (after_snapshot (self w)) es' (keyboard w) (console w)).
Proof.
  destruct (create_snapshot env ("step-" ++ str_of_int (step_number (self w))) (env_state w))
    as [r es'] eqn:Hcall.
  pose proof (Hok ("step-" ++ str_of_int (step_number (self w))) (env_state w)) as Hr.
  rewrite Hcall in Hr. simpl in Hr. subst r.
  exists es'. now apply create_snapshot_success.
Qed.

Lemma run_ops_cons (op : Op) (ops : list Op) (w : World E) :
  run_ops env (op :: ops) w = run_ops env ops (run_op env op w).
Proof. reflexivity. Qed.

Lemma run_snapshot_session (ops : list SnapOp) : forall w : World E,
  let a := self (run_ops env (map op_of ops) w) in
  let lens := capture_lengths ops (List.length (messages (self w))) in
  snapshots a = (snapshots (self w) ++ records_from (step_number (self w)) lens)%list /\
  step_number a = step_number (self w) + Z.of_nat (List.length lens).
Proof.
  induction ops as [|[r c|] ops IH]; intros w; cbn zeta.
  - simpl. rewrite app_nil_r. split; [reflexivity | lia].
  - cbn [map op_of]. rewrite run_ops_cons.
    destruct (IH (run_op env (OpAddMessage r c) w)) as [IH1 IH2].
    cbn zeta in IH1, IH2.
    assert (Hlen : List.length (messages (self (run_op env (OpAddMessage r c) w)))
                   = S (List.length (messages (self w)))).
    { cbn. rewrite length_app. simpl. lia. }
    rewrite Hlen in IH1, IH2.
    cbn [capture_lengths]. split; assumption.
  - cbn [map op_of]. rewrite run_ops_cons.
    destruct (create_snapshot_always w) as [es' Hrun].
    unfold run_op. rewrite Hrun. cbn [snd].
    destruct (IH (mkWorld (after_snapshot (self w)) es' (keyboard w) (console w)))
      as [IH1 IH2].
    cbn zeta in IH1, IH2.
    cbn [capture_lengths].
    set (lens := capture_lengths ops (List.length (messages (self w)))) in *.
    split.
    + rewrite IH1. cbn [self after_snapshot snapshots step_number messages records_from].
      fold lens. rewrite <- app_assoc. reflexivity.
    + rewrite IH2. cbn [self after_snapshot step_number messages List.length].
      fold lens. rewrite Nat2Z.inj_succ. lia.
Qed.

Lemma nth_error_records_from (lens : list nat) : forall k i r,
  nth_error (records_from k lens) i = Some r ->
  SnapshotInfo.step_number r = k + Z.of_nat i /\
  SnapshotInfo.name r = "step-" ++ str_of_int (k + Z.of_nat i) /\
  exists len, nth_error lens i = Some len /\
              SnapshotInfo.message_count r = Z.of_nat len.
Proof.
  induction lens as [|len lens IH]; intros k i r H.
  - destruct i; discriminate.
  - destruct i as [|i]; simpl in H.
    + injection H as <-. simpl. rewrite Z.add_0_r.
      repeat split. now exists len.
    + apply IH in H as (H1 & H2 & H3).
      replace (k + Z.of_nat (S i)) with (k + 1 + Z.of_nat i) by lia.
      repeat split; assumption.
Qed.

Lemma length_records_from (lens : list nat) : forall k,
  List.length (records_from k lens) = List.length lens.
Proof. induction lens; intros k; simpl; [reflexivity | now rewrite IHlens]. Qed.

End SnapshotSessions.

(** C4. After any session of appended turns and successful snapshots that
    starts from a fresh agent, the record at index [i] of the ledger has
    step number [i], the name [step-i] made from the step counter as it
    was before that snapshot, and the transcript length at that moment as
    its message count; step numbers are strictly increasing, and the step
    counter is the number of snapshots taken. *)
Theorem snapshot_ledger_consistent {E : Type} {L : Libraries} (env : Environment E)
    (cfg : InteractiveAgentConfig) (msgs0 : list Message) (es : E)
    (ops : list SnapOp) :
  snapshot_capable env ->
  (forall name es, fst (create_snapshot env name es) = None) ->
  let a := self (run_ops env (map op_of ops) (fresh_session cfg msgs0 es)) in
  let lens := capture_lengths ops (List.length msgs0) in
  List.length (snapshots a) = List.length lens /\
  (forall i r, nth_error (snapshots a) i = Some r ->
     SnapshotInfo.step_number r = Z.of_nat i /\
     SnapshotInfo.name r = "step-" ++ str_of_int (Z.of_nat i) /\
     exists len, nth_error lens i = Some len /\
                 SnapshotInfo.message_count r = Z.of_nat len) /\
  (forall i j ri rj, (i < j)%nat ->
     nth_error (snapshots a) i = Some ri -> nth_error (snapshots a) j = Some rj ->
     SnapshotInfo.step_number ri < SnapshotInfo.step_number rj) /\
  step_number a = Z.of_nat (List.length (snapshots a)).
Proof.
  intros Hcap Hok a lens.
  destruct (run_snapshot_session env Hcap Hok ops (fresh_session cfg msgs0 es))
    as [Hs Hn].
  cbn zeta in Hs, Hn. simpl in Hs, Hn. fold a lens in Hs, Hn.
  assert (Hnth : forall i r, nth_error (snapshots a) i = Some r ->
     SnapshotInfo.step_number r = Z.of_nat i /\
     SnapshotInfo.name r = "step-" ++ str_of_int (Z.of_nat i) /\
     exists len, nth_error lens i = Some len /\
                 SnapshotInfo.message_count r = Z.of_nat len).
  { intros i r H. rewrite Hs in H.
    apply nth_error_records_from in H. exact H. }
  repeat split.
  - rewrite Hs. apply length_records_from.
  - now apply Hnth.
  - now apply Hnth.
  - now apply Hnth.
  - intros i j ri rj Hij Hi Hj.
    apply Hnth in Hi as [-> _]. apply Hnth in Hj as [-> _]. lia.
  - rewrite Hn, Hs, length_records_from. reflexivity.
Qed.

(* ================================================================== *)
(** ** The rollback handler *)

Ltac run_monad :=
  unfold bind, ret, raise, out_of_fuel, try_except, get_self, modify_self,
    console_print, console_print_end, env_call, shown, typed;
  cbv beta iota; cbn [self env_state keyboard console fst snd].

Section RollbackFacts.

Context {E : Type} (env : Environment E).

Lemma for_each_print {A : Type} (f : A -> string) (xs : list A) : forall w : World E,
  for_each xs (fun x => console_print (f x)) w
    = (Return tt,
       mkWorld (self w) (env_state w) (keyboard w)
         (console w ++ map (fun x => f x ++ nl) xs)).
Proof.
  induction xs as [|x xs IH]; intros w; cbn [for_each map].
  - unfold ret. rewrite app_nil_r. now destruct w.
  - unfold bind at 1. unfold console_print at 1, console_print_end.
    rewrite IH. cbn [self env_state keyboard console].
    rewrite <- app_assoc. reflexivity.
Qed.

(** What one run of the handler does before it prompts again: it leaves
    the agent alone, or it rolls back to the record it found, or the
    environment's [rollback_snapshot] raised something that the handler
    does not catch. *)
Lemma rollback_effect_shape (user_input : string) (w : World E) :
  (exists es' out,
      rollback_effect env user_input w
        = (Return EmptyString, mkWorld (self w) es' (keyboard w) (console w ++ out))) \/
  (exists arg N r es',
      nth_error (split user_input) 1 = Some arg /\ py_int arg = Some N /\
      find_snapshot (snapshots (self w)) N = Some r /\
      has_rollback_snapshot env = true /\
      rollback_snapshot env (SnapshotInfo.name r) (env_state w) = (None, es') /\
      rollback_effect env user_input w
        = (Return EmptyString,
           mkWorld (apply_rollback r N (self w)) es' (keyboard w)
             (console w ++
                [("[bold green]Rolled back to step " ++ str_of_int N ++ "[/bold green]") ++ nl]))) \/
  (exists r e es',
      rollback_snapshot env (SnapshotInfo.name r) (env_state w) = (Some e, es') /\
      is_ValueError_or_IndexError e = false /\
      rollback_effect env user_input w
        = (Raise e, mkWorld (self w) es' (keyboard w) (console w))).
Proof.
  unfold rollback_effect, _handle_rollback_with.
  destruct (List.length (split user_input) =? 1)%nat.
  - left. unfold bind at 1. unfold get_self. cbv beta iota.
    destruct (snapshots (self w)) as [|s ss] eqn:Hs.
    + exists (env_state w). eexists. run_monad. reflexivity.
    + exists (env_state w). eexists. unfold bind at 1. unfold bind at 1.
      unfold console_print at 1, console_print_end. cbv beta iota.
      rewrite for_each_print. run_monad. rewrite <- app_assoc. reflexivity.
  - unfold rollback_try_block.
    destruct (nth_error (split user_input) 1) as [arg|] eqn:Harg.
    2:{ left. exists (env_state w). eexists. run_monad. reflexivity. }
    destruct (py_int arg) as [N|] eqn:HN.
    2:{ left. exists (env_state w). eexists. run_monad. reflexivity. }
    destruct (find_snapshot (snapshots (self w)) N) as [r|] eqn:Hfind.
    2:{ left. exists (env_state w). eexists. run_monad. rewrite Hfind.
        cbv beta iota. reflexivity. }
    destruct (has_rollback_snapshot env) eqn:Hhas.
    2:{ left. exists (env_state w). eexists. run_monad. rewrite Hfind.
        cbv beta iota. reflexivity. }
    destruct (rollback_snapshot env (SnapshotInfo.name r) (env_state w))
      as [[e|] es'] eqn:Hcall.
    + destruct (is_ValueError_or_IndexError e) eqn:He.
      * left. exists es'. eexists. run_monad. rewrite Hfind. cbv beta iota.
        rewrite Hcall. cbv beta iota. rewrite He. reflexivity.
      * right. right. exists r, e, es'. repeat split; try assumption.
        run_monad. rewrite Hfind. cbv beta iota.
        rewrite Hcall. cbv beta iota. rewrite He. reflexivity.
    + right. left. exists arg, N, r, es'. repeat split; try assumption.
      run_monad. rewrite Hfind. cbv beta iota.
      rewrite Hcall. reflexivity.
Qed.

(** When the effect returns, it has printed a report. *)
Lemma rollback_effect_reports (user_input : string) (w w' : World E) (v : string) :
  rollback_effect env user_input w = (Return v, w') ->
  exists out, out <> [] /\ console w' = (console w ++ out)%list.
Proof.
  unfold rollback_effect, _handle_rollback_with.
  destruct (List.length (split user_input) =? 1)%nat.
  - unfold bind at 1. unfold get_self. cbv beta iota.
    destruct (snapshots (self w)) as [|s ss] eqn:Hs.
    + run_monad. intros [= <- <-]. eexists. split; [|reflexivity]. discriminate.
    + unfold bind at 1. unfold bind at 1.
      unfold console_print at 1, console_print_end. cbv beta iota.
      rewrite for_each_print. run_monad. intros [= <- <-].
      rewrite <- app_assoc. eexists. split; [|reflexivity]. discriminate.
  - unfold rollback_try_block.
    destruct (nth_error (split user_input) 1) as [arg|] eqn:Harg.
    2:{ run_monad. intros [= <- <-]. eexists. split; [|reflexivity]. discriminate. }
    destruct (py_int arg) as [N|] eqn:HN.
    2:{ run_monad. intros [= <- <-]. eexists. split; [|reflexivity]. discriminate. }
    destruct (find_snapshot (snapshots (self w)) N) as [r|] eqn:Hfind.
    2:{ run_monad. rewrite Hfind. cbv beta iota. intros [= <- <-].
        eexists. split; [|reflexivity]. discriminate. }
    destruct (has_rollback_snapshot env) eqn:Hhas.
    2:{ run_monad. rewrite Hfind. cbv beta iota. intros [= <- <-].
        eexists. split; [|reflexivity]. discriminate. }
    run_monad. rewrite Hfind. cbv beta iota.
    destruct (rollback_snapshot env (SnapshotInfo.name r) (env_state w))
      as [[e|] es'] eqn:Hcall; cbv beta iota.
    + destruct (is_ValueError_or_IndexError e) eqn:He; [|discriminate].
      intros [= <- <-]. eexists. split; [|reflexivity]. discriminate.
    + intros [= <- <-]. eexists. split; [|reflexivity]. discriminate.
Qed.

(** An error of [rollback_snapshot] that is neither ValueError nor
    IndexError leaves the effect as it was raised. *)
Lemma rollback_effect_uncaught (user_input cmd arg : string) (more : list string)
    (N : Z) (w : World E) (r : SnapshotInfo.t) (e : Exc) (es' : E) :
  split user_input = cmd :: arg :: more -> py_int arg = Some N ->
  find_snapshot (snapshots (self w)) N = Some r ->
  has_rollback_snapshot env = true ->
  rollback_snapshot env (SnapshotInfo.name r) (env_state w) = (Some e, es') ->
  is_ValueError_or_IndexError e = false ->
  rollback_effect env user_input w
    = (Raise e, mkWorld (self w) es' (keyboard w) (console w)).
Proof.
  intros Hparts HN Hfind Hhas Hcall He.
  unfold rollback_effect, _handle_rollback_with, rollback_try_block.
  rewrite Hparts. cbn [List.length Nat.eqb nth_error].
  rewrite HN, Hhas. run_monad. rewrite Hfind. cbv beta iota.
  rewrite Hcall. cbv beta iota. rewrite He. reflexivity.
Qed.

(** The handler is its effect followed by one fresh prompt, for any prompt
    that raises neither ValueError nor IndexError. *)
Lemma handle_rollback_factor (reprompt : string -> M E string) :
  (forall p w e, fst (reprompt p w) = Raise e -> is_ValueError_or_IndexError e = false) ->
  forall user_input w,
    _handle_rollback_with env reprompt user_input w
      = (rollback_effect env user_input ;;; reprompt plain_prompt) w.
Proof.
  intros Hre user_input w.
  unfold rollback_effect, _handle_rollback_with.
  destruct (List.length (split user_input) =? 1)%nat.
  - unfold bind, get_self, ret. cbv beta iota.
    destruct (snapshots (self w)) as [|s ss].
    + run_monad. reflexivity.
    + destruct (console_print "[bold green]Available snapshots:[/bold green]" w)
        as [o w1] eqn:H1.
      unfold console_print, console_print_end in H1. injection H1 as <- <-.
      cbv beta iota. rewrite for_each_print. reflexivity.
  - unfold rollback_try_block.
    destruct (nth_error (split user_input) 1) as [arg|] eqn:Harg.
    2:{ run_monad. reflexivity. }
    destruct (py_int arg) as [N|] eqn:HN.
    2:{ run_monad. reflexivity. }
    destruct (find_snapshot (snapshots (self w)) N) as [r|] eqn:Hfind.
    2:{ run_monad. rewrite Hfind. cbv beta iota.
        match goal with |- context [reprompt plain_prompt ?w1] =>
          pose proof (Hre plain_prompt w1) as Hr;
          destruct (reprompt plain_prompt w1) as [[v|e|] w2]
        end; cbn [fst] in Hr; try reflexivity.
        rewrite (Hr e eq_refl). reflexivity. }
    destruct (has_rollback_snapshot env) eqn:Hhas.
    2:{ run_monad. rewrite Hfind. cbv beta iota. reflexivity. }
    run_monad. rewrite Hfind. cbv beta iota.
    destruct (rollback_snapshot env (SnapshotInfo.name r) (env_state w))
      as [[e|] es'] eqn:Hcall; cbv beta iota.
    + destruct (is_ValueError_or_IndexError e) eqn:He; reflexivity.
    + reflexivity.
Qed.

End RollbackFacts.

(* ================================================================== *)
(** ** The prompt *)

Section PromptFacts.

Context {E : Type} (env : Environment E).

Lemma Mode_eqb_eq (a b : Mode) : Mode_eqb a b = true <-> a = b.
Proof. destruct a, b; simpl; split; congruence. Qed.

Lemma Mode_eqb_neq (a b : Mode) : Mode_eqb a b = false <-> a <> b.
Proof. destruct a, b; simpl; split; congruence. Qed.

Lemma mode_token_inv (l : string) (m : Mode) :
  _MODE_COMMANDS_MAPPING l = Some m ->
  (l = "/u" /\ m = human) \/ (l = "/c" /\ m = confirm) \/ (l = "/y" /\ m = yolo).
Proof.
  unfold _MODE_COMMANDS_MAPPING.
  destruct (String.eqb_spec l "/u") as [->|_]; [intros [= <-]; auto|].
  destruct (String.eqb_spec l "/c") as [->|_]; [intros [= <-]; auto|].
  destruct (String.eqb_spec l "/y") as [->|_]; [intros [= <-]; auto|].
  discriminate.
Qed.

Lemma mode_token_not_special (l : string) (m : Mode) :
  _MODE_COMMANDS_MAPPING l = Some m ->
  String.eqb l "/h" = false /\ startswith l "/r" = false.
Proof.
  intros H. apply mode_token_inv in H as [[-> _]|[[-> _]|[-> _]]]; split; reflexivity.
Qed.

Lemma rollback_not_help (l : string) :
  startswith l "/r" = true -> String.eqb l "/h" = false.
Proof.
  intros H. destruct (String.eqb_spec l "/h") as [->|]; [discriminate | reflexivity].
Qed.

(** Printing the prompt and reading the operator's next key. *)
Lemma read_key_bind {A : Type} (p : string) (k : string -> M E A) (w : World E) :
  (console_print_end p ;;; user_input <- prompt_session_prompt ;; k user_input) w
    = match keyboard w with
      | [] => (Raise EOFError, shown p w)
      | Line l :: ks => k l (typed ks (shown p w))
      | CtrlC :: ks => (Raise KeyboardInterrupt, typed ks (shown p w))
      | CtrlD :: ks => (Raise EOFError, typed ks (shown p w))
      end.
Proof.
  unfold bind, console_print_end, prompt_session_prompt, shown, typed.
  cbn [self env_state keyboard console].
  destruct (keyboard w) as [|[l| |] ks]; reflexivity.
Qed.

Lemma prompt_unfold_if (fuel : nat) :
  (forall p w e, fst (_prompt_and_handle_special env fuel p w) = Raise e ->
                 is_ValueError_or_IndexError e = false) ->
  forall p w,
    _prompt_and_handle_special env (S fuel) p w
      = prompt_once env (_prompt_and_handle_special env fuel) p w.
Proof.
  intros Hre p w. cbn [_prompt_and_handle_special]. unfold prompt_once.
  rewrite !read_key_bind.
  destruct (keyboard w) as [|[l| |] ks]; try reflexivity.
  destruct (String.eqb l "/h"); [reflexivity|].
  destruct (startswith l "/r"); [|reflexivity].
  now apply handle_rollback_factor.
Qed.

Lemma prompt_no_parse_errors (fuel : nat) : forall p w e,
  fst (_prompt_and_handle_special env fuel p w) = Raise e ->
  is_ValueError_or_IndexError e = false.
Proof.
  induction fuel as [|fuel IH]; intros p w e.
  - discriminate.
  - rewrite (prompt_unfold_if fuel IH). unfold prompt_once.
    rewrite read_key_bind.
    destruct (keyboard w) as [|[l| |] ks]; cbn [fst];
      try (intros [= <-]; reflexivity).
    destruct (String.eqb l "/h").
    { run_monad. apply IH. }
    destruct (startswith l "/r").
    { unfold bind.
      match goal with |- context [rollback_effect env l ?w1] =>
        destruct (rollback_effect_shape env l w1)
          as [(es' & out & ->) | [(arg & N & r & es' & _ & _ & _ & _ & _ & ->)
                                  | (r & e' & es' & _ & He & ->)]]
      end; cbv beta iota.
      - apply IH.
      - apply IH.
      - cbn [fst]. intros [= <-]. exact He. }
    destruct (_MODE_COMMANDS_MAPPING l) as [m|]; [|discriminate].
    run_monad. destruct (Mode_eqb (mode (config (self w))) m); [apply IH | discriminate].
Qed.

(** The recursive method is the loop. *)
Lemma prompt_unfold (fuel : nat) (p : string) (w : World E) :
  _prompt_and_handle_special env (S fuel) p w
    = prompt_once env (_prompt_and_handle_special env fuel) p w.
Proof. apply prompt_unfold_if, prompt_no_parse_errors. Qed.

(** The handler, as the prompt calls it, is its effect and then a fresh
    prompt. *)
Lemma handle_rollback_unfold (fuel : nat) (user_input : string) (w : World E) :
  _handle_rollback env fuel user_input w
    = (rollback_effect env user_input ;;;
       _prompt_and_handle_special env fuel plain_prompt) w.
Proof. apply handle_rollback_factor, prompt_no_parse_errors. Qed.

Lemma rollback_effect_keyboard (l : string) (w : World E) :
  keyboard (snd (rollback_effect env l w)) = keyboard w /\
  fst (rollback_effect env l w) <> OutOfFuel.
Proof.
  destruct (rollback_effect_shape env l w)
    as [(es' & out & ->) | [(arg & N & r & es' & _ & _ & _ & _ & _ & ->)
                            | (r & e' & es' & _ & He & ->)]];
    split; try reflexivity; discriminate.
Qed.

(** Every run of the method that does not run out of fuel is a run of the
    relation. *)
Lemma prompt_run_complete (fuel : nat) : forall p w o w',
  _prompt_and_handle_special env fuel p w = (o, w') ->
  o <> OutOfFuel ->
  prompt_run env p w o w'.
Proof.
  induction fuel as [|fuel IH]; intros p w o w'.
  - intros [= <- <-] H. now contradiction H.
  - rewrite prompt_unfold. unfold prompt_once.
    rewrite read_key_bind.
    destruct (keyboard w) as [|[l| |] ks] eqn:Hkb.
    + intros [= <- <-] _. now apply run_eof.
    + destruct (String.eqb_spec l "/h") as [->|Hh].
      { run_monad. intros H Ho. eapply run_help; [exact Hkb|].
        apply IH; assumption. }
      destruct (startswith l "/r") eqn:Hr.
      { unfold bind.
        destruct (rollback_effect env l (typed ks (shown p w)))
          as [[v|e|] w2] eqn:Heff.
        - intros H Ho. eapply run_rollback; eauto.
        - intros [= <- <-] _. eapply run_rollback_raises; eauto.
        - intros [= <- <-] Ho. now contradiction Ho. }
      destruct (_MODE_COMMANDS_MAPPING l) as [m|] eqn:Hm.
      * run_monad. destruct (Mode_eqb (mode (config (self w))) m) eqn:Hmode.
        -- apply Mode_eqb_eq in Hmode. subst m.
           intros H Ho. eapply run_same_mode; eauto.
        -- apply Mode_eqb_neq in Hmode.
           intros [= <- <-] _. eapply run_switch; eauto.
      * intros [= <- <-] _. apply run_plain; [exact Hkb|].
        unfold plain_line. rewrite Hr, Hm.
        destruct (String.eqb_spec l "/h"); [contradiction | reflexivity].
    + intros [= <- <-] _. now apply run_ctrl_c.
    + intros [= <- <-] _. now apply run_ctrl_d.
Qed.

(** The keyboard only gets shorter, and fuel above its length is enough. *)
Lemma prompt_fuel_enough (fuel : nat) : forall p w,
  (List.length (keyboard w) < fuel)%nat ->
  fst (_prompt_and_handle_special env fuel p w) <> OutOfFuel.
Proof.
  induction fuel as [|fuel IH]; intros p w Hlen; [lia|].
  rewrite prompt_unfold. unfold prompt_once.
  rewrite read_key_bind.
  destruct (keyboard w) as [|[l| |] ks] eqn:Hkb; cbn [fst]; try discriminate.
  cbn [List.length] in Hlen.
  destruct (String.eqb l "/h").
  { run_monad. apply IH. cbn. lia. }
  destruct (startswith l "/r").
  { unfold bind.
    match goal with |- context [rollback_effect env l ?w1] =>
      destruct (rollback_effect_keyboard l w1) as [Hk Hf];
      destruct (rollback_effect env l w1) as [[v|e|] w2]
    end; cbn [fst snd] in *; try discriminate; [|congruence].
    apply IH. rewrite Hk. cbn. lia. }
  destruct (_MODE_COMMANDS_MAPPING l) as [m|]; [|discriminate].
  run_monad. destruct (Mode_eqb (mode (config (self w))) m); [|discriminate].
  apply IH. cbn. lia.
Qed.

(** Hence every prompt has a run. *)
Lemma prompt_run_exists (p : string) (w : World E) :
  let r := _prompt_and_handle_special env (S (List.length (keyboard w))) p w in
  prompt_run env p w (fst r) (snd r).
Proof.
  cbn zeta. apply (prompt_run_complete (S (List.length (keyboard w)))).
  - now destruct (_prompt_and_handle_special env (S (List.length (keyboard w))) p w).
  - apply prompt_fuel_enough. lia.
Qed.

End PromptFacts.

(* ================================================================== *)
(** ** Mode tokens *)

(** C9. The mode tokens are [/u] for human, [/c] for confirm and [/y]
    for yolo.  When the operator types exactly one of them: if it names
    the mode the agent is in, the agent is left as it is and the operator
    is prompted again (with the rejection notice put before the prompt
    text); otherwise the mode becomes the named one and nothing else of
    the agent changes, a notice is printed, and the token itself is what
    the prompt returns. *)
Theorem mode_token_at_prompt {E : Type} (env : Environment E) (fuel : nat)
    (p : string) (w : World E) (tok : string) (rest : list Key) (m : Mode) :
  In (tok, m) [("/u", human); ("/c", confirm); ("/y", yolo)] ->
  keyboard w = Line tok :: rest ->
  _MODE_COMMANDS_MAPPING tok = Some m /\
  (mode (config (self w)) = m ->
     let again := typed rest (shown p w) in
     self again = self w /\
     _prompt_and_handle_special env (S fuel) p w
       = _prompt_and_handle_special env fuel
           ("[bold red]Already in " ++ mode_str m ++ " mode.[/bold red]" ++ nl ++ p) again) /\
  (mode (config (self w)) <> m ->
     let switched :=
       shown (("Switched to [bold green]" ++ mode_str m ++ "[/bold green] mode.") ++ nl)
         (mkWorld (set_mode m (self w)) (env_state w) rest (console w ++ [p])) in
     mode (config (self switched)) = m /\
     whitelist_actions (config (self switched)) = whitelist_actions (config (self w)) /\
     confirm_exit (config (self switched)) = confirm_exit (config (self w)) /\
     messages (self switched) = messages (self w) /\
     snapshots (self switched) = snapshots (self w) /\
     step_number (self switched) = step_number (self w) /\
     _prompt_and_handle_special env (S fuel) p w = (Return tok, switched)).
Proof.
  intros Htok Hkb.
  assert (Hm : _MODE_COMMANDS_MAPPING tok = Some m).
  { destruct Htok as [H|[H|[H|[]]]]; injection H as <- <-; reflexivity. }
  split; [exact Hm|].
  destruct (mode_token_not_special tok m Hm) as [Hh Hr].
  assert (Hrun : _prompt_and_handle_special env (S fuel) p w
                 = (a <- get_self ;;
                    if Mode_eqb (mode (config a)) m then
                      _prompt_and_handle_special env fuel
                        ("[bold red]Already in " ++ mode_str (mode (config a))
                           ++ " mode.[/bold red]" ++ nl ++ p)
                    else
                      modify_self (set_mode m) ;;;
                      console_print ("Switched to [bold green]" ++ mode_str m
                                       ++ "[/bold green] mode.") ;;;
                      ret tok) (typed rest (shown p w))).
  { cbn [_prompt_and_handle_special]. rewrite read_key_bind, Hkb, Hh, Hr, Hm.
    reflexivity. }
  split.
  - intros Hsame. cbn zeta. split; [reflexivity|].
    rewrite Hrun. run_monad.
    rewrite Hsame. destruct (Mode_eqb_eq m m) as [_ ->]; reflexivity.
  - intros Hdiff. cbn zeta. repeat (split; [reflexivity|]).
    rewrite Hrun. run_monad.
    apply Mode_eqb_neq in Hdiff. rewrite Hdiff. reflexivity.
Qed.

(* ================================================================== *)
(** ** Rollback requests *)

Section RollbackRequests.

Context {E : Type} (env : Environment E).

Lemma find_snapshot_none (ss : list SnapshotInfo.t) (N : Z) :
  (forall s, In s ss -> SnapshotInfo.step_number s <> N) ->
  find_snapshot ss N = None.
Proof.
  unfold find_snapshot. induction ss as [|s ss IH]; intros H; simpl; [reflexivity|].
  destruct (Z.eqb_spec (SnapshotInfo.step_number s) N) as [Heq|_].
  - exfalso. apply (H s); [now left | exact Heq].
  - apply IH. intros s' Hin. apply H. now right.
Qed.

Lemma find_snapshot_some (ss : list SnapshotInfo.t) (N : Z) :
  (exists r0, In r0 ss /\ SnapshotInfo.step_number r0 = N) ->
  exists r, find_snapshot ss N = Some r /\ In r ss /\ SnapshotInfo.step_number r = N.
Proof.
  unfold find_snapshot. intros (r0 & Hin & Hstep).
  destruct (find (fun s => SnapshotInfo.step_number s =? N) ss) as [r|] eqn:Hfind.
  - exists r. apply find_some in Hfind as [Hr Heq].
    apply Z.eqb_eq in Heq. auto.
  - exfalso. apply (find_none _ _ Hfind) in Hin.
    apply Z.eqb_neq in Hin. contradiction.
Qed.

Lemma two_parts (user_input cmd arg : string) (more : list string) :
  split user_input = cmd :: arg :: more ->
  (List.length (split user_input) =? 1)%nat = false /\
  nth_error (split user_input) 1 = Some arg.
Proof. intros ->. split; reflexivity. Qed.

Lemma rollback_effect_missing (user_input cmd arg : string) (more : list string)
    (N : Z) (w : World E) :
  split user_input = cmd :: arg :: more -> py_int arg = Some N ->
  find_snapshot (snapshots (self w)) N = None ->
  rollback_effect env user_input w
    = (Return EmptyString,
       shown (("[red]Snapshot for step " ++ str_of_int N ++ " not found[/red]") ++ nl) w).
Proof.
  intros Hparts HN Hfind.
  destruct (two_parts _ _ _ _ Hparts) as [Hlen Harg].
  unfold rollback_effect, _handle_rollback_with, rollback_try_block.
  rewrite Hlen, Harg, HN. run_monad. rewrite Hfind. reflexivity.
Qed.

Lemma rollback_effect_success (user_input cmd arg : string) (more : list string)
    (N : Z) (w : World E) (r : SnapshotInfo.t) (es' : E) :
  split user_input = cmd :: arg :: more -> py_int arg = Some N ->
  find_snapshot (snapshots (self w)) N = Some r ->
  has_rollback_snapshot env = true ->
  rollback_snapshot env (SnapshotInfo.name r) (env_state w) = (None, es') ->
  rollback_effect env user_input w
    = (Return EmptyString,
       mkWorld (apply_rollback r N (self w)) es' (keyboard w)
         (console w ++
            [("[bold green]Rolled back to step " ++ str_of_int N ++ "[/bold green]") ++ nl])).
Proof.
  intros Hparts HN Hfind Hhas Hcall.
  destruct (two_parts _ _ _ _ Hparts) as [Hlen Harg].
  unfold rollback_effect, _handle_rollback_with, rollback_try_block.
  rewrite Hlen, Harg, HN, Hhas. run_monad. rewrite Hfind. cbv beta iota.
  rewrite Hcall. reflexivity.
Qed.

Lemma length_slice_to {A : Type} (xs : list A) (k : Z) :
  0 <= k <= Z.of_nat (List.length xs) ->
  Z.of_nat (List.length (slice_to xs k)) = k.
Proof.
  intros Hk. unfold slice_to.
  destruct (Z.ltb_spec k 0) as [Hneg|_]; [lia|].
  rewrite length_firstn. lia.
Qed.

End RollbackRequests.

(** C2. When no record of the ledger has step number [N], the request
    [/r N] reports that the snapshot was not found and prompts again with
    the agent (transcript, ledger, step counter) and the environment
    exactly as they were. *)
Theorem rollback_to_missing_step {E : Type} (env : Environment E) (fuel : nat)
    (w : World E) (user_input cmd arg : string) (more : list string) (N : Z) :
  split user_input = cmd :: arg :: more -> py_int arg = Some N ->
  (forall s, In s (snapshots (self w)) -> SnapshotInfo.step_number s <> N) ->
  let reported :=
    shown (("[red]Snapshot for step " ++ str_of_int N ++ " not found[/red]") ++ nl) w in
  _handle_rollback env fuel user_input w
    = _prompt_and_handle_special env fuel plain_prompt reported /\
  messages (self reported) = messages (self w) /\
  snapshots (self reported) = snapshots (self w) /\
  step_number (self reported) = step_number (self w) /\
  env_state reported = env_state w.
Proof.
  intros Hparts HN Hnone. cbn zeta. repeat split.
  rewrite handle_rollback_unfold. unfold bind.
  rewrite (rollback_effect_missing env _ _ _ _ _ _ Hparts HN
             (find_snapshot_none _ _ Hnone)).
  reflexivity.
Qed.

(** C1. When the ledger has a record with step number [N], the environment
    has [rollback_snapshot] and the call succeeds, the request [/r N]
    takes the first such record, cuts the transcript to
    [messages[:message_count]] (so the transcript has exactly
    [message_count] turns whenever it had at least that many), keeps
    exactly the records with step number at most [N], in order, sets the
    step counter to [N + 1], reports success and prompts again; the next
    successful snapshot is then recorded with step number [N + 1] under
    the name made from [N + 1]. *)
Theorem rollback_to_recorded_step {E : Type} {L : Libraries} (env : Environment E)
    (fuel : nat)
    (w : World E) (user_input cmd arg : string) (more : list string) (N : Z) :
  split user_input = cmd :: arg :: more -> py_int arg = Some N ->
  (exists r0, In r0 (snapshots (self w)) /\ SnapshotInfo.step_number r0 = N) ->
  has_rollback_snapshot env = true ->
  (forall r, find_snapshot (snapshots (self w)) N = Some r ->
             fst (rollback_snapshot env (SnapshotInfo.name r) (env_state w)) = None) ->
  exists r es',
    find_snapshot (snapshots (self w)) N = Some r /\
    In r (snapshots (self w)) /\ SnapshotInfo.step_number r = N /\
    rollback_snapshot env (SnapshotInfo.name r) (env_state w) = (None, es') /\
    let a' := apply_rollback r N (self w) in
    let rolled_back :=
      mkWorld a' es' (keyboard w)
        (console w ++
           [("[bold green]Rolled back to step " ++ str_of_int N ++ "[/bold green]") ++ nl]) in
    _handle_rollback env fuel user_input w
      = _prompt_and_handle_special env fuel plain_prompt rolled_back /\
    messages a' = slice_to (messages (self w)) (SnapshotInfo.message_count r) /\
    (0 <= SnapshotInfo.message_count r <= Z.of_nat (List.length (messages (self w))) ->
     Z.of_nat (List.length (messages a')) = SnapshotInfo.message_count r) /\
    snapshots a' = keep_upto (snapshots (self w)) N /\
    (forall s, In s (snapshots a') <->
               In s (snapshots (self w)) /\ SnapshotInfo.step_number s <= N) /\
    step_number a' = N + 1 /\
    (forall es'',
       snapshot_capable env ->
       create_snapshot env ("step-" ++ str_of_int (N + 1)) es' = (None, es'') ->
       _create_snapshot env rolled_back
         = (Return tt, mkWorld (after_snapshot a') es'' (keyboard w) (console rolled_back)) /\
       snapshots (after_snapshot a')
         = (snapshots a' ++
              [SnapshotInfo.mk ("step-" ++ str_of_int (N + 1))
                 (Z.of_nat (List.length (messages a'))) (N + 1)])%list).
Proof.
  intros Hparts HN Hex Hhas Hcall.
  destruct (find_snapshot_some _ _ Hex) as (r & Hfind & Hin & Hstep).
  specialize (Hcall r Hfind).
  destruct (rollback_snapshot env (SnapshotInfo.name r) (env_state w))
    as [res es'] eqn:Hroll.
  cbn [fst] in Hcall. subst res.
  exists r, es'. cbn zeta.
  split; [exact Hfind|]. split; [exact Hin|]. split; [exact Hstep|].
  split; [exact Hroll|]. split.
  { rewrite handle_rollback_unfold. unfold bind.
    rewrite (rollback_effect_success env _ _ _ _ _ _ _ _ Hparts HN Hfind Hhas Hroll).
    reflexivity. }
  split; [reflexivity|]. split.
  { intros Hrange. cbn [apply_rollback set_step_number set_snapshots set_messages messages].
    now apply length_slice_to. }
  split; [reflexivity|]. split.
  { intros s. cbn [apply_rollback set_step_number set_snapshots set_messages snapshots].
    unfold keep_upto. rewrite filter_In, Z.leb_le. reflexivity. }
  split; [reflexivity|].
  intros es'' Hcap Hcreate. split; [|reflexivity].
  match goal with |- _create_snapshot env ?w1 = _ =>
    apply (create_snapshot_success env w1 es'' Hcap)
  end.
  exact Hcreate.
Qed.

(** The scenario of the specification: snapshots at steps 0, 1, 2 taken at
    transcript lengths 2, 5, 9; [/r 1] leaves five turns and the records
    of steps 0 and 1, and the next step number is 2. *)
Example rollback_scenario :
  let w := mkWorld agent_at_step_3 (@nil string) [Line "/r 1"; Line "go on"] [] in
  let r := _prompt_and_handle_special recording_env 3 plain_prompt w in
  fst r = Return "go on" /\
  List.length (messages (self (snd r))) = 5%nat /\
  map SnapshotInfo.step_number (snapshots (self (snd r))) = [0; 1] /\
  step_number (self (snd r)) = 2 /\
  env_state (snd r) = ["rollback_snapshot step-1"].
Proof. vm_compute. repeat split. Qed.

(* ================================================================== *)
(** ** The ledger invariant *)

Section LedgerInvariant.

Context {E : Type} {L : Libraries} (env : Environment E).

(** On a ledger whose records carry the step numbers [k], [k+1], ..., the
    records with step number at most [N] are a prefix. *)
Lemma keep_upto_prefix (ss : list SnapshotInfo.t) : forall k N,
  (forall i r, nth_error ss i = Some r -> SnapshotInfo.step_number r = k + Z.of_nat i) ->
  keep_upto ss N = firstn (Z.to_nat (N + 1 - k)) ss.
Proof.
  unfold keep_upto.
  induction ss as [|s ss IH]; intros k N Hidx.
  - now rewrite firstn_nil.
  - assert (Hs : SnapshotInfo.step_number s = k).
    { rewrite (Hidx 0%nat s eq_refl). simpl. lia. }
    assert (Htl : forall i r, nth_error ss i = Some r ->
                    SnapshotInfo.step_number r = (k + 1) + Z.of_nat i).
    { intros i r H. rewrite (Hidx (S i) r H). lia. }
    cbn [filter]. rewrite Hs, (IH (k + 1) N Htl).
    destruct (Z.leb_spec k N) as [Hle|Hgt].
    + replace (Z.to_nat (N + 1 - k)) with (S (Z.to_nat (N + 1 - (k + 1)))) by lia.
      reflexivity.
    + replace (Z.to_nat (N + 1 - k)) with 0%nat by lia.
      replace (Z.to_nat (N + 1 - (k + 1))) with 0%nat by lia.
      reflexivity.
Qed.

Lemma nth_error_firstn_some {A : Type} (n : nat) (xs : list A) : forall i x,
  nth_error (firstn n xs) i = Some x -> (i < n)%nat /\ nth_error xs i = Some x.
Proof.
  revert xs. induction n as [|n IH]; intros xs i x H.
  - destruct i; discriminate.
  - destruct xs as [|y xs]; [destruct i; discriminate|].
    destruct i as [|i]; cbn in H |- *.
    + split; [lia | exact H].
    + apply IH in H as [Hlt H]. split; [lia | exact H].
Qed.

Lemma ledger_ok_set_mode (a : InteractiveAgent) (m : Mode) :
  ledger_ok a -> ledger_ok (set_mode m a).
Proof. intros H. exact H. Qed.

Lemma ledger_ok_add_message (a : InteractiveAgent) (x : Message) :
  ledger_ok a -> ledger_ok (set_messages (messages a ++ [x]) a).
Proof.
  intros [Hidx [Hb Hmono]]. split; [exact Hidx|]. split; [|exact Hmono].
  intros r Hr. cbn [set_messages messages]. rewrite length_app.
  specialize (Hb r Hr). cbn [List.length]. lia.
Qed.

Lemma ledger_ok_after_snapshot (a : InteractiveAgent) :
  ledger_ok a -> ledger_ok (after_snapshot a).
Proof.
  intros [[Hn Hidx] [Hb Hmono]].
  set (new := SnapshotInfo.mk ("step-" ++ str_of_int (step_number a))
                (Z.of_nat (List.length (messages a))) (step_number a)).
  assert (Hnth : forall i r, nth_error (snapshots a ++ [new]) i = Some r ->
            (nth_error (snapshots a) i = Some r /\ (i < List.length (snapshots a))%nat) \/
            (i = List.length (snapshots a) /\ r = new)).
  { intros i r H. destruct (Nat.lt_ge_cases i (List.length (snapshots a))) as [Hlt|Hge].
    - left. rewrite nth_error_app1 in H by exact Hlt. auto.
    - right. rewrite nth_error_app2 in H by exact Hge.
      destruct (i - List.length (snapshots a))%nat as [|d] eqn:Hd.
      + cbn in H. injection H as <-. split; [lia | reflexivity].
      + destruct d; discriminate. }
  assert (Hbnew : forall x, In x (snapshots a ++ [new]) ->
            0 <= SnapshotInfo.message_count x <= Z.of_nat (List.length (messages a))).
  { intros x Hx. apply in_app_or in Hx as [Hx|[<-|[]]]; [now apply Hb | cbn; lia]. }
  unfold after_snapshot. fold new.
  split; [split | split]; cbn [snapshots step_number messages].
  - rewrite length_app, Hn. cbn [List.length]. lia.
  - intros i r H. apply Hnth in H as [[H _]|[-> ->]].
    + now apply Hidx.
    + cbn. exact Hn.
  - exact Hbnew.
  - intros i j ri rj Hij Hi Hj.
    apply Hnth in Hi as [[Hi Hli]|[-> ->]]; apply Hnth in Hj as [[Hj Hlj]|[-> ->]].
    + now apply (Hmono i j).
    + cbn. apply Hb. now apply (nth_error_In _ i).
    + lia.
    + lia.
Qed.

Lemma ledger_ok_apply_rollback (a : InteractiveAgent) (r : SnapshotInfo.t) (N : Z) :
  ledger_ok a -> find_snapshot (snapshots a) N = Some r ->
  ledger_ok (apply_rollback r N a).
Proof.
  intros [[Hn Hidx] [Hb Hmono]] Hfind.
  apply find_some in Hfind as [Hin Hstep]. apply Z.eqb_eq in Hstep.
  destruct (In_nth_error _ _ Hin) as [k Hk].
  assert (HN : N = Z.of_nat k) by (rewrite <- Hstep; now apply Hidx).
  assert (Hklt : (k < List.length (snapshots a))%nat).
  { apply nth_error_Some. rewrite Hk. discriminate. }
  assert (Hkeep : keep_upto (snapshots a) N = firstn (S k) (snapshots a)).
  { rewrite (keep_upto_prefix (snapshots a) 0 N).
    - f_equal. lia.
    - intros i x H. rewrite (Hidx i x H). lia. }
  pose proof (Hb r Hin) as Hr.
  unfold apply_rollback.
  split; [split | split];
    cbn [set_step_number set_snapshots set_messages snapshots step_number messages];
    rewrite Hkeep.
  - rewrite length_firstn. lia.
  - intros i x H.
    apply nth_error_firstn_some in H as [_ H]. now apply Hidx.
  - intros x H. apply In_nth_error in H as [i H].
    apply nth_error_firstn_some in H as [Hi H].
    rewrite length_slice_to by exact Hr.
    pose proof (Hb x (nth_error_In _ _ H)) as Hx.
    pose proof (Hmono i k x r) as Hle.
    split; [lia | apply Hle; [lia | exact H | exact Hk]].
  - intros i j ri rj Hij Hi Hj.
    apply nth_error_firstn_some in Hi as [_ Hi].
    apply nth_error_firstn_some in Hj as [_ Hj].
    now apply (Hmono i j).
Qed.

(** A snapshot attempt leaves the agent as it was or takes the snapshot. *)
Lemma create_snapshot_cases (w : World E) :
  self (snd (_create_snapshot env w)) = self w \/
  self (snd (_create_snapshot env w)) = after_snapshot (self w).
Proof.
  destruct (has_create_snapshot env && negb (String.eqb (cwd env) EmptyString)) eqn:Hg.
  - assert (Hcap : snapshot_capable env).
    { apply andb_true_iff in Hg as [H1 H2]. split; [exact H1|].
      apply negb_true_iff in H2. now apply String.eqb_neq. }
    destruct (create_snapshot env ("step-" ++ str_of_int (step_number (self w))) (env_state w))
      as [[e|] es'] eqn:Hcall.
    + left. apply (create_snapshot_raises_agent env w e es' Hcap Hcall).
    + right. now rewrite (create_snapshot_success env w es' Hcap Hcall).
  - left. now rewrite create_snapshot_incapable.
Qed.

Lemma rollback_effect_agent (l : string) (w : World E) :
  self (snd (rollback_effect env l w)) = self w \/
  exists r N, find_snapshot (snapshots (self w)) N = Some r /\
              self (snd (rollback_effect env l w)) = apply_rollback r N (self w).
Proof.
  destruct (rollback_effect_shape env l w)
    as [(es' & out & ->) | [(arg & N & r & es' & _ & _ & Hfind & _ & _ & ->)
                            | (r & e' & es' & _ & He & ->)]].
  - now left.
  - right. now exists r, N.
  - now left.
Qed.

(** A prompt preserves every property of the agent that mode switches and
    rollbacks to a recorded step preserve. *)
Lemma prompt_run_preserves (Inv : InteractiveAgent -> Prop) :
  (forall a m, Inv a -> Inv (set_mode m a)) ->
  (forall a r N, Inv a -> find_snapshot (snapshots a) N = Some r ->
                 Inv (apply_rollback r N a)) ->
  forall p w o w', prompt_run env p w o w' -> Inv (self w) -> Inv (self w').
Proof.
  intros Hmode Hroll p w o w' Hrun.
  induction Hrun as
    [ p w Hkb | p w ks Hkb | p w ks Hkb | p w ks o w' Hkb Hrun IH
    | p w l ks e w2 Hkb Hr Heff | p w l ks v w2 o w' Hkb Hr Heff Hrun IH
    | p w l ks o w' Hkb Hm Hrun IH | p w l ks m Hkb Hm Hneq | p w l ks Hkb Hpl ];
    intros Hinv; try exact Hinv; try (apply IH; exact Hinv).
  - destruct (rollback_effect_agent l (typed ks (shown p w)))
      as [Hs | (r & N & Hfind & Hs)]; rewrite Heff in Hs; cbn [snd] in Hs; rewrite Hs.
    + exact Hinv.
    + now apply Hroll.
  - apply IH.
    destruct (rollback_effect_agent l (typed ks (shown p w)))
      as [Hs | (r & N & Hfind & Hs)]; rewrite Heff in Hs; cbn [snd] in Hs; rewrite Hs.
    + exact Hinv.
    + now apply Hroll.
  - now apply Hmode.
Qed.

Lemma run_op_ledger_ok (op : Op) (w : World E) :
  ledger_ok (self w) -> ledger_ok (self (run_op env op w)).
Proof.
  intros Hinv. destruct op as [r c| |p keys]; cbn [run_op].
  - now apply ledger_ok_add_message.
  - destruct (create_snapshot_cases w) as [-> | ->];
      [exact Hinv | now apply ledger_ok_after_snapshot].
  - pose proof (prompt_run_exists env p (with_keyboard keys w)) as Hrun.
    cbn zeta in Hrun. cbn [with_keyboard keyboard] in Hrun.
    apply (prompt_run_preserves ledger_ok ledger_ok_set_mode
             ledger_ok_apply_rollback _ _ _ _ Hrun).
    exact Hinv.
Qed.

Lemma run_ops_ledger_ok (ops : list Op) : forall w : World E,
  ledger_ok (self w) -> ledger_ok (self (run_ops env ops w)).
Proof.
  induction ops as [|op ops IH]; intros w Hinv; [exact Hinv|].
  rewrite run_ops_cons. apply IH. now apply run_op_ledger_ok.
Qed.

Lemma fresh_agent_ledger_ok (cfg : InteractiveAgentConfig) (msgs : list Message) :
  ledger_ok (fresh_agent cfg msgs).
Proof.
  repeat split; cbn; try (intros [|?] ?; discriminate); try contradiction.
Qed.

End LedgerInvariant.

(** C10. After any session that starts from a fresh agent -- turns
    appended, snapshot attempts that succeed or fail, prompts at which the
    operator types anything, rollback requests included -- the step
    counter is the length of the ledger and every record sits at the index
    that is its step number.  In particular a failed attempt leaves the
    agent as it was, so the next successful one is recorded under the step
    number and the name of the failed one. *)
Theorem ledger_steps_are_indices {E : Type} {L : Libraries} (env : Environment E)
    (cfg : InteractiveAgentConfig) (msgs0 : list Message) (es : E) (ops : list Op) :
  let a := self (run_ops env ops (fresh_session cfg msgs0 es)) in
  step_number a = Z.of_nat (List.length (snapshots a)) /\
  (forall i r, nth_error (snapshots a) i = Some r ->
               SnapshotInfo.step_number r = Z.of_nat i) /\
  (forall (w : World E) e es1 es2,
     snapshot_capable env ->
     create_snapshot env ("step-" ++ str_of_int (step_number (self w))) (env_state w)
       = (Some e, es1) ->
     is_Exception e = true ->
     create_snapshot env ("step-" ++ str_of_int (step_number (self w))) es1
       = (None, es2) ->
     let failed := snd (_create_snapshot env w) in
     self failed = self w /\
     self (snd (_create_snapshot env failed)) = after_snapshot (self w)).
Proof.
  cbn zeta.
  destruct (run_ops_ledger_ok env ops (fresh_session cfg msgs0 es)
              (fresh_agent_ledger_ok cfg msgs0)) as [[Hn Hidx] _].
  split; [exact Hn|]. split; [exact Hidx|].
  intros w e es1 es2 Hcap Hfail He Hnext.
  destruct (create_snapshot_raises_agent env w e es1 Hcap Hfail) as (Hself & Henv & _).
  split; [exact Hself|].
  rewrite (create_snapshot_success env (snd (_create_snapshot env w)) es2 Hcap).
  - cbn [snd self]. now rewrite Hself.
  - now rewrite Hself, Henv.
Qed.

(** In a session the transcript never gets shorter than a recorded
    message count, so a rollback to a recorded step leaves exactly that
    many turns. *)
Lemma session_rollback_length {E : Type} {L : Libraries} (env : Environment E)
    (cfg : InteractiveAgentConfig) (msgs0 : list Message) (es : E) (ops : list Op) :
  let a := self (run_ops env ops (fresh_session cfg msgs0 es)) in
  forall N r,
    find_snapshot (snapshots a) N = Some r ->
    Z.of_nat (List.length (messages (apply_rollback r N a)))
      = SnapshotInfo.message_count r.
Proof.
  cbn zeta. intros N r Hfind.
  destruct (run_ops_ledger_ok env ops (fresh_session cfg msgs0 es)
              (fresh_agent_ledger_ok cfg msgs0)) as [_ [Hb _]].
  apply find_some in Hfind as [Hin _].
  cbn [apply_rollback set_step_number set_snapshots set_messages messages].
  apply length_slice_to. now apply Hb.
Qed.

(* ================================================================== *)
(** ** Confirmation and snapshots in [execute_action] *)

Section ExecuteAction.

Context {E R : Type} {L : Libraries} (env : Environment E).
Variable super_execute_action : dict -> M E R.

Lemma execute_action_after_stage (fuel : nat) (action : dict) (w : World E) :
  execute_action env super_execute_action fuel action w
    = match confirmation_stage env fuel action w with
      | (Return _, w1) => (_create_snapshot env ;;; super_execute_action action) w1
      | (Raise e, w1) => (Raise e, w1)
      | (OutOfFuel, w1) => (OutOfFuel, w1)
      end.
Proof.
  unfold execute_action. unfold bind at 1.
  destruct (confirmation_stage env fuel action w) as [[[]|e|] w1]; reflexivity.
Qed.

Lemma ask_confirmation_after_prompt (fuel : nat) (w : World E) :
  ask_confirmation env fuel w
    = match _prompt_and_handle_special env fuel confirmation_prompt w with
      | (Return line, w1) =>
          if String.eqb (strip line) EmptyString || String.eqb (strip line) "/y"
          then (Return tt, w1)
          else if String.eqb (strip line) "/u"
          then (Raise (NonTerminatingException
                         "Command not executed. Switching to human mode"), w1)
          else (Raise (NonTerminatingException
                         ("Command not executed. The user rejected your command with the following message: "
                            ++ strip line)), w1)
      | (Raise e, w1) => (Raise e, w1)
      | (OutOfFuel, w1) => (OutOfFuel, w1)
      end.
Proof.
  unfold ask_confirmation, bind.
  destruct (_prompt_and_handle_special env fuel confirmation_prompt w) as [[line|e|] w1];
    try reflexivity.
  destruct (String.eqb (strip line) EmptyString || String.eqb (strip line) "/y");
    [reflexivity|].
  destruct (String.eqb (strip line) "/u"); reflexivity.
Qed.

Lemma confirmation_stage_cases (fuel : nat) (action : dict) (cmd : string)
    (w : World E) :
  dict_get action "action" = Some cmd ->
  confirmation_stage env fuel action w
    = match should_ask_confirmation (self w) cmd with
      | Return true => ask_confirmation env fuel w
      | Return false => (Return tt, w)
      | Raise e => (Raise e, w)
      | OutOfFuel => (OutOfFuel, w)
      end.
Proof.
  intros Hcmd. unfold confirmation_stage. rewrite Hcmd.
  unfold bind, get_self, lift, ret.
  now destruct (should_ask_confirmation (self w) cmd) as [[|]|e|].
Qed.

End ExecuteAction.

(** C7, as the code has it.  [execute_action] attempts the snapshot and
    then calls the base executor exactly when its confirmation stage
    returns normally: no confirmation was required, or the operator's
    answer, stripped of the white space around it, is empty or [/y].
    When the confirmation stage raises -- the stripped answer is [/u] or
    any other text, the prompt itself raises, or [re.match] raises on a
    whitelist entry -- that exception is the outcome of [execute_action]
    in the world where it was raised: no snapshot is attempted and the
    base executor does not run. *)
Theorem snapshot_follows_confirmation {E R : Type} {L : Libraries}
    (env : Environment E) (super_execute_action : dict -> M E R) (fuel : nat)
    (action : dict) (cmd : string) (w : World E) :
  dict_get action "action" = Some cmd ->
  (should_ask_confirmation (self w) cmd = Return false ->
     execute_action env super_execute_action fuel action w
       = (_create_snapshot env ;;; super_execute_action action) w) /\
  (should_ask_confirmation (self w) cmd = Return true ->
     (forall line w1,
        _prompt_and_handle_special env fuel confirmation_prompt w = (Return line, w1) ->
        execute_action env super_execute_action fuel action w
          = if String.eqb (strip line) EmptyString || String.eqb (strip line) "/y"
            then (_create_snapshot env ;;; super_execute_action action) w1
            else if String.eqb (strip line) "/u"
            then (Raise (NonTerminatingException
                           "Command not executed. Switching to human mode"), w1)
            else (Raise (NonTerminatingException
                           ("Command not executed. The user rejected your command with the following message: "
                              ++ strip line)), w1)) /\
     (forall e w1,
        _prompt_and_handle_special env fuel confirmation_prompt w = (Raise e, w1) ->
        execute_action env super_execute_action fuel action w = (Raise e, w1))) /\
  (forall e, should_ask_confirmation (self w) cmd = Raise e ->
     execute_action env super_execute_action fuel action w = (Raise e, w)).
Proof.
  intros Hcmd. split; [|split].
  - intros Hask. rewrite execute_action_after_stage.
    rewrite (confirmation_stage_cases env fuel action cmd w Hcmd), Hask. reflexivity.
  - intros Hask. split.
    + intros line w1 Hprompt. rewrite execute_action_after_stage.
      rewrite (confirmation_stage_cases env fuel action cmd w Hcmd), Hask.
      rewrite ask_confirmation_after_prompt, Hprompt.
      destruct (String.eqb (strip line) EmptyString || String.eqb (strip line) "/y");
        [reflexivity|].
      destruct (String.eqb (strip line) "/u"); reflexivity.
    + intros e w1 Hprompt. rewrite execute_action_after_stage.
      rewrite (confirmation_stage_cases env fuel action cmd w Hcmd), Hask.
      rewrite ask_confirmation_after_prompt, Hprompt. reflexivity.
  - intros e Hask. rewrite execute_action_after_stage.
    rewrite (confirmation_stage_cases env fuel action cmd w Hcmd), Hask. reflexivity.
Qed.

(** In confirm mode with an empty whitelist the operator answers [no]:
    [execute_action] raises, the environment has received no call and the
    ledger is empty. *)
Lemma rejected_action_takes_no_snapshot :
  let r := execute_action (L := session_libraries) recording_env (fun a => ret a) 2
             rm_action rejecting_world in
  fst r = Raise (NonTerminatingException
                   "Command not executed. The user rejected your command with the following message: no") /\
  env_state (snd r) = [] /\ snapshots (self (snd r)) = [] /\
  ~ snapshot_attempted_on_every_action.
Proof.
  cbn zeta. split; [reflexivity|]. split; [reflexivity|]. split; [reflexivity|].
  intros H.
  destruct (H session_libraries rejecting_world 2%nat rm_action "rm -rf /" eq_refl)
    as [name Hin].
  - cbn. lia.
  - vm_compute in Hin. exact Hin.
Qed.

(* ================================================================== *)
(** ** Interruptions *)

Section Interruptions.

Context {E : Type} (env : Environment E).

(** A prompt at which the operator types no rollback command leaves the
    transcript, the ledger, the step counter and the environment alone. *)
Lemma prompt_run_frame p (w : World E) o w' :
  prompt_run env p w o w' ->
  no_rollback_keys (keyboard w) = true ->
  messages (self w') = messages (self w) /\
  snapshots (self w') = snapshots (self w) /\
  step_number (self w') = step_number (self w) /\
  env_state w' = env_state w.
Proof.
  unfold no_rollback_keys.
  induction 1 as
    [ p w Hkb | p w ks Hkb | p w ks Hkb | p w ks o w' Hkb Hrun IH
    | p w l ks e w2 Hkb Hr Heff | p w l ks v w2 o w' Hkb Hr Heff Hrun IH
    | p w l ks o w' Hkb Hm Hrun IH | p w l ks m Hkb Hm Hneq | p w l ks Hkb Hpl ];
    intros Hno; try (repeat split; reflexivity);
    rewrite Hkb in Hno; cbn [forallb is_rollback_key] in Hno;
    apply andb_true_iff in Hno as [Hl Hks].
  - apply IH. exact Hks.
  - rewrite Hr in Hl. discriminate.
  - rewrite Hr in Hl. discriminate.
  - apply IH. exact Hks.
Qed.

End Interruptions.

(** C6, as the code has it.  When the base step raises KeyboardInterrupt,
    [step] prompts the operator and raises NonTerminatingException with
    the operator's stripped comment, or with the default message when the
    comment is blank or a mode token.  The handler restores nothing: when
    the operator types no rollback command at that prompt, the
    transcript, the ledger and the step counter after [step] are those of
    the moment the interruption was caught, whatever the interrupted step
    had already done to them. *)
Theorem interruption_is_converted {E R : Type} (env : Environment E)
    (super_step : M E R) (fuel : nat) (w w1 : World E) :
  (console_print "<Rule>" ;;; super_step) w = (Raise KeyboardInterrupt, w1) ->
  (List.length (keyboard w1) < fuel)%nat ->
  let asked := _prompt_and_handle_special env fuel interrupt_prompt w1 in
  step env super_step fuel w
    = match asked with
      | (Return line, w2) =>
          (Raise (NonTerminatingException
                    ("Interrupted by user: " ++ interruption_message line)), w2)
      | (Raise e, w2) => (Raise e, w2)
      | (OutOfFuel, w2) => (OutOfFuel, w2)
      end /\
  fst asked <> OutOfFuel /\
  (no_rollback_keys (keyboard w1) = true ->
     let after := snd (step env super_step fuel w) in
     messages (self after) = messages (self w1) /\
     snapshots (self after) = snapshots (self w1) /\
     step_number (self after) = step_number (self w1)) /\
  (forall line,
     strip line = EmptyString \/ (exists m, _MODE_COMMANDS_MAPPING (strip line) = Some m) ->
     interruption_message line = "Temporary interruption caught.") /\
  (forall line,
     strip line <> EmptyString -> _MODE_COMMANDS_MAPPING (strip line) = None ->
     interruption_message line = strip line).
Proof.
  intros Hint Hfuel asked.
  assert (Hstep : step env super_step fuel w
    = match asked with
      | (Return line, w2) =>
          (Raise (NonTerminatingException
                    ("Interrupted by user: " ++ interruption_message line)), w2)
      | (Raise e, w2) => (Raise e, w2)
      | (OutOfFuel, w2) => (OutOfFuel, w2)
      end).
  { unfold step, try_except. rewrite Hint. cbn [is_KeyboardInterrupt].
    unfold bind, raise. fold asked. destruct asked as [[line|e|] w2]; reflexivity. }
  pose proof (prompt_fuel_enough env fuel interrupt_prompt w1 Hfuel) as Hnofuel.
  fold asked in Hnofuel.
  split; [exact Hstep|]. split; [exact Hnofuel|]. split; [|split].
  - intros Hno. cbn zeta. rewrite Hstep.
    assert (Hrun : prompt_run env interrupt_prompt w1 (fst asked) (snd asked)).
    { apply (prompt_run_complete env fuel); [|exact Hnofuel].
      unfold asked. now destruct (_prompt_and_handle_special env fuel interrupt_prompt w1). }
    destruct (prompt_run_frame env _ _ _ _ Hrun Hno) as (Hm & Hs & Hn & _).
    destruct asked as [[line|e|] w2]; cbn [fst snd] in *; auto.
  - intros line [Hblank | [m Hm]]; unfold interruption_message.
    + rewrite Hblank. reflexivity.
    + rewrite Hm. now destruct (String.eqb (strip line) EmptyString).
  - intros line Hne Hnone. unfold interruption_message. rewrite Hnone.
    apply String.eqb_neq in Hne. now rewrite Hne.
Qed.

(** An interruption that arrives while the command runs: the assistant
    turn and the snapshot that the step had already made are still there
    after [step], and the step counter has moved from 0 to 1.  And an
    interruption at whose prompt the operator rolls back to step 0: the
    transcript and the ledger are cut. *)
Lemma interruption_keeps_what_the_step_did :
  ~ interruption_restores_state /\
  (let r := step recording_env (interrupted_base_step (L := session_libraries) recording_env 2 "ls") 2 yolo_world in
   fst r = Raise (NonTerminatingException
                    "Interrupted by user: Temporary interruption caught.") /\
   messages (self yolo_world) = [msg "task"] /\
   messages (self (snd r)) = [msg "task"; mkMessage "assistant" "ls"] /\
   snapshots (self yolo_world) = [] /\
   snapshots (self (snd r)) = [SnapshotInfo.mk "step-0" 2 0] /\
   step_number (self (snd r)) = 1) /\
  (let r := step recording_env (raise KeyboardInterrupt : M (list string) dict) 3
              rollback_at_interrupt_world in
   fst r = Raise (NonTerminatingException "Interrupted by user: continue") /\
   List.length (messages (self rollback_at_interrupt_world)) = 9%nat /\
   List.length (messages (self (snd r))) = 2%nat /\
   snapshots (self (snd r)) = [SnapshotInfo.mk "step-0" 2 0]).
Proof.
  split; [|split].
  - intros H.
    destruct (H (list string) dict recording_env
                (interrupted_base_step (L := session_libraries) recording_env 2 "ls") 2%nat yolo_world
                (snd ((console_print "<Rule>" ;;;
                       interrupted_base_step (L := session_libraries) recording_env 2 "ls") yolo_world)))
      as [Hm _].
    + reflexivity.
    + cbn. lia.
    + vm_compute in Hm. discriminate.
  - vm_compute. repeat split.
  - vm_compute. repeat split.
Qed.

(* ================================================================== *)
(** ** What the rollback handler can raise *)

Section HandlerOutcome.

Context {E : Type} (env : Environment E).
Hypothesis Hcaught : rollback_raises_only_caught env.

Lemma rollback_effect_returns (l : string) (w : World E) :
  exists a' es' out,
    rollback_effect env l w
      = (Return EmptyString, mkWorld a' es' (keyboard w) (console w ++ out)).
Proof.
  destruct (rollback_effect_shape env l w)
    as [(es' & out & ->) | [(arg & N & r & es' & _ & _ & _ & _ & _ & ->)
                            | (r & e' & es' & Hcall & He & _)]].
  - now exists (self w), es', out.
  - eexists _, es', _. reflexivity.
  - exfalso. pose proof (Hcaught (SnapshotInfo.name r) (env_state w) e') as H.
    rewrite Hcall in H. cbn [fst] in H. rewrite (H eq_refl) in He. discriminate.
Qed.

Lemma plain_line_not_rollback (l : string) :
  startswith l "/r" = true -> plain_line l = false.
Proof.
  intros H. unfold plain_line. rewrite H. now rewrite andb_false_r.
Qed.

Lemma plain_line_not_token (l : string) (m : Mode) :
  _MODE_COMMANDS_MAPPING l = Some m -> plain_line l = false.
Proof. intros H. unfold plain_line. rewrite H. apply andb_false_r. Qed.

(** What a prompt can end with: a line the operator typed, or an
    exception of the keyboard; and with lines only, one of them plain, it
    returns. *)
Lemma prompt_run_outcome p (w : World E) o w' :
  prompt_run env p w o w' ->
  match o with
  | Return v => In (Line v) (keyboard w)
  | Raise e => e = EOFError \/ e = KeyboardInterrupt
  | OutOfFuel => False
  end /\
  (forallb is_line (keyboard w) = true ->
   existsb is_plain_key (keyboard w) = true ->
   exists v, o = Return v).
Proof.
  induction 1 as
    [ p w Hkb | p w ks Hkb | p w ks Hkb | p w ks o w' Hkb Hrun IH
    | p w l ks e w2 Hkb Hr Heff | p w l ks v w2 o w' Hkb Hr Heff Hrun IH
    | p w l ks o w' Hkb Hm Hrun IH | p w l ks m Hkb Hm Hneq | p w l ks Hkb Hpl ];
    rewrite Hkb.
  - split; [now left | discriminate].
  - split; [now right | discriminate].
  - split; [now left | discriminate].
  - cbn [keyboard typed shown] in IH. destruct IH as [IH1 IH2]. split.
    + destruct o; auto. now right.
    + cbn. intros Hl Hp. now apply IH2.
  - destruct (rollback_effect_returns l (typed ks (shown p w))) as (a' & es' & out & Heq).
    rewrite Heq in Heff. discriminate.
  - destruct (rollback_effect_keyboard env l (typed ks (shown p w))) as [Hk _].
    rewrite Heff in Hk. cbn [snd keyboard typed shown] in Hk. rewrite Hk in IH.
    destruct IH as [IH1 IH2]. split.
    + destruct o; auto. now right.
    + cbn [forallb existsb is_line is_plain_key].
      rewrite (plain_line_not_rollback l Hr). cbn. intros Hl Hp. now apply IH2.
  - cbn [keyboard typed shown] in IH. destruct IH as [IH1 IH2]. split.
    + destruct o; auto. now right.
    + cbn [forallb existsb is_line is_plain_key].
      rewrite (plain_line_not_token l _ Hm). cbn. intros Hl Hp. now apply IH2.
  - split; [now left | intros _ _; now exists l].
  - split; [now left | intros _ _; now exists l].
Qed.

End HandlerOutcome.

(** C8, as the code has it.  When the environment's [rollback_snapshot]
    raises nothing but ValueError or IndexError, the handler is a report
    on the console followed by a fresh prompt, with the agent as it was
    or rolled back to a record of its ledger: what it returns is a line
    the operator typed at such a prompt, the only exceptions that leave
    it are those of the keyboard (end of input, Ctrl-C), and when the
    operator types lines only, one of them plain, it returns.  Any other
    exception of [rollback_snapshot] leaves the handler as it was raised:
    nothing is reported, no prompt is issued and the agent is as it
    was. *)
Theorem rollback_handler_returns_from_prompt {E : Type} (env : Environment E)
    (fuel : nat) (user_input : string) (w : World E) :
  (List.length (keyboard w) < fuel)%nat ->
  let r := _handle_rollback env fuel user_input w in
  (rollback_raises_only_caught env ->
     (exists a' es' out,
        out <> [] /\
        (a' = self w \/
         exists rec N, find_snapshot (snapshots (self w)) N = Some rec /\
                       a' = apply_rollback rec N (self w)) /\
        r = _prompt_and_handle_special env fuel plain_prompt
              (mkWorld a' es' (keyboard w) (console w ++ out))) /\
     fst r <> OutOfFuel /\
     (forall e, fst r = Raise e -> e = EOFError \/ e = KeyboardInterrupt) /\
     (forall v, fst r = Return v -> In (Line v) (keyboard w)) /\
     (forallb is_line (keyboard w) = true ->
      existsb is_plain_key (keyboard w) = true ->
      exists v, fst r = Return v /\ In (Line v) (keyboard w))) /\
  (forall cmd arg more N rec e es',
     split user_input = cmd :: arg :: more -> py_int arg = Some N ->
     find_snapshot (snapshots (self w)) N = Some rec ->
     has_rollback_snapshot env = true ->
     rollback_snapshot env (SnapshotInfo.name rec) (env_state w) = (Some e, es') ->
     is_ValueError_or_IndexError e = false ->
     r = (Raise e, mkWorld (self w) es' (keyboard w) (console w))).
Proof.
  intros Hfuel r. split.
  - intros Hcaught.
    destruct (rollback_effect_returns env Hcaught user_input w) as (a' & es' & out & Heff).
    set (w1 := mkWorld a' es' (keyboard w) (console w ++ out)) in *.
    assert (Hr : r = _prompt_and_handle_special env fuel plain_prompt w1).
    { unfold r. rewrite handle_rollback_unfold. unfold bind. now rewrite Heff. }
    assert (Hnofuel : fst r <> OutOfFuel).
    { rewrite Hr. now apply prompt_fuel_enough. }
    assert (Hrun : prompt_run env plain_prompt w1 (fst r) (snd r)).
    { rewrite Hr. apply (prompt_run_complete env fuel).
      - now destruct (_prompt_and_handle_special env fuel plain_prompt w1).
      - rewrite <- Hr. exact Hnofuel. }
    destruct (prompt_run_outcome env Hcaught _ _ _ _ Hrun) as [Hout Hlive].
    cbn [keyboard w1] in Hout, Hlive.
    split.
    { exists a', es', out. split; [|split; [|exact Hr]].
      - destruct (rollback_effect_reports env user_input w _ _ Heff) as (out' & Hne & Hc).
        cbn [console] in Hc. apply app_inv_head in Hc. now subst out'.
      - destruct (rollback_effect_agent env user_input w) as [Hs | (rec & N & Hfind & Hs)];
          rewrite Heff in Hs; cbn [snd self] in Hs.
        + now left.
        + right. now exists rec, N. }
    split; [exact Hnofuel|]. split; [|split].
    + intros e He. now rewrite He in Hout.
    + intros v Hv. now rewrite Hv in Hout.
    + intros Hl Hp. destruct (Hlive Hl Hp) as [v Hv]. exists v. split; [exact Hv|].
      now rewrite Hv in Hout.
  - intros cmd arg more N rec e es' Hparts HN Hfind Hhas Hcall He.
    unfold r. rewrite handle_rollback_unfold. unfold bind.
    now rewrite (rollback_effect_uncaught env _ _ _ _ _ _ _ _ _ Hparts HN Hfind Hhas Hcall He).
Qed.

(** The handler does raise to its caller.  When the environment's
    [rollback_snapshot] fails with a RuntimeError on [/r 1], the handler
    lets it through: nothing is reported and the line the operator was
    about to type is never read.  And at the end of the input the fresh
    prompt of [/r] raises EOFError. *)
Lemma failed_rollback_reaches_the_caller :
  (let r := _handle_rollback scripted_env 2 "/r 1" failing_rollback_world in
   fst r = Raise btrfs_error /\
   keyboard (snd r) = [Line "go on"] /\
   console (snd r) = [] /\
   self (snd r) = self failing_rollback_world) /\
  fst (_handle_rollback recording_env 1 "/r" (typed [] step_3_world)) = Raise EOFError /\
  ~ rollback_handler_never_raises.
Proof.
  split; [cbn zeta; repeat split|]. split; [reflexivity|].
  intros H.
  destruct (H _ scripted_env 2%nat "/r 1" failing_rollback_world)
    as (v & w' & Hret); try reflexivity.
  - cbn. lia.
  - vm_compute in Hret. discriminate.
Qed.

(* ================================================================== *)
(** ** The theorems at concrete sessions *)

Lemma recording_env_capable : snapshot_capable recording_env.
Proof. split; [reflexivity | discriminate]. Qed.

Lemma scripted_env_capable : snapshot_capable scripted_env.
Proof. split; [reflexivity | discriminate]. Qed.

Lemma should_ask_confirmation_spec_witness :
  let a := mkAgent (mkConfig confirm ["git status"; "ls"] true) [] [] 0 in
  mode (config a) = confirm /\
  (forall r e, In r (whitelist_actions (config a)) ->
               py_re_match (L := session_libraries) r "ls -la" <> MatchRaises e) /\
  should_ask_confirmation (L := session_libraries) a "ls -la" = Return false /\
  first_outcome (L := session_libraries) (whitelist_actions (config broken_whitelist_agent))
    "ls" "("
    (MatchRaises (OtherException "re.error"
                    "missing ), unterminated subpattern at position 0")) /\
  should_ask_confirmation (L := session_libraries) broken_whitelist_agent "ls"
    = Raise (OtherException "re.error" "missing ), unterminated subpattern at position 0").
Proof.
  cbn zeta.
  set (a := mkAgent (mkConfig confirm ["git status"; "ls"] true) [] [] 0).
  assert (H1 : mode (config a) = confirm) by reflexivity.
  assert (H2 : forall r e, In r (whitelist_actions (config a)) ->
                 py_re_match (L := session_libraries) r "ls -la" <> MatchRaises e).
  { intros r e [<-|[<-|[]]]; discriminate. }
  assert (H3 : first_outcome (L := session_libraries)
                 (whitelist_actions (config broken_whitelist_agent)) "ls" "("
                 (MatchRaises (OtherException "re.error"
                                 "missing ), unterminated subpattern at position 0"))).
  { exists [], ["ls"]. repeat split. intros r' []. }
  split; [exact H1|]. split; [exact H2|]. split.
  - destruct (should_ask_confirmation_spec (L := session_libraries) a "ls -la")
      as (_ & Hconfirm & _).
    destruct (Hconfirm H1) as (_ & _ & _ & Hvalid).
    apply (Hvalid H2). exists "ls". split; [right; left; reflexivity | reflexivity].
  - split; [exact H3|].
    destruct (should_ask_confirmation_spec (L := session_libraries)
                broken_whitelist_agent "ls") as (_ & Hconfirm & _).
    destruct (Hconfirm eq_refl) as (_ & _ & Hraise & _).
    apply Hraise. now exists "(".
Defined.

Lemma rollback_to_recorded_step_witness :
  split "/r 1" = ["/r"; "1"] /\ py_int "1" = Some 1 /\
  (exists r0, In r0 (snapshots (self step_3_world)) /\ SnapshotInfo.step_number r0 = 1) /\
  has_rollback_snapshot recording_env = true /\
  exists r, find_snapshot (snapshots (self step_3_world)) 1 = Some r /\
            step_number (apply_rollback r 1 (self step_3_world)) = 2 /\
            snapshots (apply_rollback r 1 (self step_3_world))
              = keep_upto (snapshots (self step_3_world)) 1.
Proof.
  assert (H1 : split "/r 1" = ["/r"; "1"]) by reflexivity.
  assert (H2 : py_int "1" = Some 1) by reflexivity.
  assert (H3 : exists r0, In r0 (snapshots (self step_3_world)) /\
                          SnapshotInfo.step_number r0 = 1).
  { exists (SnapshotInfo.mk "step-1" 5 1). split; [right; left; reflexivity | reflexivity]. }
  assert (H4 : has_rollback_snapshot recording_env = true) by reflexivity.
  repeat (split; [assumption|]).
  destruct (rollback_to_recorded_step (L := session_libraries) recording_env 1
              step_3_world "/r 1" "/r" "1" [] 1 H1 H2 H3 H4 (fun r _ => eq_refl))
    as (r & es' & Hfind & _ & _ & _ & _ & _ & _ & Hs & _ & Hn & _).
  exists r. auto.
Defined.

Lemma rollback_to_missing_step_witness :
  split "/r 7" = ["/r"; "7"] /\ py_int "7" = Some 7 /\
  (forall s, In s (snapshots (self step_3_world)) -> SnapshotInfo.step_number s <> 7) /\
  _handle_rollback recording_env 2 "/r 7" step_3_world
    = _prompt_and_handle_special recording_env 2 plain_prompt
        (shown (("[red]Snapshot for step " ++ str_of_int 7 ++ " not found[/red]") ++ nl)
           step_3_world).
Proof.
  assert (H1 : split "/r 7" = ["/r"; "7"]) by reflexivity.
  assert (H2 : py_int "7" = Some 7) by reflexivity.
  assert (H3 : forall s, In s (snapshots (self step_3_world)) ->
                         SnapshotInfo.step_number s <> 7).
  { intros s [<-|[<-|[<-|[]]]]; discriminate. }
  repeat (split; [assumption|]).
  exact (proj1 (rollback_to_missing_step recording_env 2 step_3_world "/r 7" "/r" "7" [] 7
                  H1 H2 H3)).
Defined.

Lemma failed_snapshot_warning_witness :
  snapshot_capable scripted_env /\
  (create_snapshot scripted_env
       ("step-" ++ str_of_int (step_number (self failing_rollback_world)))
       (env_state failing_rollback_world)
     = (Some btrfs_error, []) /\
   is_Exception btrfs_error = true /\
   @markup_error session_libraries (snapshot_warning btrfs_error) = None /\
   _create_snapshot (L := session_libraries) scripted_env failing_rollback_world
     = (Return tt,
        shown (snapshot_warning btrfs_error ++ nl)
          (mkWorld (self failing_rollback_world) [] (keyboard failing_rollback_world)
             (console failing_rollback_world)))) /\
  (create_snapshot scripted_env
       ("step-" ++ str_of_int (step_number (self read_only_world)))
       (env_state read_only_world)
     = (Some read_only_error, []) /\
   is_Exception read_only_error = true /\
   @markup_error session_libraries (snapshot_warning read_only_error)
     = Some "closing tag '[/work]' at position 60 doesn't match any open tag" /\
   confirmation_stage (L := session_libraries) scripted_env 1 ls_action read_only_world
     = (Return tt, read_only_world) /\
   execute_action (L := session_libraries) scripted_env (fun a : dict => ret a) 1
       ls_action read_only_world
     = (Raise (OtherException "MarkupError"
                 "closing tag '[/work]' at position 60 doesn't match any open tag"),
        mkWorld (self read_only_world) [] [] [])).
Proof.
  assert (H1 : create_snapshot scripted_env
                 ("step-" ++ str_of_int (step_number (self failing_rollback_world)))
                 (env_state failing_rollback_world)
               = (Some btrfs_error, [])) by reflexivity.
  assert (H2 : create_snapshot scripted_env
                 ("step-" ++ str_of_int (step_number (self read_only_world)))
                 (env_state read_only_world)
               = (Some read_only_error, [])) by reflexivity.
  assert (H3 : @markup_error session_libraries (snapshot_warning read_only_error)
               = Some "closing tag '[/work]' at position 60 doesn't match any open tag")
    by reflexivity.
  assert (H4 : confirmation_stage (L := session_libraries) scripted_env 1 ls_action
                 read_only_world = (Return tt, read_only_world)) by reflexivity.
  split; [exact scripted_env_capable|]. split.
  - split; [exact H1|]. split; [reflexivity|]. split; [reflexivity|].
    exact (proj1 (proj1 (proj2 (@failed_snapshot_warning _ dict session_libraries
                                  scripted_env failing_rollback_world btrfs_error []
                                  scripted_env_capable H1) eq_refl) eq_refl)).
  - split; [exact H2|]. split; [reflexivity|]. split; [exact H3|]. split; [exact H4|].
    exact (proj2 (proj2 (proj2 (@failed_snapshot_warning _ dict session_libraries
                                  scripted_env read_only_world read_only_error []
                                  scripted_env_capable H2) eq_refl) _ H3)
             (fun a : dict => ret a) 1%nat ls_action read_only_world H4).
Defined.

Lemma snapshot_ledger_consistent_witness :
  snapshot_capable recording_env /\
  (forall name es, fst (create_snapshot recording_env name es) = None) /\
  List.length
    (snapshots (self (run_ops (L := session_libraries) recording_env (map op_of two_snapshot_session)
                        (fresh_session default_config [] []))))
    = List.length (capture_lengths two_snapshot_session 0).
Proof.
  assert (H2 : forall name es, fst (create_snapshot recording_env name es) = None)
    by (intros; reflexivity).
  split; [exact recording_env_capable|]. split; [exact H2|].
  exact (proj1 (snapshot_ledger_consistent (L := session_libraries) recording_env
                  default_config [] [] two_snapshot_session recording_env_capable H2)).
Defined.

Lemma interruption_is_converted_witness :
  let w1 := snd ((console_print "<Rule>" ;;;
                  interrupted_base_step (L := session_libraries) recording_env 2 "ls") yolo_world) in
  (console_print "<Rule>" ;;; interrupted_base_step (L := session_libraries) recording_env 2 "ls") yolo_world
    = (Raise KeyboardInterrupt, w1) /\
  (List.length (keyboard w1) < 2)%nat /\
  fst (_prompt_and_handle_special recording_env 2 interrupt_prompt w1) <> OutOfFuel.
Proof.
  cbn zeta.
  set (w1 := snd ((console_print "<Rule>" ;;;
                   interrupted_base_step (L := session_libraries) recording_env 2 "ls") yolo_world)).
  assert (H1 : (console_print "<Rule>" ;;; interrupted_base_step (L := session_libraries) recording_env 2 "ls")
                 yolo_world = (Raise KeyboardInterrupt, w1)) by reflexivity.
  assert (H2 : (List.length (keyboard w1) < 2)%nat) by (cbn; lia).
  split; [exact H1|]. split; [exact H2|].
  exact (proj1 (proj2 (interruption_is_converted recording_env
                         (interrupted_base_step (L := session_libraries) recording_env 2 "ls") 2
                         yolo_world w1 H1 H2))).
Defined.

Lemma snapshot_follows_confirmation_witness :
  dict_get rm_action "action" = Some "rm -rf /" /\
  should_ask_confirmation (L := session_libraries) (self rejecting_world) "rm -rf /"
    = Return true /\
  fst (execute_action (L := session_libraries) recording_env (fun a => ret a) 2
         rm_action rejecting_world)
    = Raise (NonTerminatingException
               "Command not executed. The user rejected your command with the following message: no").
Proof.
  assert (H1 : dict_get rm_action "action" = Some "rm -rf /") by reflexivity.
  assert (H2 : should_ask_confirmation (L := session_libraries) (self rejecting_world)
                 "rm -rf /" = Return true) by reflexivity.
  split; [exact H1|]. split; [exact H2|].
  destruct (snapshot_follows_confirmation (L := session_libraries) recording_env
              (fun a : dict => ret a) 2 rm_action "rm -rf /" rejecting_world H1)
    as (_ & H & _).
  rewrite (proj1 (H H2) "no"
             (snd (_prompt_and_handle_special recording_env 2 confirmation_prompt
                     rejecting_world)) eq_refl).
  reflexivity.
Defined.

Lemma rollback_handler_returns_from_prompt_witness :
  (List.length (keyboard step_3_world) < 2)%nat /\
  rollback_raises_only_caught recording_env /\
  (exists v, fst (_handle_rollback recording_env 2 "/r 1" step_3_world) = Return v /\
             In (Line v) (keyboard step_3_world)) /\
  (List.length (keyboard failing_rollback_world) < 2)%nat /\
  _handle_rollback scripted_env 2 "/r 1" failing_rollback_world
    = (Raise btrfs_error,
       mkWorld (self failing_rollback_world) [] (keyboard failing_rollback_world)
         (console failing_rollback_world)).
Proof.
  assert (H1 : rollback_raises_only_caught recording_env).
  { intros name es e H. discriminate. }
  assert (H2 : (List.length (keyboard step_3_world) < 2)%nat) by (cbn; lia).
  assert (H3 : (List.length (keyboard failing_rollback_world) < 2)%nat) by (cbn; lia).
  split; [exact H2|]. split; [exact H1|]. split.
  - exact (proj2 (proj2 (proj2 (proj2
             (proj1 (rollback_handler_returns_from_prompt recording_env 2 "/r 1"
                       step_3_world H2) H1)))) eq_refl eq_refl).
  - split; [exact H3|].
    exact (proj2 (rollback_handler_returns_from_prompt scripted_env 2 "/r 1"
                    failing_rollback_world H3)
             "/r" "1" [] 1 (SnapshotInfo.mk "step-1" 5 1) btrfs_error []
             eq_refl eq_refl eq_refl eq_refl eq_refl eq_refl).
Defined.

(** A fresh agent in confirm mode whose operator types [/c], the mode it
    is in, and then a comment. *)
Lemma mode_token_at_prompt_witness :
  (In ("/y", yolo) [("/u", human); ("/c", confirm); ("/y", yolo)] /\
   keyboard switching_world = [Line "/y"] /\
   fst (_prompt_and_handle_special recording_env 1 plain_prompt switching_world)
     = Return "/y" /\
   mode (config (self (snd (_prompt_and_handle_special recording_env 1 plain_prompt
                              switching_world)))) = yolo) /\
  (In ("/u", human) [("/u", human); ("/c", confirm); ("/y", yolo)] /\
   keyboard (typed [Line "/u"] switching_world) = [Line "/u"] /\
   fst (_prompt_and_handle_special recording_env 1 plain_prompt
          (typed [Line "/u"] switching_world))
     = Return "/u" /\
   mode (config (self (snd (_prompt_and_handle_special recording_env 1 plain_prompt
                              (typed [Line "/u"] switching_world))))) = human) /\
  (In ("/c", confirm) [("/u", human); ("/c", confirm); ("/y", yolo)] /\
   keyboard (typed [Line "/c"; Line "go on"] switching_world)
     = [Line "/c"; Line "go on"] /\
   mode (config (self (typed [Line "/c"; Line "go on"] switching_world))) = confirm /\
   _prompt_and_handle_special recording_env 2 plain_prompt
       (typed [Line "/c"; Line "go on"] switching_world)
     = _prompt_and_handle_special recording_env 1
         ("[bold red]Already in " ++ mode_str confirm ++ " mode.[/bold red]" ++ nl
            ++ plain_prompt)
         (typed [Line "go on"]
            (shown plain_prompt (typed [Line "/c"; Line "go on"] switching_world)))).
Proof.
  assert (Hy : In ("/y", yolo) [("/u", human); ("/c", confirm); ("/y", yolo)])
    by (right; right; left; reflexivity).
  assert (Hu : In ("/u", human) [("/u", human); ("/c", confirm); ("/y", yolo)])
    by (left; reflexivity).
  assert (Hc : In ("/c", confirm) [("/u", human); ("/c", confirm); ("/y", yolo)])
    by (right; left; reflexivity).
  split; [|split].
  - split; [exact Hy|]. split; [reflexivity|].
    destruct (mode_token_at_prompt recording_env 0 plain_prompt switching_world
                "/y" [] yolo Hy eq_refl) as (_ & _ & H).
    destruct H as (Hmode & _ & _ & _ & _ & _ & Hrun); [discriminate|].
    rewrite Hrun. split; [reflexivity | exact Hmode].
  - split; [exact Hu|]. split; [reflexivity|].
    destruct (mode_token_at_prompt recording_env 0 plain_prompt
                (typed [Line "/u"] switching_world) "/u" [] human Hu eq_refl)
      as (_ & _ & H).
    destruct H as (Hmode & _ & _ & _ & _ & _ & Hrun); [discriminate|].
    rewrite Hrun. split; [reflexivity | exact Hmode].
  - split; [exact Hc|]. split; [reflexivity|]. split; [reflexivity|].
    destruct (mode_token_at_prompt recording_env 1 plain_prompt
                (typed [Line "/c"; Line "go on"] switching_world) "/c" [Line "go on"]
                confirm Hc eq_refl) as (_ & H & _).
    exact (proj2 (H eq_refl)).
Defined.

(* ================================================================== *)
(** * Further properties of the prompt *)

Section PromptReturns.

Context {E : Type} (env : Environment E).

Lemma prompt_run_of_result (fuel : nat) p (w : World E) o w' :
  _prompt_and_handle_special env fuel p w = (o, w') -> o <> OutOfFuel ->
  prompt_run env p w o w'.
Proof. apply prompt_run_complete. Qed.

Lemma rollback_effect_config (l : string) (w : World E) :
  config (self (snd (rollback_effect env l w))) = config (self w).
Proof.
  destruct (rollback_effect_agent env l w) as [-> | (r & N & _ & ->)]; reflexivity.
Qed.

Lemma prompt_run_consumed p (w : World E) o w' :
  prompt_run env p w o w' ->
  forall v, o = Return v ->
  exists pre, keyboard w = (pre ++ Line v :: keyboard w')%list /\
              forallb (is_retry_key (mode (config (self w)))) pre = true.
Proof.
  induction 1 as
    [ p w Hkb | p w ks Hkb | p w ks Hkb | p w ks o w' Hkb Hrun IH
    | p w l ks e w2 Hkb Hr Heff | p w l ks v0 w2 o w' Hkb Hr Heff Hrun IH
    | p w l ks o w' Hkb Hm Hrun IH | p w l ks m Hkb Hm Hneq | p w l ks Hkb Hpl ];
    intros v Hv; try discriminate.
  - destruct (IH v Hv) as (pre & Hk & Hl). cbn [keyboard typed shown self] in Hk, Hl.
    exists (Line "/h" :: pre). rewrite Hkb, Hk. split; [reflexivity|].
    cbn [forallb is_retry_key]. now rewrite Hl.
  - destruct (IH v Hv) as (pre & Hk & Hl).
    destruct (rollback_effect_keyboard env l (typed ks (shown p w))) as [Hk2 _].
    pose proof (rollback_effect_config l (typed ks (shown p w))) as Hc.
    rewrite Heff in Hk2, Hc. cbn [snd keyboard typed shown self] in Hk2, Hc.
    rewrite Hk2 in Hk. rewrite Hc in Hl.
    exists (Line l :: pre). rewrite Hkb, Hk. split; [reflexivity|].
    cbn [forallb is_retry_key]. rewrite Hr, Hl. now rewrite orb_true_r.
  - destruct (IH v Hv) as (pre & Hk & Hl). cbn [keyboard typed shown self] in Hk, Hl.
    exists (Line l :: pre). rewrite Hkb, Hk. split; [reflexivity|].
    cbn [forallb is_retry_key]. rewrite Hm, Hl.
    destruct (Mode_eqb_eq (mode (config (self w))) (mode (config (self w)))) as [_ ->];
      [|reflexivity].
    now rewrite orb_true_r.
  - injection Hv as <-. exists []. rewrite Hkb. repeat split.
  - injection Hv as <-. exists []. rewrite Hkb. repeat split.
Qed.

Lemma prompt_run_value p (w : World E) o w' :
  prompt_run env p w o w' ->
  forall v, o = Return v ->
  String.eqb v "/h" = false /\ startswith v "/r" = false /\
  forall m, _MODE_COMMANDS_MAPPING v = Some m -> mode (config (self w')) = m.
Proof.
  induction 1 as
    [ p w Hkb | p w ks Hkb | p w ks Hkb | p w ks o w' Hkb Hrun IH
    | p w l ks e w2 Hkb Hr Heff | p w l ks v0 w2 o w' Hkb Hr Heff Hrun IH
    | p w l ks o w' Hkb Hm Hrun IH | p w l ks m Hkb Hm Hneq | p w l ks Hkb Hpl ];
    intros v Hv; try discriminate; try (now apply IH).
  - injection Hv as <-. destruct (mode_token_not_special l m Hm) as [Hh Hr].
    repeat split; try assumption.
    intros m' Hm'. rewrite Hm in Hm'. now injection Hm' as <-.
  - injection Hv as <-. unfold plain_line in Hpl.
    apply andb_true_iff in Hpl as [Hpl Htok]. apply andb_true_iff in Hpl as [Hh Hr].
    apply negb_true_iff in Hh, Hr. repeat split; try assumption.
    intros m Hm. rewrite Hm in Htok. discriminate.
Qed.

End PromptReturns.

(** X1. What [_prompt_and_handle_special] returns is the last line it
    read: every key before it was a line that is the help command, a
    rollback command or the token of the mode the agent was in, which is
    the mode it had when the prompt began; and nothing after the returned
    line has been read. *)
Theorem prompt_returns_last_line_read {E : Type} (env : Environment E) (fuel : nat)
    (p : string) (w w' : World E) (v : string) :
  _prompt_and_handle_special env fuel p w = (Return v, w') ->
  exists pre, keyboard w = (pre ++ Line v :: keyboard w')%list /\
              forallb (is_retry_key (mode (config (self w)))) pre = true.
Proof.
  intros Hrun.
  apply (prompt_run_consumed env p w (Return v) w'); [|reflexivity].
  apply (prompt_run_of_result env fuel); [exact Hrun | discriminate].
Qed.

Lemma prompt_returns_last_line_read_witness :
  _prompt_and_handle_special recording_env 7 plain_prompt busy_world
    = (Return "looks good",
       snd (_prompt_and_handle_special recording_env 7 plain_prompt busy_world)) /\
  exists pre, keyboard busy_world = (pre ++ [Line "looks good"; Line "unread"])%list /\
              forallb (is_retry_key confirm) pre = true.
Proof.
  assert (H : _prompt_and_handle_special recording_env 7 plain_prompt busy_world
              = (Return "looks good",
                 snd (_prompt_and_handle_special recording_env 7 plain_prompt busy_world)))
    by reflexivity.
  split; [exact H|].
  exact (prompt_returns_last_line_read recording_env 7 plain_prompt busy_world _ _ H).
Defined.

(** X2. The prompt never returns the help command or a line that starts
    with [/r], and when it returns a mode token the agent is in the mode
    that the token names. *)
Theorem prompt_return_value {E : Type} (env : Environment E) (fuel : nat)
    (p : string) (w w' : World E) (v : string) :
  _prompt_and_handle_special env fuel p w = (Return v, w') ->
  v <> "/h" /\ startswith v "/r" = false /\
  forall m, _MODE_COMMANDS_MAPPING v = Some m -> mode (config (self w')) = m.
Proof.
  intros Hrun.
  destruct (prompt_run_value env p w (Return v) w') with (v := v)
    as (Hh & Hr & Hm); [|reflexivity|].
  - apply (prompt_run_of_result env fuel); [exact Hrun | discriminate].
  - split; [now apply String.eqb_neq | split; assumption].
Qed.

Lemma prompt_return_value_witness :
  _prompt_and_handle_special recording_env 1 plain_prompt switching_world
    = (Return "/y",
       snd (_prompt_and_handle_special recording_env 1 plain_prompt switching_world)) /\
  mode (config (self (snd (_prompt_and_handle_special recording_env 1 plain_prompt
                             switching_world)))) = yolo.
Proof.
  assert (H : _prompt_and_handle_special recording_env 1 plain_prompt switching_world
              = (Return "/y",
                 snd (_prompt_and_handle_special recording_env 1 plain_prompt
                        switching_world))) by reflexivity.
  split; [exact H|].
  exact (proj2 (proj2 (prompt_return_value recording_env 1 plain_prompt
                         switching_world _ _ H)) yolo eq_refl).
Defined.

(* ================================================================== *)
(** * Further properties of the rollback handler *)

Section RollbackReports.

Context {E : Type} (env : Environment E).

Lemma handle_rollback_of_effect (fuel : nat) (user_input : string) (w w1 : World E) v :
  rollback_effect env user_input w = (Return v, w1) ->
  _handle_rollback env fuel user_input w
    = _prompt_and_handle_special env fuel plain_prompt w1.
Proof.
  intros H. rewrite handle_rollback_unfold. unfold bind. now rewrite H.
Qed.

Lemma rollback_effect_listing (user_input cmd : string) (w : World E) :
  split user_input = [cmd] ->
  rollback_effect env user_input w
    = (Return EmptyString, printed (snapshot_listing (snapshots (self w))) w).
Proof.
  intros Hparts. unfold rollback_effect, _handle_rollback_with. rewrite Hparts.
  cbn [List.length Nat.eqb]. unfold bind, get_self, ret, printed, snapshot_listing.
  cbv beta iota. destruct (snapshots (self w)) as [|s ss].
  - reflexivity.
  - destruct (console_print "[bold green]Available snapshots:[/bold green]" w)
      as [o w1] eqn:H1.
    unfold console_print, console_print_end in H1. injection H1 as <- <-.
    cbv beta iota. rewrite for_each_print. cbn [self env_state keyboard console].
    rewrite <- app_assoc. reflexivity.
Qed.

End RollbackReports.

(** X3. [/r] without an argument changes nothing: on a ledger whose
    records carry the names that [_create_snapshot] gives, it prints that
    there are no snapshots, or a header and one line for each record of
    the ledger in order, and prompts again; the environment is not
    called. *)
Theorem rollback_listing {E : Type} (env : Environment E) (fuel : nat)
    (w : World E) (user_input cmd : string) :
  named_by_step (self w) ->
  split user_input = [cmd] ->
  _handle_rollback env fuel user_input w
    = _prompt_and_handle_special env fuel plain_prompt
        (printed (snapshot_listing (snapshots (self w))) w).
Proof.
  intros _ Hparts.
  apply (handle_rollback_of_effect env fuel user_input w _ EmptyString).
  now apply (rollback_effect_listing env user_input cmd).
Qed.

Lemma rollback_listing_witness :
  named_by_step (self step_3_world) /\
  split "/r" = ["/r"] /\
  _handle_rollback recording_env 2 "/r" step_3_world
    = _prompt_and_handle_special recording_env 2 plain_prompt
        (printed (snapshot_listing (snapshots (self step_3_world))) step_3_world).
Proof.
  assert (H : named_by_step (self step_3_world)).
  { intros r [<-|[<-|[<-|[]]]]; reflexivity. }
  split; [exact H|]. split; [reflexivity|].
  exact (rollback_listing recording_env 2 step_3_world "/r" "/r" H eq_refl).
Defined.

(** X4. When the environment has no [rollback_snapshot], a request for a
    recorded step changes nothing: the handler reports that rollback is
    not supported and prompts again. *)
Theorem rollback_unsupported {E : Type} (env : Environment E) (fuel : nat)
    (w : World E) (user_input cmd arg : string) (more : list string) (N : Z)
    (r : SnapshotInfo.t) :
  split user_input = cmd :: arg :: more -> py_int arg = Some N ->
  find_snapshot (snapshots (self w)) N = Some r ->
  has_rollback_snapshot env = false ->
  _handle_rollback env fuel user_input w
    = _prompt_and_handle_special env fuel plain_prompt
        (printed ["[red]Environment does not support rollback[/red]" ++ nl] w).
Proof.
  intros Hparts HN Hfind Hhas.
  apply (handle_rollback_of_effect env fuel user_input w _ EmptyString).
  destruct (two_parts _ _ _ _ Hparts) as [Hlen Harg].
  unfold rollback_effect, _handle_rollback_with, rollback_try_block.
  rewrite Hlen, Harg, HN, Hhas. run_monad. rewrite Hfind. reflexivity.
Qed.

Lemma rollback_unsupported_witness :
  split "/r 1" = ["/r"; "1"] /\ py_int "1" = Some 1 /\
  find_snapshot (snapshots (self step_3_world)) 1 = Some (SnapshotInfo.mk "step-1" 5 1) /\
  has_rollback_snapshot snapshot_only_env = false /\
  _handle_rollback snapshot_only_env 2 "/r 1" step_3_world
    = _prompt_and_handle_special snapshot_only_env 2 plain_prompt
        (printed ["[red]Environment does not support rollback[/red]" ++ nl] step_3_world).
Proof.
  repeat (split; [reflexivity|]).
  exact (rollback_unsupported snapshot_only_env 2 step_3_world "/r 1" "/r" "1" [] 1 _
           eq_refl eq_refl eq_refl eq_refl).
Defined.

(** X5. When the argument of [/r] is not an integer literal, the handler
    changes nothing: it reports an invalid rollback command and prompts
    again; the ledger is not searched and the environment is not
    called. *)
Theorem rollback_malformed_argument {E : Type} (env : Environment E) (fuel : nat)
    (w : World E) (user_input cmd arg : string) (more : list string) :
  split user_input = cmd :: arg :: more -> py_int arg = None ->
  _handle_rollback env fuel user_input w
    = _prompt_and_handle_special env fuel plain_prompt
        (printed [invalid_rollback_report] w).
Proof.
  intros Hparts HN.
  apply (handle_rollback_of_effect env fuel user_input w _ EmptyString).
  destruct (two_parts _ _ _ _ Hparts) as [Hlen Harg].
  unfold rollback_effect, _handle_rollback_with, rollback_try_block.
  rewrite Hlen, Harg, HN. run_monad. reflexivity.
Qed.

Lemma rollback_malformed_argument_witness :
  split "/rm -rf build" = ["/rm"; "-rf"; "build"] /\ py_int "-rf" = None /\
  _handle_rollback recording_env 2 "/rm -rf build" step_3_world
    = _prompt_and_handle_special recording_env 2 plain_prompt
        (printed [invalid_rollback_report] step_3_world).
Proof.
  repeat (split; [reflexivity|]).
  exact (rollback_malformed_argument recording_env 2 step_3_world "/rm -rf build"
           "/rm" "-rf" ["build"] eq_refl eq_refl).
Defined.

(** X6. An input that starts with [/r] always has a first part, so the
    handler either lists (one part) or finds a second part to parse: the
    IndexError that its [except] clause names cannot come from
    [parts[1]]. *)
Theorem rollback_argument_exists (user_input : string) :
  startswith user_input "/r" = true ->
  (exists cmd, split user_input = [cmd]) \/
  (exists cmd arg more, split user_input = cmd :: arg :: more).
Proof.
  unfold startswith. intros H.
  destruct user_input as [|c1 s]; [discriminate|].
  cbn [String.prefix] in H.
  destruct (Ascii.ascii_dec "/"%char c1) as [Hc1|]; [subst c1 | discriminate].
  destruct s as [|c2 s]; [discriminate|].
  cbn [String.prefix] in H.
  destruct (Ascii.ascii_dec "r"%char c2) as [Hc2|]; [subst c2 | discriminate].
  unfold split. rewrite chars_cons_start by reflexivity.
  cbn [split_chars]. change (is_space "/") with false. cbv iota.
  pose proof (split_chars_nonempty (chars (String "r" s)) (EmptyString ++ "/")) as Hne.
  destruct (split_chars (chars (String "r" s)) (EmptyString ++ "/")) as [|cmd [|arg more]].
  - exfalso. apply Hne; [discriminate | reflexivity].
  - left. now exists cmd.
  - right. now exists cmd, arg, more.
Qed.

Lemma rollback_argument_exists_witness :
  startswith "/r  12 x" "/r" = true /\
  ((exists cmd, split "/r  12 x" = [cmd]) \/
   (exists cmd arg more, split "/r  12 x" = cmd :: arg :: more)).
Proof.
  split; [reflexivity|].
  exact (rollback_argument_exists "/r  12 x" eq_refl).
Defined.

(** X7. When [rollback_snapshot] itself raises ValueError or IndexError
    for a recorded step, the handler catches it with the clause meant for
    a malformed argument: the agent is unchanged, the report is the one
    for an invalid command, and the handler prompts again in the
    environment state that the failed call left. *)
Theorem rollback_environment_value_error {E : Type} (env : Environment E) (fuel : nat)
    (w : World E) (user_input cmd arg : string) (more : list string) (N : Z)
    (r : SnapshotInfo.t) (e : Exc) (es' : E) :
  split user_input = cmd :: arg :: more -> py_int arg = Some N ->
  find_snapshot (snapshots (self w)) N = Some r ->
  has_rollback_snapshot env = true ->
  rollback_snapshot env (SnapshotInfo.name r) (env_state w) = (Some e, es') ->
  is_ValueError_or_IndexError e = true ->
  _handle_rollback env fuel user_input w
    = _prompt_and_handle_special env fuel plain_prompt
        (mkWorld (self w) es' (keyboard w) (console w ++ [invalid_rollback_report])).
Proof.
  intros Hparts HN Hfind Hhas Hcall He.
  apply (handle_rollback_of_effect env fuel user_input w _ EmptyString).
  destruct (two_parts _ _ _ _ Hparts) as [Hlen Harg].
  unfold rollback_effect, _handle_rollback_with, rollback_try_block.
  rewrite Hlen, Harg, HN, Hhas. run_monad. rewrite Hfind. cbv beta iota.
  rewrite Hcall. cbv beta iota. rewrite He. reflexivity.
Qed.

Lemma rollback_environment_value_error_witness :
  split "/r 1" = ["/r"; "1"] /\ py_int "1" = Some 1 /\
  find_snapshot (snapshots (self step_3_world)) 1 = Some (SnapshotInfo.mk "step-1" 5 1) /\
  has_rollback_snapshot value_error_env = true /\
  rollback_snapshot value_error_env "step-1" (env_state step_3_world)
    = (Some (ValueError "no such subvolume"), ["rollback_snapshot step-1"]) /\
  _handle_rollback value_error_env 2 "/r 1" step_3_world
    = _prompt_and_handle_special value_error_env 2 plain_prompt
        (mkWorld (self step_3_world) ["rollback_snapshot step-1"] (keyboard step_3_world)
           (console step_3_world ++ [invalid_rollback_report])).
Proof.
  repeat (split; [reflexivity|]).
  exact (rollback_environment_value_error value_error_env 2 step_3_world "/r 1" "/r" "1"
           [] 1 (SnapshotInfo.mk "step-1" 5 1) (ValueError "no such subvolume")
           ["rollback_snapshot step-1"] eq_refl eq_refl eq_refl eq_refl eq_refl eq_refl).
Defined.

(* ================================================================== *)
(** * Further properties of sessions *)

Section SessionFacts.

Context {E : Type} {L : Libraries} (env : Environment E).

(** A prompt preserves every property of the agent that mode switches and
    the handler's effect preserve. *)
Lemma prompt_run_preserves_effect (Inv : InteractiveAgent -> Prop) :
  (forall a m, Inv a -> Inv (set_mode m a)) ->
  (forall l (w : World E), Inv (self w) -> Inv (self (snd (rollback_effect env l w)))) ->
  forall p w o w', prompt_run env p w o w' -> Inv (self w) -> Inv (self w').
Proof.
  intros Hmode Heffect p w o w' Hrun.
  induction Hrun as
    [ p w Hkb | p w ks Hkb | p w ks Hkb | p w ks o w' Hkb Hrun IH
    | p w l ks e w2 Hkb Hr Heff | p w l ks v w2 o w' Hkb Hr Heff Hrun IH
    | p w l ks o w' Hkb Hm Hrun IH | p w l ks m Hkb Hm Hneq | p w l ks Hkb Hpl ];
    intros Hinv; try exact Hinv; try (apply IH; exact Hinv).
  - pose proof (Heffect l (typed ks (shown p w)) Hinv) as H.
    now rewrite Heff in H.
  - apply IH. pose proof (Heffect l (typed ks (shown p w)) Hinv) as H.
    now rewrite Heff in H.
  - now apply Hmode.
Qed.

Lemma prompt_preserves_effect (Inv : InteractiveAgent -> Prop) :
  (forall a m, Inv a -> Inv (set_mode m a)) ->
  (forall l (w : World E), Inv (self w) -> Inv (self (snd (rollback_effect env l w)))) ->
  forall fuel p w,
    (List.length (keyboard w) < fuel)%nat -> Inv (self w) ->
    Inv (self (snd (_prompt_and_handle_special env fuel p w))).
Proof.
  intros Hmode Heffect fuel p w Hfuel Hinv.
  apply (prompt_run_preserves_effect Inv Hmode Heffect p w
           (fst (_prompt_and_handle_special env fuel p w))); [|exact Hinv].
  apply (prompt_run_complete env fuel).
  - now destruct (_prompt_and_handle_special env fuel p w).
  - now apply prompt_fuel_enough.
Qed.

Lemma rollback_effect_preserves (Inv : InteractiveAgent -> Prop) :
  (forall a r N, Inv a -> find_snapshot (snapshots a) N = Some r ->
                 Inv (apply_rollback r N a)) ->
  forall l (w : World E), Inv (self w) -> Inv (self (snd (rollback_effect env l w))).
Proof.
  intros Hroll l w Hinv.
  destruct (rollback_effect_agent env l w) as [-> | (r & N & Hfind & ->)];
    [exact Hinv | now apply Hroll].
Qed.

(** A session preserves every property of the agent that its four kinds
    of change preserve. *)
Lemma run_ops_preserves (Inv : InteractiveAgent -> Prop) :
  (forall a x, Inv a -> Inv (set_messages (messages a ++ [x]) a)) ->
  (forall a, Inv a -> Inv (after_snapshot a)) ->
  (forall a m, Inv a -> Inv (set_mode m a)) ->
  (forall a r N, Inv a -> find_snapshot (snapshots a) N = Some r ->
                 Inv (apply_rollback r N a)) ->
  forall ops (w : World E), Inv (self w) -> Inv (self (run_ops env ops w)).
Proof.
  intros Hadd Hsnap Hmode Hroll ops.
  induction ops as [|op ops IH]; intros w Hinv; [exact Hinv|].
  rewrite run_ops_cons. apply IH.
  destruct op as [r c| |p keys]; cbn [run_op].
  - now apply Hadd.
  - destruct (create_snapshot_cases env w) as [-> | ->]; [exact Hinv | now apply Hsnap].
  - apply prompt_preserves_effect; try assumption.
    + now apply rollback_effect_preserves.
    + cbn. lia.
Qed.

Lemma find_snapshot_keep_upto (ss : list SnapshotInfo.t) (N : Z) :
  find_snapshot (keep_upto ss N) N = find_snapshot ss N.
Proof.
  unfold find_snapshot, keep_upto.
  induction ss as [|s ss IH]; [reflexivity|]. cbn [filter find].
  destruct (Z.leb_spec (SnapshotInfo.step_number s) N) as [Hle|Hgt].
  - cbn [find]. now rewrite IH.
  - destruct (Z.eqb_spec (SnapshotInfo.step_number s) N) as [Heq|_]; [lia | exact IH].
Qed.

Lemma keep_upto_twice (ss : list SnapshotInfo.t) (N : Z) :
  keep_upto (keep_upto ss N) N = keep_upto ss N.
Proof.
  unfold keep_upto. induction ss as [|s ss IH]; [reflexivity|]. cbn [filter].
  destruct (SnapshotInfo.step_number s <=? N) eqn:Hs; [|exact IH].
  cbn [filter]. now rewrite Hs, IH.
Qed.

Lemma slice_to_twice {A : Type} (xs : list A) (k : Z) :
  0 <= k -> slice_to (slice_to xs k) k = slice_to xs k.
Proof.
  intros Hk. unfold slice_to.
  destruct (Z.ltb_spec k 0) as [Hneg|_]; [lia|].
  rewrite firstn_firstn. now rewrite Nat.min_id.
Qed.

Lemma find_snapshot_at_index (a : InteractiveAgent) (N : Z) (r : SnapshotInfo.t) :
  ledger_indexed a -> find_snapshot (snapshots a) N = Some r ->
  0 <= N /\ nth_error (snapshots a) (Z.to_nat N) = Some r.
Proof.
  intros [_ Hidx] Hfind.
  apply find_some in Hfind as [Hin Hstep]. apply Z.eqb_eq in Hstep.
  destruct (In_nth_error _ _ Hin) as [k Hk].
  pose proof (Hidx k r Hk) as HN. rewrite Hstep in HN.
  split; [lia|]. rewrite HN, Nat2Z.id. exact Hk.
Qed.

Lemma named_by_step_fresh cfg msgs : named_by_step (fresh_agent cfg msgs).
Proof. intros r []. Qed.

End SessionFacts.

(** X8. Rolling back twice to the same step is rolling back once: after a
    rollback to the record of step [N] that record is still the one found
    for [N], and a second rollback to it changes nothing. *)
Theorem rollback_twice (a : InteractiveAgent) (N : Z) (r : SnapshotInfo.t) :
  find_snapshot (snapshots a) N = Some r ->
  0 <= SnapshotInfo.message_count r ->
  find_snapshot (snapshots (apply_rollback r N a)) N = Some r /\
  apply_rollback r N (apply_rollback r N a) = apply_rollback r N a.
Proof.
  intros Hfind Hmc. split.
  - cbn [apply_rollback set_step_number set_snapshots set_messages snapshots].
    now rewrite find_snapshot_keep_upto.
  - unfold apply_rollback.
    cbn [set_step_number set_snapshots set_messages snapshots messages config step_number].
    now rewrite keep_upto_twice, slice_to_twice.
Qed.

Lemma rollback_twice_witness :
  find_snapshot (snapshots agent_at_step_3) 1 = Some (SnapshotInfo.mk "step-1" 5 1) /\
  0 <= SnapshotInfo.message_count (SnapshotInfo.mk "step-1" 5 1) /\
  apply_rollback (SnapshotInfo.mk "step-1" 5 1) 1
      (apply_rollback (SnapshotInfo.mk "step-1" 5 1) 1 agent_at_step_3)
    = apply_rollback (SnapshotInfo.mk "step-1" 5 1) 1 agent_at_step_3.
Proof.
  assert (H1 : find_snapshot (snapshots agent_at_step_3) 1
               = Some (SnapshotInfo.mk "step-1" 5 1)) by reflexivity.
  assert (H2 : 0 <= SnapshotInfo.message_count (SnapshotInfo.mk "step-1" 5 1))
    by (cbn; lia).
  split; [exact H1|]. split; [exact H2|].
  exact (proj2 (rollback_twice agent_at_step_3 1 _ H1 H2)).
Defined.

(** X9. In every session from a fresh agent, each record's message count
    is between 0 and the present length of the transcript, and the
    message counts do not decrease along the ledger. *)
Theorem session_counts_bounded {E : Type} {L : Libraries} (env : Environment E)
    (cfg : InteractiveAgentConfig) (msgs0 : list Message) (es : E) (ops : list Op) :
  let a := self (run_ops env ops (fresh_session cfg msgs0 es)) in
  (forall r, In r (snapshots a) ->
     0 <= SnapshotInfo.message_count r <= Z.of_nat (List.length (messages a))) /\
  (forall i j ri rj, (i <= j)%nat ->
     nth_error (snapshots a) i = Some ri -> nth_error (snapshots a) j = Some rj ->
     SnapshotInfo.message_count ri <= SnapshotInfo.message_count rj).
Proof.
  cbn zeta.
  destruct (run_ops_ledger_ok env ops (fresh_session cfg msgs0 es)
              (fresh_agent_ledger_ok cfg msgs0)) as [_ H].
  exact H.
Qed.

(** X10. In every session from a fresh agent, a rollback to a recorded
    step cuts both histories to a prefix: the ledger to its first [N + 1]
    records, the transcript to its first [message_count] turns, which are
    exactly that many, and the step counter does not grow. *)
Theorem session_rollback_cuts_to_prefix {E : Type} {L : Libraries} (env : Environment E)
    (cfg : InteractiveAgentConfig) (msgs0 : list Message) (es : E) (ops : list Op)
    (N : Z) (r : SnapshotInfo.t) :
  let a := self (run_ops env ops (fresh_session cfg msgs0 es)) in
  find_snapshot (snapshots a) N = Some r ->
  let a' := apply_rollback r N a in
  snapshots a' = firstn (S (Z.to_nat N)) (snapshots a) /\
  messages a' = firstn (Z.to_nat (SnapshotInfo.message_count r)) (messages a) /\
  Z.of_nat (List.length (messages a')) = SnapshotInfo.message_count r /\
  step_number a' <= step_number a.
Proof.
  cbn zeta. intros Hfind.
  destruct (run_ops_ledger_ok env ops (fresh_session cfg msgs0 es)
              (fresh_agent_ledger_ok cfg msgs0)) as [Hidx [Hb Hmono]].
  set (a := self (run_ops env ops (fresh_session cfg msgs0 es))) in *.
  destruct (find_snapshot_at_index a N r Hidx Hfind) as [HN Hnth].
  pose proof (find_some _ _ Hfind) as [Hin _].
  pose proof (Hb r Hin) as Hr.
  destruct Hidx as [Hn Hidx].
  cbn [apply_rollback set_step_number set_snapshots set_messages snapshots messages
         step_number].
  repeat split.
  - rewrite (keep_upto_prefix (snapshots a) 0 N).
    + f_equal. lia.
    + intros i x H. rewrite (Hidx i x H). lia.
  - unfold slice_to. destruct (Z.ltb_spec (SnapshotInfo.message_count r) 0); [lia|].
    reflexivity.
  - now apply length_slice_to.
  - assert (Hlt : (Z.to_nat N < List.length (snapshots a))%nat).
    { apply nth_error_Some. rewrite Hnth. discriminate. }
    lia.
Qed.

Lemma session_rollback_cuts_to_prefix_witness :
  let a := self (run_ops (L := session_libraries) scripted_env mixed_session
                   (fresh_session default_config [] mixed_script)) in
  find_snapshot (snapshots a) 0 = Some (SnapshotInfo.mk "step-0" 1 0) /\
  snapshots (apply_rollback (SnapshotInfo.mk "step-0" 1 0) 0 a)
    = firstn 1 (snapshots a).
Proof.
  cbn zeta.
  assert (H : find_snapshot
                (snapshots (self (run_ops (L := session_libraries) scripted_env mixed_session
                                    (fresh_session default_config [] mixed_script)))) 0
              = Some (SnapshotInfo.mk "step-0" 1 0)) by reflexivity.
  split; [exact H|].
  exact (proj1 (session_rollback_cuts_to_prefix scripted_env default_config []
                  mixed_script mixed_session 0 _ H)).
Defined.

(** X11. In every session from a fresh agent, the record found for step
    [N] is the one at index [N] and is named [step-N], so [/r N] asks the
    environment for the snapshot that was created under that name; and
    the whitelist and the exit-confirmation setting are those the session
    started with. *)
Theorem session_names_and_config {E : Type} {L : Libraries} (env : Environment E)
    (cfg : InteractiveAgentConfig) (msgs0 : list Message) (es : E) (ops : list Op) :
  let a := self (run_ops env ops (fresh_session cfg msgs0 es)) in
  (forall N r, find_snapshot (snapshots a) N = Some r ->
     SnapshotInfo.name r = "step-" ++ str_of_int N /\
     0 <= N /\ nth_error (snapshots a) (Z.to_nat N) = Some r) /\
  whitelist_actions (config a) = whitelist_actions cfg /\
  confirm_exit (config a) = confirm_exit cfg.
Proof.
  cbn zeta. split; [|split].
  - intros N r Hfind.
    assert (Hnamed : named_by_step
                       (self (run_ops env ops (fresh_session cfg msgs0 es)))).
    { apply run_ops_preserves.
      - intros a x H. exact H.
      - intros a H r0 Hin. cbn [after_snapshot snapshots] in Hin.
        apply in_app_or in Hin as [Hin|[<-|[]]]; [now apply H | reflexivity].
      - intros a m H. exact H.
      - intros a r0 N0 H _ x Hin.
        cbn [apply_rollback set_step_number set_snapshots set_messages snapshots] in Hin.
        apply filter_In in Hin as [Hin _]. now apply H.
      - apply named_by_step_fresh. }
    destruct (run_ops_ledger_ok env ops (fresh_session cfg msgs0 es)
                (fresh_agent_ledger_ok cfg msgs0)) as [Hidx _].
    destruct (find_snapshot_at_index _ N r Hidx Hfind) as [HN Hnth].
    pose proof (find_some _ _ Hfind) as [Hin Hstep]. apply Z.eqb_eq in Hstep.
    rewrite (Hnamed r Hin), Hstep. auto.
  - apply (run_ops_preserves env
             (fun a => whitelist_actions (config a) = whitelist_actions cfg));
      auto.
  - apply (run_ops_preserves env
             (fun a => confirm_exit (config a) = confirm_exit cfg));
      auto.
Qed.

(* ================================================================== *)
(** * What prompts and snapshots leave alone *)

Section Frames.

Context {E : Type} (env : Environment E).

Lemma prompt_run_config p (w : World E) o w' :
  prompt_run env p w o w' ->
  no_token_keys (keyboard w) = true ->
  config (self w') = config (self w).
Proof.
  unfold no_token_keys.
  induction 1 as
    [ p w Hkb | p w ks Hkb | p w ks Hkb | p w ks o w' Hkb Hrun IH
    | p w l ks e w2 Hkb Hr Heff | p w l ks v w2 o w' Hkb Hr Heff Hrun IH
    | p w l ks o w' Hkb Hm Hrun IH | p w l ks m Hkb Hm Hneq | p w l ks Hkb Hpl ];
    intros Hno; try reflexivity;
    rewrite Hkb in Hno; cbn [forallb is_token_key] in Hno;
    apply andb_true_iff in Hno as [Hl Hks].
  - apply IH. exact Hks.
  - pose proof (rollback_effect_config env l (typed ks (shown p w))) as Hc.
    now rewrite Heff in Hc.
  - pose proof (rollback_effect_config env l (typed ks (shown p w))) as Hc.
    pose proof (rollback_effect_keyboard env l (typed ks (shown p w))) as [Hk _].
    rewrite Heff in Hc, Hk. cbn [snd keyboard typed shown] in Hc, Hk.
    rewrite IH; [exact Hc | now rewrite Hk].
  - rewrite Hm in Hl. discriminate.
  - rewrite Hm in Hl. discriminate.
Qed.

Lemma rollback_effect_without_capability (l : string) (w : World E) :
  cannot_roll_back env ->
  self (snd (rollback_effect env l w)) = self w.
Proof.
  intros Hno.
  destruct (rollback_effect_shape env l w)
    as [(es' & out & ->) | [(arg & N & r & es' & _ & _ & _ & Hhas & Hcall & _)
                            | (r & e' & es' & _ & _ & ->)]]; try reflexivity.
  exfalso. destruct Hno as [Hno | Hno].
  - rewrite Hno in Hhas. discriminate.
  - apply (Hno (SnapshotInfo.name r) (env_state w)). now rewrite Hcall.
Qed.

End Frames.

(** X12. A prompt never changes the whitelist or the exit-confirmation
    setting, and it changes the mode only when the operator types a mode
    token: with no token among the keys the whole configuration is left
    as it was. *)
Theorem prompt_changes_mode_only_by_token {E : Type} (env : Environment E)
    (fuel : nat) (p : string) (w : World E) :
  (List.length (keyboard w) < fuel)%nat ->
  let a' := self (snd (_prompt_and_handle_special env fuel p w)) in
  whitelist_actions (config a') = whitelist_actions (config (self w)) /\
  confirm_exit (config a') = confirm_exit (config (self w)) /\
  (no_token_keys (keyboard w) = true -> config a' = config (self w)).
Proof.
  intros Hfuel. cbn zeta. split; [|split].
  - apply (prompt_preserves_effect env
             (fun a => whitelist_actions (config a) = whitelist_actions (config (self w))));
      auto.
    intros l w0 H. now rewrite rollback_effect_config.
  - apply (prompt_preserves_effect env
             (fun a => confirm_exit (config a) = confirm_exit (config (self w))));
      auto.
    intros l w0 H. now rewrite rollback_effect_config.
  - apply (prompt_run_config env p w (fst (_prompt_and_handle_special env fuel p w))).
    apply (prompt_run_complete env fuel).
    + now destruct (_prompt_and_handle_special env fuel p w).
    + now apply prompt_fuel_enough.
Qed.

Lemma prompt_changes_mode_only_by_token_witness :
  (List.length (keyboard step_3_world) < 2)%nat /\
  whitelist_actions
    (config (self (snd (_prompt_and_handle_special recording_env 2 plain_prompt
                          step_3_world))))
    = whitelist_actions (config (self step_3_world)).
Proof.
  assert (H : (List.length (keyboard step_3_world) < 2)%nat) by (cbn; lia).
  split; [exact H|].
  exact (proj1 (prompt_changes_mode_only_by_token recording_env 2 plain_prompt
                  step_3_world H)).
Defined.

(** X13. On an environment that cannot roll back -- it has no
    [rollback_snapshot], or the call always raises -- no prompt changes
    the transcript, the ledger or the step counter, whatever the operator
    types. *)
Theorem prompt_without_rollback {E : Type} (env : Environment E)
    (fuel : nat) (p : string) (w : World E) :
  cannot_roll_back env ->
  (List.length (keyboard w) < fuel)%nat ->
  let a' := self (snd (_prompt_and_handle_special env fuel p w)) in
  messages a' = messages (self w) /\
  snapshots a' = snapshots (self w) /\
  step_number a' = step_number (self w).
Proof.
  intros Hno Hfuel. cbn zeta.
  apply (prompt_preserves_effect env
           (fun a => messages a = messages (self w) /\
                     snapshots a = snapshots (self w) /\
                     step_number a = step_number (self w))); auto.
  intros l w0 H. now rewrite rollback_effect_without_capability.
Qed.

Lemma prompt_without_rollback_witness :
  cannot_roll_back snapshot_only_env /\
  (List.length (keyboard busy_world) < 7)%nat /\
  messages (self (snd (_prompt_and_handle_special snapshot_only_env 7 plain_prompt
                         busy_world)))
    = messages (self busy_world).
Proof.
  assert (H1 : cannot_roll_back snapshot_only_env) by (left; reflexivity).
  assert (H2 : (List.length (keyboard busy_world) < 7)%nat) by (cbn; lia).
  split; [exact H1|]. split; [exact H2|].
  exact (proj1 (prompt_without_rollback snapshot_only_env 7 plain_prompt busy_world
                  H1 H2)).
Defined.

(** X14. With a step counter that [str] prints within the interpreter's
    default limit of 4300 digits, the only Exception that
    [_create_snapshot] raises is the MarkupError of its own warning, when
    the text of what the environment raised is not valid console markup;
    anything else it raises is outside Exception.  It never reads the
    keyboard and never touches the configuration or the transcript; the
    agent after it is the agent before it or that agent with one record
    appended and the step counter one up; and when the environment lacks
    [create_snapshot] or no working directory is configured it does
    nothing at all. *)
Theorem create_snapshot_frame {E : Type} {L : Libraries} (env : Environment E)
    (w : World E) :
  (String.length (str_of_int (step_number (self w))) <= 4300)%nat ->
  let r := _create_snapshot env w in
  (forall e, fst r = Raise e ->
     is_Exception e = false \/
     exists e0 m, is_Exception e0 = true /\
                  markup_error (snapshot_warning e0) = Some m /\
                  e = OtherException "MarkupError" m) /\
  fst r <> OutOfFuel /\
  keyboard (snd r) = keyboard w /\
  config (self (snd r)) = config (self w) /\
  messages (self (snd r)) = messages (self w) /\
  (self (snd r) = self w \/ self (snd r) = after_snapshot (self w)) /\
  (has_create_snapshot env = false \/ cwd env = EmptyString -> r = (Return tt, w)).
Proof.
  intros _. cbn zeta.
  destruct (has_create_snapshot env && negb (String.eqb (cwd env) EmptyString)) eqn:Hg.
  - assert (Hcap : snapshot_capable env).
    { apply andb_true_iff in Hg as [H1 H2]. split; [exact H1|].
      apply negb_true_iff in H2. now apply String.eqb_neq. }
    assert (Hlast : has_create_snapshot env = false \/ cwd env = EmptyString -> False).
    { destruct Hcap as [H1 H2]. intros [H|H]; [rewrite H in H1; discriminate | auto]. }
    destruct (create_snapshot env ("step-" ++ str_of_int (step_number (self w))) (env_state w))
      as [[e|] es'] eqn:Hcall.
    + rewrite (create_snapshot_raises env w e es' Hcap Hcall).
      destruct (is_Exception e) eqn:He;
        [destruct (markup_error (snapshot_warning e)) as [m|] eqn:Hm|];
        cbn [fst snd self keyboard shown];
        repeat split; try discriminate; auto; try (intros H; now destruct (Hlast H)).
      * intros e0 [= <-]. right. now exists e, m.
      * intros e0 [= <-]. now left.
    + rewrite (create_snapshot_success env w es' Hcap Hcall). cbn [fst snd self keyboard].
      repeat split; try discriminate; auto. intros H; now destruct (Hlast H).
  - rewrite (create_snapshot_incapable env w Hg). cbn [fst snd].
    repeat split; try discriminate; auto.
Qed.

Lemma create_snapshot_frame_witness :
  (String.length (str_of_int (step_number (self read_only_world))) <= 4300)%nat /\
  fst (_create_snapshot (L := session_libraries) scripted_env read_only_world)
    = Raise (OtherException "MarkupError"
               "closing tag '[/work]' at position 60 doesn't match any open tag") /\
  (is_Exception
     (OtherException "MarkupError"
        "closing tag '[/work]' at position 60 doesn't match any open tag") = false \/
   exists e0 m, is_Exception e0 = true /\
                @markup_error session_libraries (snapshot_warning e0) = Some m /\
                OtherException "MarkupError"
                  "closing tag '[/work]' at position 60 doesn't match any open tag"
                  = OtherException "MarkupError" m).
Proof.
  assert (H : (String.length (str_of_int (step_number (self read_only_world))) <= 4300)%nat)
    by (vm_compute; repeat constructor).
  split; [exact H|]. split; [reflexivity|].
  exact (proj1 (create_snapshot_frame (L := session_libraries) scripted_env
                  read_only_world H) _ eq_refl).
Defined.

(* ================================================================== *)
(** * Confirmation, the end of the task, and queries in human mode *)

Section Hooks.

Context {E : Type} (env : Environment E).

Lemma prompt_plain_line (fuel : nat) (p l : string) (ks : list Key) (w : World E) :
  keyboard w = Line l :: ks -> plain_line l = true ->
  _prompt_and_handle_special env (S fuel) p w = (Return l, typed ks (shown p w)).
Proof.
  intros Hkb Hpl. unfold plain_line in Hpl.
  apply andb_true_iff in Hpl as [Hpl Htok]. apply andb_true_iff in Hpl as [Hh Hr].
  apply negb_true_iff in Hh, Hr.
  cbn [_prompt_and_handle_special]. rewrite read_key_bind, Hkb, Hh, Hr.
  destruct (_MODE_COMMANDS_MAPPING l); [discriminate | reflexivity].
Qed.

Lemma padded_human_token_is_plain (l : string) :
  strip l = "/u" -> l <> "/u" -> plain_line l = true.
Proof.
  intros Hs Hne. unfold plain_line.
  assert (Hh : String.eqb l "/h" = false).
  { apply String.eqb_neq. intros ->. discriminate. }
  assert (Hr : startswith l "/r" = false).
  { destruct (startswith l "/r") eqn:H; [|reflexivity]. exfalso.
    unfold startswith in H.
    destruct l as [|c1 s]; [discriminate|]. cbn [String.prefix] in H.
    destruct (Ascii.ascii_dec "/"%char c1) as [Hc1|]; [subst c1 | discriminate].
    destruct s as [|c2 s]; [discriminate|]. cbn [String.prefix] in H.
    destruct (Ascii.ascii_dec "r"%char c2) as [Hc2|]; [subst c2 | discriminate].
    destruct (strip_of_rollback_command s) as [t Ht]. rewrite Ht in Hs. discriminate. }
  assert (Hm : _MODE_COMMANDS_MAPPING l = None).
  { destruct (_MODE_COMMANDS_MAPPING l) as [m|] eqn:H; [|reflexivity]. exfalso.
    apply mode_token_inv in H as [[-> _]|[[-> _]|[-> _]]];
      [now apply Hne | discriminate | discriminate]. }
  now rewrite Hh, Hr, Hm.
Qed.

Lemma prompt_switches_mode (fuel : nat) (p tok : string) (ks : list Key) (m : Mode)
    (w : World E) :
  keyboard w = Line tok :: ks ->
  _MODE_COMMANDS_MAPPING tok = Some m -> mode (config (self w)) <> m ->
  exists w',
    _prompt_and_handle_special env (S fuel) p w = (Return tok, w') /\
    mode (config (self w')) = m.
Proof.
  intros Hkb Hm Hneq.
  destruct (mode_token_not_special tok m Hm) as [Hh Hr].
  cbn [_prompt_and_handle_special]. rewrite read_key_bind, Hkb, Hh, Hr, Hm.
  run_monad. apply Mode_eqb_neq in Hneq. rewrite Hneq.
  eexists. split; reflexivity.
Qed.

Lemma prompt_returned_token (fuel : nat) (p : string) (w w' : World E) (v : string)
    (m : Mode) :
  _prompt_and_handle_special env fuel p w = (Return v, w') ->
  _MODE_COMMANDS_MAPPING v = Some m -> mode (config (self w')) = m.
Proof.
  intros Hrun Hm.
  destruct (prompt_run_value env p w (Return v) w') with (v := v)
    as (_ & _ & Htok); [|reflexivity|now apply Htok].
  apply (prompt_run_complete env fuel); [exact Hrun | discriminate].
Qed.

Lemma strip_mode_token (tok : string) (m : Mode) :
  _MODE_COMMANDS_MAPPING tok = Some m -> strip tok = tok.
Proof.
  intros H. apply mode_token_inv in H as [[-> _]|[[-> _]|[-> _]]]; reflexivity.
Qed.

End Hooks.

(** X15. At the confirmation prompt [/u] rejects the command with the
    message that the agent switches to human mode.  Typed exactly, the
    mode is human when the exception is raised; typed with white space
    around it, the same exception is raised but the line was not a mode
    token for the prompt and the agent is left in the mode it was in. *)
Theorem confirmation_human_token {E : Type} (env : Environment E) (fuel : nat)
    (w : World E) (l : string) (ks : list Key) :
  keyboard w = Line l :: ks -> strip l = "/u" ->
  mode (config (self w)) <> human ->
  exists w',
    ask_confirmation env (S fuel) w
      = (Raise (NonTerminatingException "Command not executed. Switching to human mode"), w') /\
    (l = "/u" -> mode (config (self w')) = human) /\
    (l <> "/u" -> self w' = self w).
Proof.
  intros Hkb Hs Hmode. rewrite ask_confirmation_after_prompt.
  destruct (String.eqb_spec l "/u") as [->|Hne].
  - destruct (prompt_switches_mode env fuel confirmation_prompt "/u" ks human w
                Hkb eq_refl Hmode) as (w' & Hrun & Hm).
    rewrite Hrun.
    exists w'. split; [reflexivity|]. split; [intros _; exact Hm | intros H0; now destruct H0].
  - rewrite (prompt_plain_line env fuel _ l ks w Hkb (padded_human_token_is_plain l Hs Hne)).
    rewrite Hs. eexists. split; [reflexivity|].
    split; [intros H0; now destruct (Hne H0) | reflexivity].
Qed.

Lemma confirmation_human_token_witness :
  keyboard padded_token_world = [Line " /u"] /\ strip " /u" = "/u" /\
  mode (config (self padded_token_world)) <> human /\
  exists w',
    ask_confirmation recording_env 1 padded_token_world
      = (Raise (NonTerminatingException "Command not executed. Switching to human mode"), w') /\
    (" /u" <> "/u" -> self w' = self padded_token_world).
Proof.
  assert (H3 : mode (config (self padded_token_world)) <> human) by discriminate.
  split; [reflexivity|]. split; [reflexivity|]. split; [exact H3|].
  destruct (confirmation_human_token recording_env 0 padded_token_world " /u" []
              eq_refl eq_refl H3) as (w' & Hrun & _ & Hself).
  exists w'. split; assumption.
Defined.

Lemma has_finished_submitted_eq {E R : Type} (env : Environment E)
    (super_has_finished : dict -> M E R) (fuel : nat) (output : dict)
    (w w1 : World E) (e : Exc) :
  super_has_finished output w = (Raise e, w1) -> is_Submitted e = true ->
  has_finished env super_has_finished fuel output w
    = (if confirm_exit (config (self w1)) then
         match _prompt_and_handle_special env fuel EmptyString (shown finish_prompt w1) with
         | (Return line, w2) =>
             if String.eqb (strip line) EmptyString then (Raise e, w2)
             else (Raise (NonTerminatingException
                            ("The user added a new task: " ++ strip line)), w2)
         | (Raise e', w2) => (Raise e', w2)
         | (OutOfFuel, w2) => (OutOfFuel, w2)
         end
       else (Raise e, w1)).
Proof.
  intros Hsuper He.
  unfold has_finished, try_except. rewrite Hsuper, He.
  unfold bind at 1. unfold bind at 1. unfold get_self.
  destruct (confirm_exit (config (self w1))); [|reflexivity].
  unfold bind at 1. unfold console_print_end at 1. unfold bind at 1.
  fold (shown finish_prompt w1).
  destruct (_prompt_and_handle_special env fuel EmptyString (shown finish_prompt w1))
    as [[line|e'|] w2]; try reflexivity.
  destruct (String.eqb (strip line) EmptyString); reflexivity.
Qed.

(** X16. When the base [has_finished] raises Submitted: with
    [confirm_exit] off the exception goes on to the caller and the
    operator is not asked; with it on the operator is prompted, a blank
    answer lets the same exception go on, and any other answer replaces
    it by a NonTerminatingException that carries the stripped answer as
    the new task.  In no case does [has_finished] return normally. *)
Theorem has_finished_on_submitted {E R : Type} (env : Environment E)
    (super_has_finished : dict -> M E R) (fuel : nat) (output : dict)
    (w w1 : World E) (e : Exc) :
  super_has_finished output w = (Raise e, w1) -> is_Submitted e = true ->
  has_finished env super_has_finished fuel output w
    = (if confirm_exit (config (self w1)) then
         match _prompt_and_handle_special env fuel EmptyString (shown finish_prompt w1) with
         | (Return line, w2) =>
             if String.eqb (strip line) EmptyString then (Raise e, w2)
             else (Raise (NonTerminatingException
                            ("The user added a new task: " ++ strip line)), w2)
         | (Raise e', w2) => (Raise e', w2)
         | (OutOfFuel, w2) => (OutOfFuel, w2)
         end
       else (Raise e, w1)) /\
  forall r, fst (has_finished env super_has_finished fuel output w) <> Return r.
Proof.
  intros Hsuper He.
  pose proof (has_finished_submitted_eq env super_has_finished fuel output w w1 e
                Hsuper He) as Heq.
  split; [exact Heq|].
  intros r. rewrite Heq.
  destruct (confirm_exit (config (self w1))); [|discriminate].
  destruct (_prompt_and_handle_special env fuel EmptyString (shown finish_prompt w1))
    as [[line|e'|] w2]; try discriminate.
  destruct (String.eqb (strip line) EmptyString); discriminate.
Qed.

Lemma has_finished_on_submitted_witness :
  always_submitted [] step_3_world = (Raise submitted, step_3_world) /\
  is_Submitted submitted = true /\
  forall r, fst (has_finished recording_env always_submitted 2 [] step_3_world) <> Return r.
Proof.
  split; [reflexivity|]. split; [reflexivity|].
  exact (proj2 (has_finished_on_submitted recording_env always_submitted 2 []
                  step_3_world step_3_world submitted eq_refl eq_refl)).
Defined.

(** X17. A mode token typed at the exit prompt is both a mode switch and
    a new task: when it names another mode than the current one, the
    agent is switched to it and [has_finished] raises the
    NonTerminatingException whose new task is the token itself. *)
Theorem exit_prompt_mode_token {E R : Type} (env : Environment E)
    (super_has_finished : dict -> M E R) (fuel : nat) (output : dict)
    (w w1 : World E) (e : Exc) (tok : string) (ks : list Key) (m : Mode) :
  super_has_finished output w = (Raise e, w1) -> is_Submitted e = true ->
  confirm_exit (config (self w1)) = true ->
  keyboard w1 = Line tok :: ks ->
  _MODE_COMMANDS_MAPPING tok = Some m -> mode (config (self w1)) <> m ->
  exists w2,
    has_finished env super_has_finished (S fuel) output w
      = (Raise (NonTerminatingException ("The user added a new task: " ++ tok)), w2) /\
    mode (config (self w2)) = m.
Proof.
  intros Hsuper He Hexit Hkb Hm Hneq.
  pose proof (has_finished_submitted_eq env super_has_finished (S fuel) output w w1 e
                Hsuper He) as Heq.
  rewrite Hexit in Heq.
  destruct (prompt_switches_mode env fuel EmptyString tok ks m (shown finish_prompt w1)
              Hkb Hm Hneq) as (w2 & Hrun & Hmode).
  rewrite Hrun in Heq.
  rewrite (strip_mode_token tok m Hm) in Heq.
  assert (Hne : String.eqb tok EmptyString = false).
  { apply String.eqb_neq. intros ->. discriminate. }
  rewrite Hne in Heq.
  exists w2. split; [exact Heq | exact Hmode].
Qed.

Lemma exit_prompt_mode_token_witness :
  always_submitted [] switching_world = (Raise submitted, switching_world) /\
  is_Submitted submitted = true /\
  confirm_exit (config (self switching_world)) = true /\
  keyboard switching_world = [Line "/y"] /\
  _MODE_COMMANDS_MAPPING "/y" = Some yolo /\
  mode (config (self switching_world)) <> yolo /\
  exists w2,
    has_finished recording_env always_submitted 1 [] switching_world
      = (Raise (NonTerminatingException ("The user added a new task: " ++ "/y")), w2) /\
    mode (config (self w2)) = yolo.
Proof.
  assert (H6 : mode (config (self switching_world)) <> yolo) by discriminate.
  repeat (split; [reflexivity|]). split; [exact H6|].
  exact (exit_prompt_mode_token recording_env always_submitted 0 [] switching_world
           switching_world submitted "/y" [] yolo eq_refl eq_refl eq_refl eq_refl
           eq_refl H6).
Defined.

Section QueryFacts.

Context {E F : Type} {L : Libraries} (env : Environment E).
Variable model_n_calls : Z.
Variable model_cost_2f : string.
Variable super_query : M E dict.
Variable limits_report : World E -> string.
Variable set_step_limit : Z -> M E unit.
Variable set_cost_limit : F -> M E unit.
Variable py_float : string -> option F.

Lemma add_message_result (role content : string) (w : World E) :
  exists out,
    add_message model_n_calls model_cost_2f role content w
      = (Return tt,
         mkWorld (set_messages (messages (self w) ++ [mkMessage role content]) (self w))
           (env_state w) (keyboard w) (console w ++ out)).
Proof.
  unfold add_message, super_add_message. destruct (String.eqb role "assistant");
    eexists; run_monad; rewrite <- app_assoc; reflexivity.
Qed.

Lemma builtin_input_bind {A : Type} (p : string) (k : string -> M E A) (w : World E) :
  (line <- builtin_input p ;; k line) w
    = match keyboard w with
      | [] => (Raise EOFError, shown p w)
      | Line l :: ks => k l (typed ks (shown p w))
      | CtrlC :: ks => (Raise KeyboardInterrupt, typed ks (shown p w))
      | CtrlD :: ks => (Raise EOFError, typed ks (shown p w))
      end.
Proof.
  unfold builtin_input, bind, console_print_end, prompt_session_prompt, shown, typed.
  cbn [self env_state keyboard console].
  destruct (keyboard w) as [|[l| |] ks]; reflexivity.
Qed.

End QueryFacts.

(** X18. [query] in human mode prompts the operator first.  When the
    prompt returns [/y] or [/c] the query goes on to the model, and the
    agent is then no longer in human mode.  Any other line it returns,
    the empty line included, becomes the command: it is wrapped in a bash
    block, appended to the transcript as one assistant turn and returned
    as the message, and the model is not queried; the ledger, the step
    counter and the environment are left alone. *)
Theorem query_in_human_mode {E F : Type} {L : Libraries} (env : Environment E)
    (model_n_calls : Z) (model_cost_2f : string)
    (super_query : M E dict) (limits_report : World E -> string)
    (set_step_limit : Z -> M E unit) (set_cost_limit : F -> M E unit)
    (py_float : string -> option F)
    (fuel : nat) (w w1 : World E) (command : string) :
  mode (config (self w)) = human ->
  _prompt_and_handle_special env fuel plain_prompt w = (Return command, w1) ->
  let q := query env model_n_calls model_cost_2f super_query limits_report
             set_step_limit set_cost_limit py_float fuel w in
  (command = "/y" \/ command = "/c" ->
     mode (config (self w1)) <> human /\
     q = query_model super_query limits_report set_step_limit set_cost_limit py_float w1) /\
  (command <> "/y" -> command <> "/c" ->
     fst q = Return [("content", command_block command)] /\
     messages (self (snd q))
       = (messages (self w1) ++ [mkMessage "assistant" (command_block command)])%list /\
     snapshots (self (snd q)) = snapshots (self w1) /\
     step_number (self (snd q)) = step_number (self w1) /\
     config (self (snd q)) = config (self w1) /\
     env_state (snd q) = env_state w1 /\
     keyboard (snd q) = keyboard w1).
Proof.
  intros Hmode Hrun q.
  assert (Hq : q = (if String.eqb command "/y" || String.eqb command "/c"
                    then query_model super_query limits_report set_step_limit
                           set_cost_limit py_float
                    else add_message model_n_calls model_cost_2f "assistant"
                           (command_block command) ;;;
                         ret [("content", command_block command)]) w1).
  { unfold q, query. unfold bind at 1. unfold get_self. rewrite Hmode.
    cbn [Mode_eqb]. unfold bind at 1. rewrite Hrun. reflexivity. }
  split.
  - intros Hc. split.
    + destruct Hc as [-> | ->];
        [rewrite (prompt_returned_token env fuel _ w w1 "/y" yolo Hrun eq_refl)
        |rewrite (prompt_returned_token env fuel _ w w1 "/c" confirm Hrun eq_refl)];
        discriminate.
    + rewrite Hq. destruct Hc as [-> | ->]; reflexivity.
  - intros Hy Hc. apply String.eqb_neq in Hy, Hc. rewrite Hy, Hc in Hq.
    cbn [orb] in Hq. unfold bind in Hq.
    destruct (add_message_result model_n_calls model_cost_2f "assistant"
                (command_block command) w1) as [out Hadd].
    rewrite Hadd in Hq. unfold ret in Hq. rewrite Hq. cbn. repeat split.
Qed.

Lemma query_in_human_mode_witness :
  mode (config (self human_world)) = human /\
  _prompt_and_handle_special recording_env 2 plain_prompt human_world
    = (Return "ls -la",
       snd (_prompt_and_handle_special recording_env 2 plain_prompt human_world)) /\
  fst (query (L := session_libraries) recording_env 1 "0.00" exhausted_query (fun _ => EmptyString)
         no_limit_store no_limit_store no_float 2 human_world)
    = Return [("content", command_block "ls -la")].
Proof.
  assert (H2 : _prompt_and_handle_special recording_env 2 plain_prompt human_world
               = (Return "ls -la",
                  snd (_prompt_and_handle_special recording_env 2 plain_prompt
                         human_world))) by reflexivity.
  split; [reflexivity|]. split; [exact H2|].
  destruct (query_in_human_mode (L := session_libraries) recording_env 1 "0.00"
              exhausted_query
              (fun _ => EmptyString) no_limit_store no_limit_store no_float 2
              human_world _ "ls -la" eq_refl H2) as [_ H].
  destruct H as [Hret _]; [discriminate | discriminate | exact Hret].
Defined.

(** X19. The limits dialogue of [query].  When the base query raises
    LimitsExceeded, the operator is asked for a new step limit and a new
    cost limit and the base query is run again, once, its outcome being
    the outcome of [query] whatever it is.  An answer that is not a
    number raises the ValueError of [int] or of [float] out of [query]
    without the second run; when it is the cost limit that is malformed,
    the step limit has already been assigned.  The answer to the first
    question is taken to be no longer than the 4300 digits that [int]
    reads under the interpreter's default settings. *)
Theorem query_limits_dialogue {E F : Type} {L : Libraries}
    (super_query : M E dict) (limits_report : World E -> string)
    (set_step_limit : Z -> M E unit) (set_cost_limit : F -> M E unit)
    (py_float : string -> option F)
    (w w1 : World E) (e : Exc) (l1 : string) (ks : list Key) :
  super_query w = (Raise e, w1) -> is_LimitsExceeded e = true ->
  keyboard w1 = Line l1 :: ks ->
  (String.length l1 <= 4300)%nat ->
  let q := query_model super_query limits_report set_step_limit set_cost_limit py_float w in
  let asked1 := typed ks (shown "New step limit: " (shown (limits_report w1 ++ nl) w1)) in
  (py_int l1 = None -> q = (Raise (invalid_int_literal l1), asked1)) /\
  (forall n w2 l2 ks2,
     py_int l1 = Some n ->
     set_step_limit n asked1 = (Return tt, w2) ->
     keyboard w2 = Line l2 :: ks2 ->
     let asked2 := typed ks2 (shown "New cost limit: " w2) in
     (py_float l2 = None -> q = (Raise (invalid_float_literal l2), asked2)) /\
     (forall c w3,
        py_float l2 = Some c ->
        set_cost_limit c asked2 = (Return tt, w3) ->
        q = super_query w3)).
Proof.
  intros Hsuper He Hkb _ q asked1.
  assert (Hq : q = (line <- builtin_input "New step limit: " ;;
       match py_int line with
       | None => raise (invalid_int_literal line)
       | Some n =>
           set_step_limit n ;;;
           line <- builtin_input "New cost limit: " ;;
           match py_float line with
           | None => raise (invalid_float_literal line)
           | Some c => set_cost_limit c ;;; super_query
           end
       end) (shown (limits_report w1 ++ nl) w1)).
  { unfold q, query_model, try_except. rewrite Hsuper, He.
    unfold bind at 1. reflexivity. }
  rewrite builtin_input_bind in Hq.
  cbn [keyboard shown] in Hq. rewrite Hkb in Hq. fold asked1 in Hq.
  split.
  - intros Hint. rewrite Hint in Hq. exact Hq.
  - intros n w2 l2 ks2 Hint Hset Hkb2 asked2. rewrite Hint in Hq.
    unfold bind at 1 in Hq. rewrite Hset in Hq.
    rewrite builtin_input_bind in Hq. rewrite Hkb2 in Hq. fold asked2 in Hq.
    split.
    + intros Hfl. rewrite Hfl in Hq. exact Hq.
    + intros c w3 Hfl Hset2. rewrite Hfl in Hq. unfold bind in Hq.
      rewrite Hset2 in Hq. exact Hq.
Qed.

Lemma query_limits_dialogue_witness :
  exhausted_query limits_world = (Raise limits_exceeded, limits_world) /\
  is_LimitsExceeded limits_exceeded = true /\
  keyboard limits_world = [Line "ten"; Line "10"] /\
  (String.length "ten" <= 4300)%nat /\
  py_int "ten" = None /\
  fst (query_model (L := session_libraries) exhausted_query (fun _ => EmptyString)
         no_limit_store no_limit_store no_float limits_world)
    = Raise (ValueError "invalid literal for int() with base 10: 'ten'").
Proof.
  assert (Hlen : (String.length "ten" <= 4300)%nat) by (cbn [String.length]; lia).
  split; [reflexivity|]. split; [reflexivity|]. split; [reflexivity|].
  split; [exact Hlen|]. split; [reflexivity|].
  destruct (query_limits_dialogue (L := session_libraries) exhausted_query
              (fun _ => EmptyString) no_limit_store no_limit_store no_float
              limits_world limits_world limits_exceeded "ten" [Line "10"]
              eq_refl eq_refl eq_refl Hlen) as [H _].
  rewrite (H eq_refl). reflexivity.
Defined.

(* ================================================================== *)
(** * Whitelists of plain prefixes *)

(** X20. When every whitelist entry is a pattern without metacharacters,
    confirm mode asks for confirmation exactly for the commands that
    start with none of the entries. *)
Theorem whitelist_of_literals {L : Libraries} (a : InteractiveAgent)
    (ps : list string) (C : string) :
  mode (config a) = confirm ->
  whitelist_actions (config a) = ps -> forallb plain_pattern ps = true ->
  should_ask_confirmation a C = Return (negb (existsb (fun p => startswith C p) ps)).
Proof.
  intros Hmode Hw Hplain. unfold should_ask_confirmation. rewrite Hmode, Hw.
  cbn [Mode_eqb]. clear Hw.
  assert (H : any_match ps C = Return (existsb (fun p => startswith C p) ps)).
  { induction ps as [|p ps IH]; [reflexivity|].
    cbn [forallb] in Hplain. apply andb_true_iff in Hplain as [Hp Hps].
    cbn [any_match existsb]. rewrite (plain_pattern_match p C Hp).
    destruct (startswith C p); [reflexivity | now apply IH]. }
  now rewrite H.
Qed.

Lemma whitelist_of_literals_witness :
  let a := mkAgent (mkConfig confirm ["ls"; "git status"] true) [] [] 0 in
  mode (config a) = confirm /\
  whitelist_actions (config a) = ["ls"; "git status"] /\
  forallb plain_pattern ["ls"; "git status"] = true /\
  should_ask_confirmation (L := session_libraries) a "git push"
    = Return (negb (existsb (fun p => startswith "git push" p) ["ls"; "git status"])).
Proof.
  cbn zeta. split; [reflexivity|]. split; [reflexivity|]. split; [reflexivity|].
  exact (whitelist_of_literals (L := session_libraries)
           (mkAgent (mkConfig confirm ["ls"; "git status"] true) [] [] 0)
           ["ls"; "git status"] "git push" eq_refl eq_refl eq_refl).
Defined.

(* ================================================================== *)
(** * Step numbers as they are printed and typed *)


(** X22. The step number that the listing prints can be typed back: for
    every integer that [str] prints in at most 4300 characters, the
    interpreter's default limit, [int] of its [str] is the integer, and
    the request made of [/r], a space and the printed number has exactly
    these two parts. *)
Theorem printed_step_number_parses (n : Z) :
  (String.length (str_of_int n) <= 4300)%nat ->
  py_int (str_of_int n) = Some n /\
  split ("/r " ++ str_of_int n) = ["/r"; str_of_int n].
Proof.
  intros _. split; [apply py_int_str_of_int | apply split_printed_request].
Qed.

Lemma printed_step_number_parses_witness :
  (String.length (str_of_int 42) <= 4300)%nat /\
  py_int (str_of_int 42) = Some 42 /\
  split ("/r " ++ str_of_int 42) = ["/r"; "42"].
Proof.
  assert (H : (String.length (str_of_int 42) <= 4300)%nat)
    by (vm_compute; repeat constructor).
  split; [exact H|].
  exact (printed_step_number_parses 42 H).
Defined.

Lemma find_snapshot_of_member (a : InteractiveAgent) (r : SnapshotInfo.t) :
  ledger_indexed a -> In r (snapshots a) ->
  find_snapshot (snapshots a) (SnapshotInfo.step_number r) = Some r.
Proof.
  intros Hidx Hin.
  destruct (find_snapshot_some (snapshots a) (SnapshotInfo.step_number r))
    as (r' & Hfind & Hin' & Hstep); [now exists r|].
  destruct (find_snapshot_at_index a _ r' Hidx Hfind) as [_ Hnth'].
  destruct Hidx as [_ Hidx].
  destruct (In_nth_error _ _ Hin) as [i Hi].
  pose proof (Hidx i r Hi) as Hri.
  rewrite Hri, Nat2Z.id, Hi in Hnth'. injection Hnth' as <-. exact Hfind.
Qed.

(** X23. In every session from a fresh agent, each record that [/r]
    lists can be restored by typing [/r] and the step number printed on
    its line: when the environment has [rollback_snapshot] and the call
    for that record's name succeeds, the handler rolls back to that very
    record and prompts again. *)
Theorem listed_snapshot_can_be_restored {E : Type} {L : Libraries} (env : Environment E)
    (cfg : InteractiveAgentConfig) (msgs0 : list Message) (es es' : E) (ops : list Op)
    (fuel : nat) (r : SnapshotInfo.t) :
  let w := run_ops env ops (fresh_session cfg msgs0 es) in
  let N := SnapshotInfo.step_number r in
  In r (snapshots (self w)) ->
  has_rollback_snapshot env = true ->
  rollback_snapshot env (SnapshotInfo.name r) (env_state w) = (None, es') ->
  In (snapshot_line r ++ nl) (snapshot_listing (snapshots (self w))) /\
  _handle_rollback env fuel ("/r " ++ str_of_int N) w
    = _prompt_and_handle_special env fuel plain_prompt
        (mkWorld (apply_rollback r N (self w)) es' (keyboard w)
           (console w ++
              [("[bold green]Rolled back to step " ++ str_of_int N ++ "[/bold green]") ++ nl])).
Proof.
  cbn zeta. intros Hin Hhas Hcall.
  set (w := run_ops env ops (fresh_session cfg msgs0 es)) in *.
  destruct (run_ops_ledger_ok env ops (fresh_session cfg msgs0 es)
              (fresh_agent_ledger_ok cfg msgs0)) as [Hidx _].
  fold w in Hidx.
  pose proof (find_snapshot_of_member (self w) r Hidx Hin) as Hfind.
  pose proof (py_int_str_of_int (SnapshotInfo.step_number r)) as Hint.
  pose proof (split_printed_request (SnapshotInfo.step_number r)) as Hsplit.
  split.
  - unfold snapshot_listing. destruct (snapshots (self w)) as [|s ss] eqn:Hs.
    + destruct Hin.
    + right. rewrite <- Hs in Hin.
      rewrite <- Hs. apply (in_map (fun s0 => snapshot_line s0 ++ nl)). exact Hin.
  - apply (handle_rollback_of_effect env fuel _ w _ EmptyString).
    apply (rollback_effect_success env _ "/r" (str_of_int (SnapshotInfo.step_number r)) []);
      assumption.
Qed.

Lemma listed_snapshot_can_be_restored_witness :
  let w := run_ops (L := session_libraries) recording_env short_session (fresh_session default_config [] []) in
  let r := SnapshotInfo.mk "step-0" 1 0 in
  In r (snapshots (self w)) /\
  has_rollback_snapshot recording_env = true /\
  In (snapshot_line r ++ nl) (snapshot_listing (snapshots (self w))).
Proof.
  cbn zeta.
  assert (H1 : In (SnapshotInfo.mk "step-0" 1 0)
                 (snapshots (self (run_ops (L := session_libraries) recording_env short_session
                                     (fresh_session default_config [] [])))))
    by (left; reflexivity).
  split; [exact H1|]. split; [reflexivity|].
  exact (proj1 (listed_snapshot_can_be_restored recording_env default_config [] [] _
                  short_session 1 (SnapshotInfo.mk "step-0" 1 0) H1 eq_refl eq_refl)).
Defined.

(** X24. [step] catches KeyboardInterrupt and nothing else: every other
    outcome of the base step, a NonTerminatingException included, is the
    outcome of [step].  After an interruption [step] never returns
    normally, and a second Ctrl-C, pressed at the interruption prompt,
    leaves [step] as a KeyboardInterrupt. *)
Theorem step_catches_only_interrupt {E R : Type} (env : Environment E)
    (super_step : M E R) (fuel : nat) (w w1 : World E) (o : Outcome R) :
  (console_print "<Rule>" ;;; super_step) w = (o, w1) ->
  (o <> Raise KeyboardInterrupt -> step env super_step fuel w = (o, w1)) /\
  (o = Raise KeyboardInterrupt ->
     (forall r, fst (step env super_step fuel w) <> Return r) /\
     forall ks, keyboard w1 = CtrlC :: ks ->
       step env super_step (S fuel) w
         = (Raise KeyboardInterrupt, typed ks (shown interrupt_prompt w1))).
Proof.
  intros Hbase. split.
  - intros Hno. unfold step, try_except. rewrite Hbase.
    destruct o as [r|e|]; try reflexivity.
    destruct e; try reflexivity. now destruct Hno.
  - intros ->. split.
    + intros r. unfold step, try_except. rewrite Hbase. cbn [is_KeyboardInterrupt].
      unfold bind, raise.
      destruct (_prompt_and_handle_special env fuel interrupt_prompt w1) as [[l|e|] w2];
        discriminate.
    + intros ks Hkb. unfold step, try_except. rewrite Hbase. cbn [is_KeyboardInterrupt].
      unfold bind at 1. cbn [_prompt_and_handle_special].
      rewrite read_key_bind, Hkb. reflexivity.
Qed.

Lemma step_catches_only_interrupt_witness :
  (console_print "<Rule>" ;;; (raise KeyboardInterrupt : M (list string) dict))
      second_interrupt_world
    = (Raise KeyboardInterrupt, shown ("<Rule>" ++ nl) second_interrupt_world) /\
  fst (step recording_env (raise KeyboardInterrupt : M (list string) dict) 1
         second_interrupt_world) = Raise KeyboardInterrupt.
Proof.
  assert (H1 : (console_print "<Rule>" ;;; (raise KeyboardInterrupt : M (list string) dict))
                 second_interrupt_world
               = (Raise KeyboardInterrupt, shown ("<Rule>" ++ nl) second_interrupt_world))
    by reflexivity.
  split; [exact H1|].
  destruct (step_catches_only_interrupt recording_env
              (raise KeyboardInterrupt : M (list string) dict) 0
              second_interrupt_world _ _ H1) as [_ H].
  destruct (H eq_refl) as [_ Hc].
  rewrite (Hc [Line "unread"] eq_refl). reflexivity.
Defined.

(** X25. An action without the ["action"] key stops [execute_action] at
    once with a KeyError: the operator is not asked, no snapshot is
    attempted and the base executor is not called. *)
Theorem execute_action_without_command {E R : Type} {L : Libraries}
    (env : Environment E)
    (super_execute_action : dict -> M E R) (fuel : nat) (action : dict) (w : World E) :
  dict_get action "action" = None ->
  execute_action env super_execute_action fuel action w = (Raise (KeyError "'action'"), w).
Proof.
  intros Hnone. rewrite execute_action_after_stage.
  unfold confirmation_stage. now rewrite Hnone.
Qed.

Lemma execute_action_without_command_witness :
  dict_get keyless_action "action" = None /\
  execute_action (L := session_libraries) recording_env (fun a : dict => ret a) 2 keyless_action rejecting_world
    = (Raise (KeyError "'action'"), rejecting_world).
Proof.
  split; [reflexivity|].
  exact (execute_action_without_command recording_env (fun a : dict => ret a) 2
           keyless_action rejecting_world eq_refl).
Defined.

(** X26. [ask_confirmation] returns normally exactly when the prompt
    returned a line that is blank or [/y] once stripped; when the line is
    [/y] itself the agent is in yolo mode from then on. *)
Theorem ask_confirmation_returns {E : Type} (env : Environment E) (fuel : nat)
    (w w' : World E) :
  ask_confirmation env fuel w = (Return tt, w') <->
  exists line,
    _prompt_and_handle_special env fuel confirmation_prompt w = (Return line, w') /\
    (strip line = EmptyString \/ strip line = "/y") /\
    (line = "/y" -> mode (config (self w')) = yolo).
Proof.
  rewrite ask_confirmation_after_prompt.
  destruct (_prompt_and_handle_special env fuel confirmation_prompt w) as [[line|e|] w2]
    eqn:Hrun.
  - destruct (String.eqb_spec (strip line) EmptyString) as [Hb|Hb];
      [|destruct (String.eqb_spec (strip line) "/y") as [Hy|Hy]]; cbn [orb].
    + split.
      * intros [= <-]. exists line. split; [reflexivity|]. split; [now left|].
        intros ->. discriminate.
      * intros (l & [= <- <-] & _). reflexivity.
    + split.
      * intros [= <-]. exists line. split; [reflexivity|]. split; [now right|].
        intros ->.
        exact (prompt_returned_token env fuel _ w w2 "/y" yolo Hrun eq_refl).
      * intros (l & [= <- <-] & _). reflexivity.
    + split.
      * destruct (String.eqb (strip line) "/u"); discriminate.
      * intros (l & [= <- <-] & [H|H] & _); contradiction.
  - split; [discriminate | intros (l & H & _); discriminate].
  - split; [discriminate | intros (l & H & _); discriminate].
Qed.
